(** * Ocient datasource: result shaping, value browsing and query assembly

    A shallow embedding of the Grafana datasource plugin for Ocient:
    - [GoTime]: the part of Go's [time.Parse] that the backend relies on;
    - [Plugin]: the Go backend ([LoadPluginSettings], [NewDatasource],
      [QueryData], [executeQuery], [convertToDataFrames], [query],
      [CheckHealth]);
    - [DataSource]: the TypeScript front end ([applyTemplateVariables] and
      its time macros, [filterQuery], [getSchemas], [getTables],
      [getColumns], [getDistinctValueCount], [getDistinctColumnValues]);
    - [QueryEditor]: the query builder (the handlers of columns and where
      clauses, the modal of distinct values, [buildQuery], and the
      loaders of the schema and table pickers).
    The theorems about these definitions follow the definitions. *)

From Stdlib Require Import ZArith String Ascii List Floats.PrimFloat.
From stdpp Require Import gmap strings list fin_maps pretty.

Set Warnings "-register-all".

(* ===================================================================== *)
(** ** Go's [time] package, as far as the backend uses it *)
(* ===================================================================== *)

Module GoTime.

(** A [time.Time] as its civil fields and the offset of its zone in
    seconds east of UTC.  [time.Parse] yields UTC when the text carries
    no zone. *)
Record Time : Type := mkTime {
  year : Z; month : Z; day : Z;
  hour : Z; minute : Z; second : Z; nanosecond : Z;
  zoneOffset : Z
}.

(** [time.Time{}]: January 1, year 1, 00:00:00 UTC. *)
Definition zeroTime : Time := mkTime 1 1 1 0 0 0 0 0.

(** [time.RFC3339] *)
Definition RFC3339 : string := "2006-01-02T15:04:05Z07:00".

(** The layout elements ("std chunks") that occur in the three layouts
    the plugin passes to [time.Parse]; [Lit] is literal text between
    two elements. *)
Inductive chunk : Type :=
| Lit (prefix : string)
| stdLongYear          (* 2006 *)
| stdZeroMonth         (* 01 *)
| stdZeroDay           (* 02 *)
| stdHour              (* 15 *)
| stdZeroMinute        (* 04 *)
| stdZeroSecond        (* 05 *)
| stdFracSecond9       (* .999999999 *)
| stdISO8601ColonTZ.   (* Z07:00 *)

(** The result of running [nextStdChunk] to the end of the layout, for
    the layouts of this program; any other layout is outside the model
    and yields [None]. *)
Definition layoutChunks (layout : string) : option (list chunk) :=
  if String.eqb layout "2006-01-02 15:04:05.999999999" then
    Some [stdLongYear; Lit "-"; stdZeroMonth; Lit "-"; stdZeroDay; Lit " ";
          stdHour; Lit ":"; stdZeroMinute; Lit ":"; stdZeroSecond;
          stdFracSecond9]
  else if String.eqb layout "2006-01-02T15:04:05Z07:00" then
    Some [stdLongYear; Lit "-"; stdZeroMonth; Lit "-"; stdZeroDay; Lit "T";
          stdHour; Lit ":"; stdZeroMinute; Lit ":"; stdZeroSecond;
          stdISO8601ColonTZ]
  else if String.eqb layout "2006-01-02 15:04:05" then
    Some [stdLongYear; Lit "-"; stdZeroMonth; Lit "-"; stdZeroDay; Lit " ";
          stdHour; Lit ":"; stdZeroMinute; Lit ":"; stdZeroSecond]
  else None.

Definition digit (c : ascii) : option Z :=
  let n := Z.of_N (N_of_ascii c) in
  if ((48 <=? n) && (n <=? 57))%Z then Some (n - 48)%Z else None.

Definition commaOrPeriod (c : ascii) : bool :=
  Ascii.eqb c "." || Ascii.eqb c ",".

(** [getnum]: one or two digits; exactly two when [fixed]. *)
Definition getnum (s : string) (fixed : bool) : option (Z * string) :=
  match s with
  | String c0 rest =>
      match digit c0 with
      | None => None
      | Some d0 =>
          match rest with
          | String c1 rest' =>
              match digit c1 with
              | Some d1 => Some ((d0 * 10 + d1)%Z, rest')
              | None => if fixed then None else Some (d0, rest)
              end
          | EmptyString => if fixed then None else Some (d0, rest)
          end
      end
  | EmptyString => None
  end.

Fixpoint cutspace (s : string) : string :=
  match s with
  | String " " rest => cutspace rest
  | _ => s
  end.

(** [skip]: literal text of the layout must be matched; a run of spaces
    in the layout matches a run of spaces (or the end) of the value. *)
Fixpoint skip_loop (fuel : nat) (value prefix : string) : option string :=
  match fuel with
  | O => None
  | S fuel' =>
      match prefix with
      | EmptyString => Some value
      | String " " _ =>
          match value with
          | String v _ =>
              if negb (Ascii.eqb v " ") then None
              else skip_loop fuel' (cutspace value) (cutspace prefix)
          | EmptyString => skip_loop fuel' (cutspace value) (cutspace prefix)
          end
      | String p prefix' =>
          match value with
          | String v value' =>
              if Ascii.eqb v p then skip_loop fuel' value' prefix' else None
          | EmptyString => None
          end
      end
  end.

Definition skip (value prefix : string) : option string :=
  skip_loop (S (String.length prefix)) value prefix.

(** The leading digits of [s] and what follows them. *)
Fixpoint digits (s : string) : list Z * string :=
  match s with
  | String c rest =>
      match digit c with
      | Some d => let '(ds, rest') := digits rest in (d :: ds, rest')
      | None => ([], s)
      end
  | EmptyString => ([], s)
  end.

Definition atoi (ds : list Z) : Z :=
  fold_left (fun acc d => (acc * 10 + d)%Z) ds 0%Z.

(** [parseNanoseconds] on the digits after the separator: at most nine
    digits count, and fewer are scaled up to nanoseconds. *)
Definition parseNanoseconds (ds : list Z) : Z :=
  let ds := take 9 ds in
  (atoi ds * 10 ^ Z.of_nat (9 - length ds))%Z.

(** A fractional second at the head of [value]: separator, then at
    least one digit. *)
Definition fraction (value : string) : option (Z * string) :=
  match value with
  | String c rest =>
      if commaOrPeriod c then
        match digits rest with
        | ([], _) => None
        | (ds, rest') => Some (parseNanoseconds ds, rest')
        end
      else None
  | EmptyString => None
  end.

(** The next layout element after any literal text. *)
Fixpoint nextStd (layout : list chunk) : option chunk :=
  match layout with
  | Lit _ :: layout' => nextStd layout'
  | c :: _ => Some c
  | [] => None
  end.

Definition isLeap (y : Z) : bool :=
  ((y mod 4 =? 0) && (negb (y mod 100 =? 0) || (y mod 400 =? 0)))%Z.

Definition daysIn (m y : Z) : Z :=
  (if (m =? 2) && isLeap y then 29
   else if m =? 2 then 28
   else if (m =? 4) || (m =? 6) || (m =? 9) || (m =? 11) then 30
   else 31)%Z.

Definition inRange (lo x hi : Z) : bool := ((lo <=? x) && (x <? hi))%Z.

(** The zone of [Z07:00]: "Z", or sign, two digits, colon, two digits. *)
Definition parseColonTZ (value : string) : option (Z * string) :=
  match value with
  | String "Z" rest => Some (0%Z, rest)
  | String sign (String h1 (String h2 (String ":" (String m1 (String m2 rest))))) =>
      match digit h1, digit h2, digit m1, digit m2 with
      | Some a, Some b, Some c, Some d =>
          let hr := (a * 10 + b)%Z in
          let mm := (c * 10 + d)%Z in
          if ((24 <? hr) || (60 <? mm))%Z then None
          else
            let off := ((hr * 60 + mm) * 60)%Z in
            if Ascii.eqb sign "+" then Some (off, rest)
            else if Ascii.eqb sign "-" then Some ((- off)%Z, rest)
            else None
      | _, _, _, _ => None
      end
  | _ => None
  end.

(** The main loop of [Parse]: one layout element at a time, consuming
    the value from the left; any error ends the parse. *)
Fixpoint parseLoop (layout : list chunk) (value : string) (t : Time)
  : option Time :=
  match layout with
  | [] =>
      match value with
      | EmptyString =>
          (* validate the day of the month *)
          if ((day t <? 1) || (daysIn (month t) (year t) <? day t))%Z
          then None else Some t
      | _ => None (* extra text *)
      end
  | Lit prefix :: layout' =>
      match skip value prefix with
      | Some value' => parseLoop layout' value' t
      | None => None
      end
  | stdLongYear :: layout' =>
      match value with
      | String c0 (String c1 (String c2 (String c3 value'))) =>
          match digit c0, digit c1, digit c2, digit c3 with
          | Some a, Some b, Some c, Some d =>
              parseLoop layout' value'
                (mkTime (atoi [a; b; c; d]) (month t) (day t) (hour t)
                   (minute t) (second t) (nanosecond t) (zoneOffset t))
          | _, _, _, _ => None
          end
      | _ => None
      end
  | stdZeroMonth :: layout' =>
      match getnum value true with
      | Some (m, value') =>
          if inRange 1 m 13 then
            parseLoop layout' value'
              (mkTime (year t) m (day t) (hour t) (minute t) (second t)
                 (nanosecond t) (zoneOffset t))
          else None
      | None => None
      end
  | stdZeroDay :: layout' =>
      match getnum value true with
      | Some (d, value') =>
          parseLoop layout' value'
            (mkTime (year t) (month t) d (hour t) (minute t) (second t)
               (nanosecond t) (zoneOffset t))
      | None => None
      end
  | stdHour :: layout' =>
      match getnum value false with
      | Some (h, value') =>
          if inRange 0 h 24 then
            parseLoop layout' value'
              (mkTime (year t) (month t) (day t) h (minute t) (second t)
                 (nanosecond t) (zoneOffset t))
          else None
      | None => None
      end
  | stdZeroMinute :: layout' =>
      match getnum value true with
      | Some (m, value') =>
          if inRange 0 m 60 then
            parseLoop layout' value'
              (mkTime (year t) (month t) (day t) (hour t) m (second t)
                 (nanosecond t) (zoneOffset t))
          else None
      | None => None
      end
  | stdZeroSecond :: layout' =>
      match getnum value true with
      | Some (s, value') =>
          if inRange 0 s 60 then
            let t' := mkTime (year t) (month t) (day t) (hour t) (minute t)
                        s (nanosecond t) (zoneOffset t) in
            (* a fractional second in the input that the layout does
               not ask for next is consumed here *)
            match nextStd layout', fraction value' with
            | Some stdFracSecond9, _ => parseLoop layout' value' t'
            | _, Some (ns, value'') =>
                parseLoop layout' value''
                  (mkTime (year t) (month t) (day t) (hour t) (minute t)
                     s ns (zoneOffset t))
            | _, None => parseLoop layout' value' t'
            end
          else None
      | None => None
      end
  | stdFracSecond9 :: layout' =>
      match fraction value with
      | Some (ns, value') =>
          parseLoop layout' value'
            (mkTime (year t) (month t) (day t) (hour t) (minute t)
               (second t) ns (zoneOffset t))
      | None => parseLoop layout' value t (* fractional second omitted *)
      end
  | stdISO8601ColonTZ :: layout' =>
      match parseColonTZ value with
      | Some (off, value') =>
          parseLoop layout' value'
            (mkTime (year t) (month t) (day t) (hour t) (minute t)
               (second t) (nanosecond t) off)
      | None => None
      end
  end.

(** [time.Parse(layout, value)]; [None] stands for a non-nil error. *)
Definition Parse (layout value : string) : option Time :=
  match layoutChunks layout with
  | Some chunks => parseLoop chunks value (mkTime 0 (-1) (-1) 0 0 0 0 0)
  | None => None
  end.

End GoTime.

(* ===================================================================== *)
(** ** The Go backend: pkg/plugin *)
(* ===================================================================== *)

Module Plugin.
Import GoTime.

(** What [encoding/json] puts into an [interface{}]: [nil], [float64],
    [string], [bool], [[]interface{}] or [map[string]interface{}]. *)
Inductive value : Type :=
| VNil
| VFloat64 (f : float)
| VString (s : string)
| VBool (b : bool)
| VSlice (l : list value)
| VMap (l : list (string * value)).

(** [map[string]interface{}] *)
Abbreviation row := (gmap string value).

(** [result[col]]: a missing key reads as the nil interface. *)
Definition index (result : row) (col : string) : value :=
  default VNil (result !! col).

(** The keys of a row in one fixed order.  Go's [range] over a map
    visits them in an unspecified order: the results below are stated
    for every order, see [rangeOrder]. *)
Definition keys (result : row) : list string := (map_to_list result).*1.

(** [columns] is an order in which [for k := range result] may visit
    the keys. *)
Definition rangeOrder (result : row) (columns : list string) : Prop :=
  columns ≡ₚ keys result.

(** The tags kept in [columnTypes]: "float64", "string", "bool",
    "timestamp". *)
Inductive ColumnType : Type := TFloat64 | TString | TBool | TTimestamp.

(** The typed slices kept in [columnValues]. *)
Inductive vector : Type :=
| Float64s (values : list float)
| Strings (values : list string)
| Bools (values : list bool)
| Times (values : list Time).

Definition vectorLen (v : vector) : nat :=
  match v with
  | Float64s l => length l
  | Strings l => length l
  | Bools l => length l
  | Times l => length l
  end.

(** [data.Field] and [data.Frame], reduced to name and values. *)
Record Field : Type := NewField { fieldName : string; fieldValues : vector }.
Record Frame : Type := mkFrame { frameName : string; Fields : list Field }.

Definition NewFrame (name : string) : Frame := mkFrame name [].

(** A Go call either returns or panics (here: a failed type
    assertion). *)
Inductive outcome (A : Type) : Type :=
| Returned (a : A)
| Panicked.
Arguments Returned {A} a.
Arguments Panicked {A}.

Definition bind {A B} (m : outcome A) (k : A -> outcome B) : outcome B :=
  match m with
  | Returned a => k a
  | Panicked => Panicked
  end.

(** [for _, x := range l { s = body(s, x) }] with a body that may panic. *)
Fixpoint forEach {A S} (body : S -> A -> outcome S) (l : list A) (s : S)
  : outcome S :=
  match l with
  | [] => Returned s
  | x :: l' => bind (body s x) (forEach body l')
  end.

Definition ocientTimestampFormat : string := "2006-01-02 15:04:05.999999999".

(** The two maps of [convertToDataFrames]. *)
Record columnsState : Type := mkState {
  columnValues : gmap string vector;
  columnTypes : gmap string ColumnType
}.

Definition declare (st : columnsState) (col : string) (values : vector)
    (ty : ColumnType) : columnsState :=
  mkState (<[col := values]> (columnValues st)) (<[col := ty]> (columnTypes st)).

Definition store (st : columnsState) (col : string) (values : vector)
  : columnsState :=
  mkState (<[col := values]> (columnValues st)) (columnTypes st).

Section Convert.
(** [time.Parse] and [fmt.Sprintf("%v", _)] belong to Go's library. *)
Variable time_Parse : string -> string -> option Time.
Variable Sprintf_v : value -> string.

(** Body of the first loop: choose the column's type from the value
    in the first row. *)
Definition declareColumn (first : row) (st : columnsState) (col : string)
  : columnsState :=
  let valueType := index first col in
  let regular :=
    match valueType with
    | VFloat64 _ => declare st col (Float64s []) TFloat64
    | VString _ => declare st col (Strings []) TString
    | VBool _ => declare st col (Bools []) TBool
    | _ => declare st col (Strings []) TString
    end in
  match valueType with
  | VString strVal =>
      match time_Parse ocientTimestampFormat strVal with
      | Some _ => declare st col (Times []) TTimestamp
      | None =>
          match time_Parse RFC3339 strVal with
          | Some _ => declare st col (Times []) TTimestamp
          | None =>
              match time_Parse "2006-01-02 15:04:05" strVal with
              | Some _ => declare st col (Times []) TTimestamp
              | None => regular
              end
          end
      end
  | _ => regular
  end.

(** Body of the inner fill loop: append the cell of [result] to the
    slice of [col].  [columnValues[col].([]T)] panics when the slice
    stored for [col] has another element type. *)
Definition appendCell (result : row) (st : columnsState) (col : string)
  : outcome columnsState :=
  let val := index result col in
  match columnTypes st !! col with
  | Some TFloat64 =>
      match columnValues st !! col with
      | Some (Float64s values) =>
          match val with
          | VFloat64 v => Returned (store st col (Float64s (values ++ [v])))
          | _ => Returned (store st col (Float64s (values ++ [0%float])))
          end
      | _ => Panicked
      end
  | Some TString =>
      match columnValues st !! col with
      | Some (Strings values) =>
          match val with
          | VString v => Returned (store st col (Strings (values ++ [v])))
          | _ => Returned (store st col (Strings (values ++ [Sprintf_v val])))
          end
      | _ => Panicked
      end
  | Some TBool =>
      match columnValues st !! col with
      | Some (Bools values) =>
          match val with
          | VBool v => Returned (store st col (Bools (values ++ [v])))
          | _ => Returned (store st col (Bools (values ++ [false])))
          end
      | _ => Panicked
      end
  | Some TTimestamp =>
      match columnValues st !! col with
      | Some (Times values) =>
          match val with
          | VString strVal =>
              match time_Parse ocientTimestampFormat strVal with
              | Some t => Returned (store st col (Times (values ++ [t])))
              | None =>
                  match time_Parse RFC3339 strVal with
                  | Some t => Returned (store st col (Times (values ++ [t])))
                  | None =>
                      match time_Parse "2006-01-02 15:04:05" strVal with
                      | Some t =>
                          Returned (store st col (Times (values ++ [t])))
                      | None =>
                          Returned (store st col (Times (values ++ [zeroTime])))
                      end
                  end
              end
          | _ => Returned (store st col (Times (values ++ [zeroTime])))
          end
      | _ => Panicked
      end
  | None => Returned st
  end.

(** Body of the last loop: one field per column that has a type. *)
Definition addField (st : columnsState) (fields : list Field) (col : string)
  : outcome (list Field) :=
  match columnTypes st !! col with
  | Some TFloat64 =>
      match columnValues st !! col with
      | Some (Float64s values) =>
          Returned (fields ++ [NewField col (Float64s values)])
      | _ => Panicked
      end
  | Some TString =>
      match columnValues st !! col with
      | Some (Strings values) =>
          Returned (fields ++ [NewField col (Strings values)])
      | _ => Panicked
      end
  | Some TBool =>
      match columnValues st !! col with
      | Some (Bools values) =>
          Returned (fields ++ [NewField col (Bools values)])
      | _ => Panicked
      end
  | Some TTimestamp =>
      match columnValues st !! col with
      | Some (Times values) =>
          Returned (fields ++ [NewField col (Times values)])
      | _ => Panicked
      end
  | None => Returned fields
  end.

(** [convertToDataFrames] once the keys of the first row have been
    collected into [columns]. *)
Definition convertColumns (columns : list string) (first : row)
    (results : list row) : outcome (Frame * option string) :=
  let st0 := fold_left (declareColumn first) columns (mkState ∅ ∅) in
  bind (forEach (fun st result => forEach (appendCell result) columns st)
          results st0) (fun st =>
  bind (forEach (addField st) columns []) (fun fields =>
  Returned (mkFrame "response" fields, None))).

(** [convertToDataFrames]; the second component is the [error]. *)
Definition convertToDataFrames (results : list row)
  : outcome (Frame * option string) :=
  match results with
  | [] => Returned (NewFrame "response", None)
  | first :: _ => convertColumns (keys first) first results
  end.

End Convert.

(** [OcientStatus] and [CollectionResponse], the decoded reply of the
    execute endpoint. *)
Record OcientStatus : Type := mkStatus {
  Reason : string;
  SQLState : string;
  VendorCode : Z
}.

Record CollectionResponse : Type := mkResponse {
  QueryID : string;
  Status : OcientStatus;
  Data : list row
}.

(** What one call of the execute endpoint comes to: the step of
    [executeQuery] that failed, with the text of its error, or the
    decoded reply. *)
Inductive exchange : Type :=
| MarshalError (err : string)      (* json.Marshal *)
| RequestError (err : string)      (* http.NewRequestWithContext *)
| TransportError (err : string)    (* client.Do *)
| ReadError (err : string)         (* io.ReadAll *)
| ParseError (err : string)        (* json.Unmarshal *)
| Answer (response : CollectionResponse).

(** [backend.Status] values used by [query]. *)
Inductive StatusCode : Type := StatusBadRequest | StatusInternal.

Record DataResponse : Type := mkDataResponse {
  Frames : list Frame;
  Error : option string;
  ResponseStatus : option StatusCode
}.

Definition ErrDataResponse (status : StatusCode) (message : string)
  : DataResponse :=
  mkDataResponse [] (Some message) (Some status).

Record queryModel : Type := mkQueryModel { QueryText : string }.

Section Query.
Variable time_Parse : string -> string -> option Time.
Variable Sprintf_v : value -> string.
(** The remote system: what the POST of a statement comes to. *)
Variable remote : string -> exchange.

(** [executeQuery]: rows, status and error; a nil slice is the empty
    list. *)
Definition executeQuery (query : string)
  : list row * option OcientStatus * option string :=
  match remote query with
  | MarshalError err => ([], None, Some ("error marshaling query: " +:+ err))
  | RequestError err => ([], None, Some ("error creating request: " +:+ err))
  | TransportError err => ([], None, Some ("error executing query: " +:+ err))
  | ReadError err => ([], None, Some ("error reading response: " +:+ err))
  | ParseError err => ([], None, Some ("error parsing response: " +:+ err))
  | Answer response =>
      if negb (String.eqb (SQLState (Status response)) "00000") then
        ([], Some (Status response),
         Some ("query error: " +:+ Reason (Status response)
               +:+ " (SQL state: " +:+ SQLState (Status response)
               +:+ ", vendor code: " +:+ pretty (VendorCode (Status response))
               +:+ ")"))
      else (Data response, Some (Status response), None)
  end.

(** [query]; [decoded] is what [json.Unmarshal(query.JSON, &qm)]
    comes to: the text of its error, or the model. *)
Definition query (decoded : string + queryModel) : outcome DataResponse :=
  match decoded with
  | inl err =>
      Returned (ErrDataResponse StatusBadRequest ("json unmarshal: " +:+ err))
  | inr qm =>
      if String.eqb (QueryText qm) "" then
        Returned (ErrDataResponse StatusBadRequest "query text is empty")
      else
        let '(results, status, err) := executeQuery (QueryText qm) in
        match err with
        | Some err =>
            match status with
            | Some status =>
                let errMsg :=
                  "Query failed: " +:+ Reason status
                  +:+ " (SQL state: " +:+ SQLState status
                  +:+ ", vendor code: " +:+ pretty (VendorCode status)
                  +:+ ")" in
                Returned (ErrDataResponse StatusInternal errMsg)
            | None =>
                Returned (ErrDataResponse StatusInternal
                            ("query execution error: " +:+ err))
            end
        | None =>
            bind (convertToDataFrames time_Parse Sprintf_v results)
              (fun '(frame, err) =>
                 match err with
                 | Some err =>
                     Returned (ErrDataResponse StatusInternal
                                 ("error converting results: " +:+ err))
                 | None => Returned (mkDataResponse [frame] None None)
                 end)
        end
  end.

End Query.

(** [backend.DataQuery], reduced to what [QueryData] and [query] read. *)
Record DataQuery : Type := mkDataQuery { RefID : string; JSON : string }.

(** [models.PluginSettings]; [Secrets] is a pointer and may be nil. *)
Record SecretPluginSettings : Type := mkSecrets {
  Username : string;
  Password : string
}.

Record PluginSettings : Type := mkSettings {
  Host : string;
  Port : Z;
  Database : string;
  InsecureSkipVerify : bool;
  Secrets : option SecretPluginSettings
}.

(** [loadSecretPluginSettings]: a key that is missing in the map reads as
    the empty string. *)
Definition loadSecretPluginSettings (source : gmap string string)
  : SecretPluginSettings :=
  mkSecrets (default "" (source !! "username")) (default "" (source !! "password")).

(** [LoadPluginSettings]; [decoded] is what
    [json.Unmarshal(source.JSONData, &settings)] comes to (the text of its
    error, or the settings it filled in), [secure] is
    [source.DecryptedSecureJSONData].  The result is the settings or the
    error. *)
Definition LoadPluginSettings (decoded : string + PluginSettings)
    (secure : gmap string string) : PluginSettings + string :=
  match decoded with
  | inl err => inr ("could not unmarshal PluginSettings json: " +:+ err)
  | inr settings =>
      let settings :=
        if (Port settings =? 0)%Z
        then mkSettings (Host settings) 443 (Database settings)
               (InsecureSkipVerify settings) (Secrets settings)
        else settings in
      inl (mkSettings (Host settings) (Port settings) (Database settings)
             (InsecureSkipVerify settings)
             (Some (loadSecretPluginSettings secure)))
  end.

Record Datasource : Type := mkDatasource { settings : PluginSettings }.

(** [NewDatasource]: the instance, or the error of the settings. *)
Definition NewDatasource (decoded : string + PluginSettings)
    (secure : gmap string string) : Datasource + string :=
  match LoadPluginSettings decoded secure with
  | inr err => inr err
  | inl config => inl (mkDatasource config)
  end.

(** [backend.HealthStatus] and [backend.CheckHealthResult]. *)
Inductive HealthStatus : Type :=
| HealthStatusUnknown
| HealthStatusOk
| HealthStatusError.

Record CheckHealthResult : Type := mkHealth {
  HealthState : HealthStatus;
  Message : string
}.

Section Handlers.
Variable time_Parse : string -> string -> option Time.
Variable Sprintf_v : value -> string.
Variable remote : string -> exchange.
(** [json.Unmarshal(query.JSON, &qm)]: the text of the error, or the
    model. *)
Variable json_Unmarshal : string -> string + queryModel.

(** [QueryData]: the map of responses by RefID, and the error. *)
Definition QueryData (queries : list DataQuery)
  : outcome (gmap string DataResponse * option string) :=
  bind (forEach
          (fun (responses : gmap string DataResponse) q =>
             bind (query time_Parse Sprintf_v remote (json_Unmarshal (JSON q)))
               (fun res => Returned (<[RefID q := res]> responses)))
          queries ∅)
    (fun responses => Returned (responses, None)).

(** [CheckHealth].  The settings are logged first, which reads through
    the [Secrets] pointer: a nil pointer panics there. *)
Definition CheckHealth (d : Datasource) : outcome CheckHealthResult :=
  match Secrets (settings d) with
  | None => Panicked
  | Some secrets =>
      if String.eqb (Host (settings d)) "" then
        Returned (mkHealth HealthStatusError "Host is missing")
      else if (Port (settings d) =? 0)%Z then
        Returned (mkHealth HealthStatusError "Port is missing")
      else if String.eqb (Database (settings d)) "" then
        Returned (mkHealth HealthStatusError "Database is missing")
      else if String.eqb (Username secrets) "" then
        Returned (mkHealth HealthStatusError "Username is missing")
      else if String.eqb (Password secrets) "" then
        Returned (mkHealth HealthStatusError "Password is missing")
      else
        let '(_, status, err) := executeQuery remote "SELECT 1" in
        match err with
        | Some err =>
            let errMsg :=
              match status with
              | Some status =>
                  "Connection test failed: " +:+ Reason status
                  +:+ " (SQL state: " +:+ SQLState status +:+ ")"
              | None => "Connection test failed: " +:+ err
              end in
            Returned (mkHealth HealthStatusError errMsg)
        | None => Returned (mkHealth HealthStatusOk "Data source is working")
        end
  end.

End Handlers.

End Plugin.

(* ===================================================================== *)
(** ** The front end: src/datasource.ts *)
(* ===================================================================== *)

Module DataSource.

(** The values a frame may hold on the JavaScript side.  Numbers are
    the integral counts and offsets this code computes with. *)
Inductive jsval : Type :=
| JUndefined
| JNull
| JBoolean (b : bool)
| JNumber (n : Z)
| JString (s : string).

(** [String(value)] *)
Definition toString (v : jsval) : string :=
  match v with
  | JUndefined => "undefined"
  | JNull => "null"
  | JBoolean true => "true"
  | JBoolean false => "false"
  | JNumber n => pretty n
  | JString s => s
  end.

Record Field : Type := mkField { name : string; values : list jsval }.
Record DataFrame : Type := mkDataFrame { fields : option (list Field) }.
Record DataQueryResponse : Type := mkDataQueryResponse {
  data : option (list DataFrame)
}.

(** The target of a request: [{ refId, queryText }]. *)
Record MyQuery : Type := mkQuery { refId : string; queryText : string }.

(** How [await firstValueFrom(this.query(...))] ends. *)
Inductive settled : Type :=
| Fulfilled (response : option DataQueryResponse)
| Rejected (error : string).

Record Options : Type := mkOptions {
  limit : option Z;
  offset : option Z;
  searchPattern : option string
}.

Record Page : Type := mkPage {
  pageValues : list string;
  totalCount : Z;
  hasMore : bool
}.

(** [!s] for a string. *)
Definition falsy (s : string) : bool := String.eqb s "".

(** [n || d] for an optional number. *)
Definition numberOr (n : option Z) (d : Z) : Z :=
  match n with
  | Some n => if (n =? 0)%Z then d else n
  | None => d
  end.

(** [s || ''] for an optional string. *)
Definition stringOr (s : option string) : string := default "" s.

Definition newline : string := String (ascii_of_nat 10) "".

(** Asynchronous code as a function of the requests issued so far: it
    yields its result and the extended list of requests. *)
Definition Async (A : Type) : Type := list MyQuery -> A * list MyQuery.

Definition ret {A} (a : A) : Async A := fun issued => (a, issued).

Definition await {A B} (m : Async A) (k : A -> Async B) : Async B :=
  fun issued => let '(a, issued') := m issued in k a issued'.

Notation "'let/await' x := m 'in' k" := (await m (fun x => k))
  (at level 10, x name, m at level 100, k at level 200).

Section Backend.
(** The backend behind [this.query]. *)
Variable backend : MyQuery -> settled.

Definition this_query (q : MyQuery) : Async settled :=
  fun issued => (backend q, issued ++ [q]).

Definition countQuery (schema table column : string) : MyQuery :=
  mkQuery "distinct_count"
    ("SELECT COUNT(DISTINCT " +:+ column +:+ ") AS value_count FROM "
     +:+ schema +:+ "." +:+ table +:+ " WHERE " +:+ column
     +:+ " IS NOT NULL").

Definition getDistinctValueCount (schema table column : string) : Async Z :=
  if falsy schema || falsy table || falsy column then ret 0%Z
  else
    let query := countQuery schema table column in
    let/await response := this_query query in
    match response with
    | Fulfilled (Some (mkDataQueryResponse (Some (frame :: _)))) =>
        match fields frame with
        | Some (field :: _) =>
            let countValue := nth 0 (values field) JUndefined in
            match countValue with
            | JNumber n => ret n
            | _ => ret 0%Z
            end
        | _ => ret 0%Z
        end
    | Fulfilled _ => ret 0%Z
    | Rejected _ => ret 0%Z (* caught and logged *)
    end.

(** The text of the value query, built up as in the source. *)
Definition valueQueryText (schema table column : string) (limit offset : Z)
    (searchPattern : string) : string :=
  let queryText :=
    "SELECT DISTINCT " +:+ column +:+ " " +:+ newline
    +:+ "                     FROM " +:+ schema +:+ "." +:+ table
    +:+ " " +:+ newline
    +:+ "                     WHERE " +:+ column +:+ " IS NOT NULL" in
  let queryText :=
    if negb (falsy searchPattern) then
      queryText +:+ " AND LOWER(CAST(" +:+ column
      +:+ " AS VARCHAR)) LIKE LOWER('%" +:+ searchPattern +:+ "%')"
    else queryText in
  queryText +:+ " ORDER BY " +:+ column +:+ " ASC " +:+ newline
  +:+ "                  LIMIT " +:+ pretty limit +:+ " OFFSET "
  +:+ pretty offset.

Definition getDistinctColumnValues (schema table column : string)
    (options : option Options) : Async Page :=
  if falsy schema || falsy table || falsy column then
    ret (mkPage [] 0 false)
  else
    let limit := numberOr (options ≫= limit) 100 in
    let offset := numberOr (options ≫= offset) 0 in
    let searchPattern := stringOr (options ≫= searchPattern) in
    let/await totalCount := getDistinctValueCount schema table column in
    let query :=
      mkQuery "distinct_values"
        (valueQueryText schema table column limit offset searchPattern) in
    let/await response := this_query query in
    match response with
    | Fulfilled (Some (mkDataQueryResponse (Some (frame :: _)))) =>
        match fields frame with
        | Some (field :: _) =>
            let values := map toString (values field) in
            ret (mkPage values totalCount
                   (offset + Z.of_nat (length values) <? totalCount)%Z)
        | _ => ret (mkPage [] totalCount false)
        end
    | Fulfilled _ => ret (mkPage [] totalCount false)
    | Rejected _ => ret (mkPage [] totalCount false) (* caught and logged *)
    end.

End Backend.

(** How an [async] function of this class ends: with its value, or with
    the error it throws. *)
Inductive result (A : Type) : Type :=
| Resolved (a : A)
| Thrown (error : string).
Arguments Resolved {A} a.
Arguments Thrown {A} error.

(** The error of reading a property of [undefined]. *)
Definition TypeError : string := "TypeError".

(** [ColumnInfo] *)
Record ColumnInfo : Type := mkColumnInfo {
  column_name : jsval;
  data_type : jsval;
  is_nullable : jsval;
  column_default : jsval
}.

(** [vector.get(i)]: [undefined] past the end. *)
Definition get (field : Field) (i : nat) : jsval :=
  nth i (values field) JUndefined.

(** [fields.find(f => f.name === wanted)] *)
Definition findField (wanted : string) (fs : list Field) : option Field :=
  List.find (fun f => String.eqb (name f) wanted) fs.

Section Discovery.
Variable backend : MyQuery -> settled.

Definition schemasQuery : MyQuery :=
  mkQuery "schemas"
    "SELECT DISTINCT(table_schema) FROM information_schema.tables ORDER BY table_schema".

(** [getSchemas]: a test query whose failure is logged and dropped, then
    the schema query, whose failure is thrown again. *)
Definition getSchemas : Async (result (list jsval)) :=
  let testQuery := mkQuery "test" "SELECT 1 as test" in
  let/await testResponse := this_query backend testQuery in
  let query := schemasQuery in
  let/await response := this_query backend query in
  match response with
  | Rejected error => ret (Thrown error)
  | Fulfilled (Some (mkDataQueryResponse (Some (frame :: _)))) =>
      match fields frame with
      | Some (field :: _) => ret (Resolved (values field))
      | _ => ret (Resolved [])
      end
  | Fulfilled _ => ret (Resolved [])
  end.

Definition tablesQuery (schema : string) : MyQuery :=
  mkQuery "tables"
    ("SELECT DISTINCT(table_name) FROM information_schema.tables WHERE table_schema = '"
     +:+ schema +:+ "' ORDER BY table_name").

(** [getTables]: nothing guards [response.data[0].fields[0]]. *)
Definition getTables (schema : string) : Async (result (list jsval)) :=
  if falsy schema then ret (Resolved [])
  else
    let query := tablesQuery schema in
    let/await response := this_query backend query in
    match response with
    | Rejected error => ret (Thrown error)
    | Fulfilled (Some (mkDataQueryResponse (Some (frame :: _)))) =>
        match fields frame with
        | Some (field :: _) => ret (Resolved (values field))
        | _ => ret (Thrown TypeError)
        end
    | Fulfilled _ => ret (Resolved [])
    end.

Definition columnsQuery (schema table : string) : MyQuery :=
  mkQuery "columns"
    ("SELECT column_name, data_type, is_nullable, column_default FROM information_schema.columns WHERE table_schema = '"
     +:+ schema +:+ "' AND table_name = '" +:+ table
     +:+ "' ORDER BY column_name").

(** [getColumns] *)
Definition getColumns (schema table : string)
  : Async (result (list ColumnInfo)) :=
  if falsy schema || falsy table then ret (Resolved [])
  else
    let query := columnsQuery schema table in
    let/await response := this_query backend query in
    match response with
    | Rejected error => ret (Thrown error)
    | Fulfilled (Some (mkDataQueryResponse (Some (frame :: _)))) =>
        match fields frame with
        | None => ret (Thrown TypeError)
        | Some fs =>
            let nameField := findField "column_name" fs in
            let typeField := findField "data_type" fs in
            let nullableField := findField "is_nullable" fs in
            let defaultField := findField "column_default" fs in
            match nameField, typeField, nullableField, defaultField with
            | Some nameField, Some typeField, Some nullableField,
              Some defaultField =>
                let length := length (values nameField) in
                ret (Resolved
                       (map (fun i =>
                               mkColumnInfo (get nameField i) (get typeField i)
                                 (get nullableField i) (get defaultField i))
                          (seq 0 length)))
            | _, _, _, _ => ret (Resolved [])
            end
        end
    | Fulfilled _ => ret (Resolved [])
    end.

End Discovery.

(** A JavaScript [Date] by what its UTC getters return; the getters of an
    invalid date return [NaN]. *)
Inductive Date : Type :=
| InvalidDate
| UTCDate (fullYear month date hours minutes seconds : Z).

Definition getUTCFullYear (d : Date) : option Z :=
  match d with UTCDate y _ _ _ _ _ => Some y | InvalidDate => None end.
Definition getUTCMonth (d : Date) : option Z :=
  match d with UTCDate _ m _ _ _ _ => Some m | InvalidDate => None end.
Definition getUTCDate (d : Date) : option Z :=
  match d with UTCDate _ _ d _ _ _ => Some d | InvalidDate => None end.
Definition getUTCHours (d : Date) : option Z :=
  match d with UTCDate _ _ _ h _ _ => Some h | InvalidDate => None end.
Definition getUTCMinutes (d : Date) : option Z :=
  match d with UTCDate _ _ _ _ m _ => Some m | InvalidDate => None end.
Definition getUTCSeconds (d : Date) : option Z :=
  match d with UTCDate _ _ _ _ _ s => Some s | InvalidDate => None end.

(** [String(n)] for a number that is an integer or [NaN]. *)
Definition numberToString (n : option Z) : string :=
  match n with
  | Some n => pretty n
  | None => "NaN"
  end.

Fixpoint repeat0 (n : nat) : string :=
  match n with
  | O => ""
  | S n' => String "0" (repeat0 n')
  end.

(** [s.padStart(2, '0')] *)
Definition padStart2 (s : string) : string :=
  repeat0 (2 - String.length s) +:+ s.

(** The text is matched at the head of [s]. *)
Fixpoint startsWith (pattern s : string) : bool :=
  match pattern, s with
  | EmptyString, _ => true
  | String p pattern', String c s' => Ascii.eqb p c && startsWith pattern' s'
  | String _ _, EmptyString => false
  end.

(** [s.replace(/pattern/g, replacement)] for a literal, non-empty pattern
    and a replacement without [$]: matches are taken from the left and do
    not overlap; [skip] counts the characters of a match still to pass. *)
Fixpoint replaceFrom (pattern replacement : string) (skip : nat) (s : string)
  : string :=
  match s with
  | EmptyString => EmptyString
  | String c s' =>
      match skip with
      | S skip' => replaceFrom pattern replacement skip' s'
      | O =>
          if startsWith pattern s then
            replacement
            +:+ replaceFrom pattern replacement (String.length pattern - 1) s'
          else String c (replaceFrom pattern replacement 0 s')
      end
  end.

Definition replaceAll (pattern replacement s : string) : string :=
  replaceFrom pattern replacement 0 s.

Section Templates.
(** [new Date(text)] *)
Variable newDate : string -> Date.
(** [getTemplateSrv().replace(text, scopedVars)] for the variables of the
    call. *)
Variable templateSrv_replace : string -> string.

(** [formatOcientTimestamp] *)
Definition formatOcientTimestamp (isoTimestamp : string) : string :=
  let date := newDate isoTimestamp in
  let year := numberToString (getUTCFullYear date) in
  let month := padStart2 (numberToString ((fun m => m + 1)%Z <$> getUTCMonth date)) in
  let day := padStart2 (numberToString (getUTCDate date)) in
  let hours := padStart2 (numberToString (getUTCHours date)) in
  let minutes := padStart2 (numberToString (getUTCMinutes date)) in
  let seconds := padStart2 (numberToString (getUTCSeconds date)) in
  year +:+ "-" +:+ month +:+ "-" +:+ day +:+ " " +:+ hours +:+ ":"
  +:+ minutes +:+ ":" +:+ seconds.

Definition getTimeFromValue : string :=
  formatOcientTimestamp (templateSrv_replace "${__from:date:iso}").

Definition getTimeToValue : string :=
  formatOcientTimestamp (templateSrv_replace "${__to:date:iso}").

(** [applyTemplateVariables]: the [queryText] of the query it returns;
    the other fields are copied. *)
Definition applyTemplateVariables (queryText : option string) : string :=
  let queryText := stringOr queryText in
  let queryText := templateSrv_replace queryText in
  let queryText :=
    replaceAll "$__timeFrom()" ("'" +:+ getTimeFromValue +:+ "'") queryText in
  let queryText :=
    replaceAll "$__timeTo()" ("'" +:+ getTimeToValue +:+ "'") queryText in
  queryText.

End Templates.

(** [filterQuery]: [!!query.queryText] *)
Definition filterQuery (queryText : option string) : bool :=
  match queryText with
  | Some text => negb (falsy text)
  | None => false
  end.

End DataSource.

(* ===================================================================== *)
(** ** The query builder: src/components/QueryEditor.tsx *)
(* ===================================================================== *)

Module QueryEditor.

Record SelectedColumn : Type := mkSelectedColumn {
  name : string;
  isTimeseriesColumn : option bool
}.

Record WhereClause : Type := mkWhereClause {
  column : string;
  operator : string;
  value : string
}.

(** [Array.prototype.join] on strings. *)
Fixpoint join (sep : string) (l : list string) : string :=
  match l with
  | [] => ""
  | [x] => x
  | x :: l' => x +:+ sep +:+ join sep l'
  end.

(** A string that is present and not empty. *)
Definition truthy (s : option string) : bool :=
  match s with
  | Some s => negb (String.eqb s "")
  | None => false
  end.

(** [buildQuery]: the text handed to [onChange] as [queryText] before
    [onRunQuery] is called; [None] when the function does nothing.
    [schema] and [table] are [query.schema] and [query.table]. *)
Definition buildQuery (schema table : option string)
    (selectedColumns : list SelectedColumn) (whereClauses : list WhereClause)
    (timeseriesColumn : option string) : option string :=
  if truthy schema && truthy table then
    let columnsStr := "*" in
    let columnsStr :=
      if (0 <? length selectedColumns)%nat
      then join ", " (map name selectedColumns) else columnsStr in
    let sql :=
      "SELECT " +:+ columnsStr +:+ " FROM " +:+ default "" schema +:+ "."
      +:+ default "" table in
    let sql :=
      if (0 <? length whereClauses)%nat || truthy timeseriesColumn then
        let sql := sql +:+ " WHERE " in
        let whereClauseStrings :=
          map (fun clause =>
                 column clause +:+ " " +:+ operator clause +:+ " '"
                 +:+ value clause +:+ "'") whereClauses in
        let whereClauseStrings :=
          if truthy timeseriesColumn then
            let ts := default "" timeseriesColumn in
            let timeFilter :=
              ts +:+ " >= $__timeFrom() AND " +:+ ts
              +:+ " <= $__timeTo() ORDER BY " +:+ ts +:+ " ASC" in
            whereClauseStrings ++ [timeFilter]
          else whereClauseStrings in
        sql +:+ join " AND " whereClauseStrings
      else sql in
    Some sql
  else None.

(** [ColumnInfo] as the editor types it. *)
Record ColumnInfo : Type := mkColumnInfo {
  column_name : string;
  data_type : string
}.

(** The fields of the [query] prop that the handlers read or write. *)
Record MyQuery : Type := mkMyQuery {
  q_queryText : option string;
  q_schema : option string;
  q_table : option string;
  q_rawQuery : option bool;
  q_selectedColumns : option (list SelectedColumn);
  q_whereClauses : option (list WhereClause);
  q_timeseriesColumn : option string
}.

(** The state hooks of the component. *)
Record State : Type := mkEditor {
  columns : list ColumnInfo;
  selectedColumns : list SelectedColumn;
  whereClauses : list WhereClause;
  timeseriesColumn : option string;
  newColumnSelection : string;
  isValuesModalOpen : bool;
  loadingDistinctValues : bool;
  distinctValues : list string;
  totalValueCount : Z;
  selectedValue : string;
  currentWhereClauseIndex : Z;
  searchFilter : string;
  currentPage : Z;
  hasMoreValues : bool;
  error : option string
}.

Definition PAGE_SIZE : Z := 100.

(** The column handlers: the new state, and the query handed to
    [onChange]. *)
Definition setColumns (st : State) (cols : list SelectedColumn)
    (ts : option string) (selection : string) : State :=
  mkEditor (columns st) cols (whereClauses st) ts selection
    (isValuesModalOpen st) (loadingDistinctValues st) (distinctValues st)
    (totalValueCount st) (selectedValue st) (currentWhereClauseIndex st)
    (searchFilter st) (currentPage st) (hasMoreValues st) (error st).

Definition changeColumns (query : MyQuery) (cols : list SelectedColumn)
    (ts : option string) : MyQuery :=
  mkMyQuery (q_queryText query) (q_schema query) (q_table query)
    (q_rawQuery query) (Some cols) (q_whereClauses query) ts.

Definition onAddColumn (st : State) (query : MyQuery) : State * MyQuery :=
  if String.eqb (newColumnSelection st) "" then (st, query)
  else if existsb (fun c => String.eqb (name c) (newColumnSelection st))
            (selectedColumns st)
  then (st, query)
  else
    let newColumn := mkSelectedColumn (newColumnSelection st) (Some false) in
    let updatedColumns := selectedColumns st ++ [newColumn] in
    (setColumns st updatedColumns (timeseriesColumn st) "",
     changeColumns query updatedColumns (q_timeseriesColumn query)).

Definition onRemoveColumn (columnName : string) (st : State) (query : MyQuery)
  : State * MyQuery :=
  let updatedColumns :=
    List.filter (fun c => negb (String.eqb (name c) columnName))
      (selectedColumns st) in
  let updatedTimeseriesColumn :=
    match timeseriesColumn st with
    | Some ts => if String.eqb ts columnName then None else Some ts
    | None => None
    end in
  (setColumns st updatedColumns updatedTimeseriesColumn (newColumnSelection st),
   changeColumns query updatedColumns updatedTimeseriesColumn).

(** [onToggleTimeseriesColumn].  The look-up of the column's type only
    decides about a warning on the console; with [columns] as they are
    typed (every [data_type] a string) it throws nothing and is left
    out. *)
Definition onToggleTimeseriesColumn (columnName : string)
    (isTimeseries : bool) (st : State) (query : MyQuery) : State * MyQuery :=
  let updatedColumns :=
    map (fun c =>
           if String.eqb (name c) columnName
           then mkSelectedColumn (name c) (Some isTimeseries)
           else if isTimeseries then mkSelectedColumn (name c) (Some false)
           else c)
      (selectedColumns st) in
  let newTimeseriesColumn := if isTimeseries then Some columnName else None in
  (setColumns st updatedColumns newTimeseriesColumn (newColumnSelection st),
   changeColumns query updatedColumns newTimeseriesColumn).

(** The where-clause handlers. *)
Definition setWhereClauses (st : State) (clauses : list WhereClause) : State :=
  mkEditor (columns st) (selectedColumns st) clauses (timeseriesColumn st)
    (newColumnSelection st) (isValuesModalOpen st) (loadingDistinctValues st)
    (distinctValues st) (totalValueCount st) (selectedValue st)
    (currentWhereClauseIndex st) (searchFilter st) (currentPage st)
    (hasMoreValues st) (error st).

Definition changeWhereClauses (query : MyQuery) (clauses : list WhereClause)
  : MyQuery :=
  mkMyQuery (q_queryText query) (q_schema query) (q_table query)
    (q_rawQuery query) (q_selectedColumns query) (Some clauses)
    (q_timeseriesColumn query).

Definition onAddWhereClause (st : State) (query : MyQuery) : State * MyQuery :=
  let newClause :=
    mkWhereClause
      (match columns st with
       | first :: _ => column_name first
       | [] => ""
       end) "=" "" in
  let updatedClauses := whereClauses st ++ [newClause] in
  (setWhereClauses st updatedClauses, changeWhereClauses query updatedClauses).

(** [array.filter((_, i) => keep i)], counting from [i]. *)
Fixpoint filterIndex {A} (keep : Z -> bool) (i : Z) (l : list A) : list A :=
  match l with
  | [] => []
  | x :: l' =>
      if keep i then x :: filterIndex keep (i + 1)%Z l'
      else filterIndex keep (i + 1)%Z l'
  end.

(** [array.map((x, i) => f x i)], counting from [i]. *)
Fixpoint mapIndex {A B} (f : A -> Z -> B) (i : Z) (l : list A) : list B :=
  match l with
  | [] => []
  | x :: l' => f x i :: mapIndex f (i + 1)%Z l'
  end.

Definition onRemoveWhereClause (index : Z) (st : State) (query : MyQuery)
  : State * MyQuery :=
  let updatedClauses :=
    filterIndex (fun i => negb (i =? index)%Z) 0 (whereClauses st) in
  (setWhereClauses st updatedClauses, changeWhereClauses query updatedClauses).

(** [keyof WhereClause] *)
Inductive clauseField : Type := FieldColumn | FieldOperator | FieldValue.

Definition setField (clause : WhereClause) (field : clauseField) (v : string)
  : WhereClause :=
  match field with
  | FieldColumn => mkWhereClause v (operator clause) (value clause)
  | FieldOperator => mkWhereClause (column clause) v (value clause)
  | FieldValue => mkWhereClause (column clause) (operator clause) v
  end.

Definition onUpdateWhereClause (index : Z) (field : clauseField) (v : string)
    (st : State) (query : MyQuery) : State * MyQuery :=
  let updatedClauses :=
    mapIndex (fun clause i => if (i =? index)%Z then setField clause field v
                              else clause)
      0 (whereClauses st) in
  (setWhereClauses st updatedClauses, changeWhereClauses query updatedClauses).

(** The handlers of the distinct-values modal. *)
Definition setBrowse (st : State) (isOpen loading : bool)
    (values : list string) (total : Z) (selected : string) (index : Z)
    (filter : string) (page : Z) (more : bool) (err : option string) : State :=
  mkEditor (columns st) (selectedColumns st) (whereClauses st)
    (timeseriesColumn st) (newColumnSelection st) isOpen loading values total
    selected index filter page more err.

Definition resetDistinctValuesState (st : State) : State :=
  setBrowse st (isValuesModalOpen st) (loadingDistinctValues st) [] 0 ""
    (currentWhereClauseIndex st) "" 0 false (error st).

(** [whereClauses[index]]: [undefined] outside the array. *)
Definition clauseAt (clauses : list WhereClause) (index : Z)
  : option WhereClause :=
  if (index <? 0)%Z then None else clauses !! Z.to_nat index.

(** How a handler ends: with the state it leaves, or with that state and
    the error it throws. *)
Inductive ended : Type :=
| Done (st : State)
| Threw (st : State) (err : string).

Definition stateOf (e : ended) : State :=
  match e with Done st => st | Threw st _ => st end.

Section Modal.
(** The backend behind [datasource]. *)
Variable backend : DataSource.MyQuery -> DataSource.settled.

(** The page of a request put into the state, as the handlers do when
    the request resolves. *)
Definition showPage (st : State) (result : DataSource.Page) : State :=
  setBrowse st (isValuesModalOpen st) (loadingDistinctValues st)
    (DataSource.pageValues result) (DataSource.totalCount result)
    (selectedValue st) (currentWhereClauseIndex st) (searchFilter st)
    (currentPage st) (DataSource.hasMore result) (error st).

Definition setLoading (st : State) (loading : bool) : State :=
  setBrowse st (isValuesModalOpen st) loading (distinctValues st)
    (totalValueCount st) (selectedValue st) (currentWhereClauseIndex st)
    (searchFilter st) (currentPage st) (hasMoreValues st) (error st).

Definition setPage (st : State) (page : Z) : State :=
  setBrowse st (isValuesModalOpen st) (loadingDistinctValues st)
    (distinctValues st) (totalValueCount st) (selectedValue st)
    (currentWhereClauseIndex st) (searchFilter st) page (hasMoreValues st)
    (error st).

(** [loadDistinctValues]: open the modal on the clause at [index] and
    load the first page.  [getDistinctColumnValues] never rejects, so the
    [catch] of the handler has nothing to do. *)
Definition loadDistinctValues (index : Z) (st : State) (query : MyQuery)
  : DataSource.Async ended :=
  if negb (truthy (q_schema query)) || negb (truthy (q_table query)) then
    DataSource.ret (Done st)
  else
    match clauseAt (whereClauses st) index with
    | None => DataSource.ret (Threw st DataSource.TypeError)
    | Some clause =>
        if String.eqb (column clause) "" then DataSource.ret (Done st)
        else
          let st :=
            setBrowse st (isValuesModalOpen st) (loadingDistinctValues st)
              (distinctValues st) (totalValueCount st) (selectedValue st)
              index (searchFilter st) (currentPage st) (hasMoreValues st)
              (error st) in
          let st := resetDistinctValuesState st in
          let st :=
            setBrowse st true true (distinctValues st) (totalValueCount st)
              (selectedValue st) (currentWhereClauseIndex st)
              (searchFilter st) (currentPage st) (hasMoreValues st)
              (error st) in
          DataSource.await
            (DataSource.getDistinctColumnValues backend
               (default "" (q_schema query)) (default "" (q_table query))
               (column clause)
               (Some (DataSource.mkOptions (Some PAGE_SIZE) (Some 0%Z) None)))
            (fun result =>
               DataSource.ret (Done (setLoading (showPage st result) false)))
    end.

(** ['next' | 'prev'] *)
Inductive direction : Type := Next | Prev.

(** [navigatePage] *)
Definition navigatePage (dir : direction) (st : State) (query : MyQuery)
  : DataSource.Async ended :=
  let newPage :=
    match dir with
    | Next => (currentPage st + 1)%Z
    | Prev => Z.max 0 (currentPage st - 1)
    end in
  if negb (currentWhereClauseIndex st =? -1)%Z && truthy (q_schema query)
     && truthy (q_table query) then
    match clauseAt (whereClauses st) (currentWhereClauseIndex st) with
    | None => DataSource.ret (Threw st DataSource.TypeError)
    | Some clause =>
        if negb (String.eqb (column clause) "") then
          let st := setLoading st true in
          DataSource.await
            (DataSource.getDistinctColumnValues backend
               (default "" (q_schema query)) (default "" (q_table query))
               (column clause)
               (Some (DataSource.mkOptions (Some PAGE_SIZE)
                        (Some (newPage * PAGE_SIZE)%Z)
                        (Some (searchFilter st)))))
            (fun result =>
               DataSource.ret
                 (Done (setLoading (setPage (showPage st result) newPage) false)))
        else DataSource.ret (Done st)
    end
  else DataSource.ret (Done st).

(** [handleSearchChange] *)
Definition handleSearchChange (newSearchText : string) (st : State)
    (query : MyQuery) : DataSource.Async ended :=
  let st :=
    setBrowse st (isValuesModalOpen st) (loadingDistinctValues st)
      (distinctValues st) (totalValueCount st) (selectedValue st)
      (currentWhereClauseIndex st) newSearchText 0 (hasMoreValues st)
      (error st) in
  if negb (currentWhereClauseIndex st =? -1)%Z && truthy (q_schema query)
     && truthy (q_table query) then
    match clauseAt (whereClauses st) (currentWhereClauseIndex st) with
    | None => DataSource.ret (Threw st DataSource.TypeError)
    | Some clause =>
        if negb (String.eqb (column clause) "") then
          let st := setLoading st true in
          DataSource.await
            (DataSource.getDistinctColumnValues backend
               (default "" (q_schema query)) (default "" (q_table query))
               (column clause)
               (Some (DataSource.mkOptions (Some PAGE_SIZE) (Some 0%Z)
                        (Some newSearchText))))
            (fun result =>
               let st := showPage st result in
               let st :=
                 match DataSource.pageValues result with
                 | [only] =>
                     if negb (String.eqb newSearchText "") then
                       setBrowse st (isValuesModalOpen st)
                         (loadingDistinctValues st) (distinctValues st)
                         (totalValueCount st) only
                         (currentWhereClauseIndex st) (searchFilter st)
                         (currentPage st) (hasMoreValues st) (error st)
                     else st
                 | _ => st
                 end in
               DataSource.ret (Done (setLoading st false)))
        else DataSource.ret (Done st)
    end
  else DataSource.ret (Done st).

End Modal.

(** [applySelectedValue] *)
Definition applySelectedValue (st : State) (query : MyQuery)
  : State * MyQuery :=
  let '(st, query) :=
    if negb (currentWhereClauseIndex st =? -1)%Z
       && negb (String.eqb (selectedValue st) "")
    then onUpdateWhereClause (currentWhereClauseIndex st) FieldValue
           (selectedValue st) st query
    else (st, query) in
  (setBrowse st false (loadingDistinctValues st) (distinctValues st)
     (totalValueCount st) (selectedValue st) (currentWhereClauseIndex st)
     (searchFilter st) (currentPage st) (hasMoreValues st) (error st),
   query).

(** [buildQuery] on the state of the component: the query handed to
    [onChange], or nothing. *)
Definition buildQueryChange (st : State) (query : MyQuery) : option MyQuery :=
  match buildQuery (q_schema query) (q_table query) (selectedColumns st)
          (whereClauses st) (timeseriesColumn st) with
  | Some sql =>
      Some (mkMyQuery (Some sql) (q_schema query) (q_table query)
              (q_rawQuery query) (q_selectedColumns query)
              (q_whereClauses query) (q_timeseriesColumn query))
  | None => None
  end.

(** The schema and table pickers of the component: the state hooks
    [schemas], [tables], [isLoading] and [error], and their loaders. *)
Module Pickers.

(** [SelectableValue<string>]: [{ label, value }] *)
Record SelectableValue : Type := mkSelectable {
  label : DataSource.jsval;
  value : DataSource.jsval
}.

Record Lists : Type := mkLists {
  schemas : list SelectableValue;
  tables : list SelectableValue;
  isLoading : bool;
  error : option string
}.

Definition quote : string := String (ascii_of_nat 34) "".

Section Loaders.
Variable backend : DataSource.MyQuery -> DataSource.settled.

(** [loadSchemas]; the error caught is taken by its message. *)
Definition loadSchemas (st : Lists) : DataSource.Async Lists :=
  let st := mkLists (schemas st) (tables st) true None in
  DataSource.await (DataSource.getSchemas backend)
    (fun schemaList =>
       match schemaList with
       | DataSource.Resolved schemaList =>
           DataSource.ret
             (mkLists (map (fun s => mkSelectable s s) schemaList)
                (tables st) false (error st))
       | DataSource.Thrown err =>
           DataSource.ret
             (mkLists (schemas st) (tables st) false
                (Some ("Failed to load schemas. Please check your connection: "
                       +:+ err)))
       end).

(** [loadTables] *)
Definition loadTables (schema : string) (st : Lists) : DataSource.Async Lists :=
  let st := mkLists (schemas st) (tables st) true None in
  DataSource.await (DataSource.getTables backend schema)
    (fun tableList =>
       match tableList with
       | DataSource.Resolved tableList =>
           DataSource.ret
             (mkLists (schemas st)
                (map (fun t => mkSelectable t t) tableList) false (error st))
       | DataSource.Thrown err =>
           DataSource.ret
             (mkLists (schemas st) (tables st) false
                (Some ("Failed to load tables for schema " +:+ quote
                       +:+ schema +:+ quote +:+ ".")))
       end).

End Loaders.

End Pickers.

End QueryEditor.

(* ===================================================================== *)
(** ** The frame builder as the specification describes it *)
(* ===================================================================== *)

Module FrameSpec.
Import GoTime Plugin.

(** The first attempt that succeeds, in the order of the list. *)
Fixpoint firstSuccess {A} (attempts : list (option A)) : option A :=
  match attempts with
  | [] => None
  | Some a :: _ => Some a
  | None :: attempts' => firstSuccess attempts'
  end.

(** The formats of the timestamp normalizer, in the order of the
    specification: native, internet date-time, bare. *)
Definition timestampFormats : list string :=
  [ocientTimestampFormat; RFC3339; "2006-01-02 15:04:05"].

(** The cell of a frame at one row. *)
Inductive cell : Type :=
| CellFloat (f : float)
| CellText (s : string)
| CellBool (b : bool)
| CellTime (t : Time).

Definition cellAt (v : vector) (i : nat) : option cell :=
  match v with
  | Float64s l => CellFloat <$> l !! i
  | Strings l => CellText <$> l !! i
  | Bools l => CellBool <$> l !! i
  | Times l => CellTime <$> l !! i
  end.

(** The column type that a vector represents. *)
Definition kind (v : vector) : ColumnType :=
  match v with
  | Float64s _ => TFloat64
  | Strings _ => TString
  | Bools _ => TBool
  | Times _ => TTimestamp
  end.

Section Spec.
Variable time_Parse : string -> string -> option Time.
Variable Sprintf_v : value -> string.

(** The timestamp normalizer: each format in turn, first match wins. *)
Definition normalize (s : string) : option Time :=
  firstSuccess (map (fun layout => time_Parse layout s) timestampFormats).

(** Type inference from the sampled value. *)
Definition classify (sample : value) : ColumnType :=
  match sample with
  | VString s => if normalize s is Some _ then TTimestamp else TString
  | VFloat64 _ => TFloat64
  | VBool _ => TBool
  | _ => TString
  end.

(** Coercion of one cell to the type of its column. *)
Definition coerce (ty : ColumnType) (v : value) : cell :=
  match ty, v with
  | TFloat64, VFloat64 f => CellFloat f
  | TFloat64, _ => CellFloat 0%float
  | TString, VString s => CellText s
  | TString, _ => CellText (Sprintf_v v)
  | TBool, VBool b => CellBool b
  | TBool, _ => CellBool false
  | TTimestamp, VString s => CellTime (default zeroTime (normalize s))
  | TTimestamp, _ => CellTime zeroTime
  end.

Definition floatOf (c : cell) : float :=
  match c with CellFloat f => f | _ => 0%float end.
Definition textOf (c : cell) : string :=
  match c with CellText s => s | _ => "" end.
Definition boolOf (c : cell) : bool :=
  match c with CellBool b => b | _ => false end.
Definition timeOf (c : cell) : Time :=
  match c with CellTime t => t | _ => zeroTime end.

(** A whole column of the given type from the cells of the rows. *)
Definition coerceColumn (ty : ColumnType) (cells : list value) : vector :=
  match ty with
  | TFloat64 => Float64s (map (fun v => floatOf (coerce TFloat64 v)) cells)
  | TString => Strings (map (fun v => textOf (coerce TString v)) cells)
  | TBool => Bools (map (fun v => boolOf (coerce TBool v)) cells)
  | TTimestamp => Times (map (fun v => timeOf (coerce TTimestamp v)) cells)
  end.

(** The field of column [col]: its type from the first row, its
    cells from all rows. *)
Definition fieldOf (first : row) (results : list row) (col : string)
  : Field :=
  NewField col
    (coerceColumn (classify (index first col))
       (map (fun result => index result col) results)).

(** The frame with one field per column, in the order of [columns]. *)
Definition frameOf (columns : list string) (first : row)
    (results : list row) : Frame :=
  mkFrame "response" (map (fieldOf first results) columns).

(** The state of the two maps once the rows [done] are in: every
    column has the type inferred from [first] and the coerced cells of
    [done]. *)
Definition filled (first : row) (columns : list string) (done : list row)
    (st : columnsState) : Prop :=
  forall col, col ∈ columns ->
    columnTypes st !! col = Some (classify (index first col)) /\
    columnValues st !! col =
      Some (coerceColumn (classify (index first col))
              (map (fun r => index r col) done)).

End Spec.

End FrameSpec.

(* ===================================================================== *)
(** ** Sample data *)
(* ===================================================================== *)

Module Samples.
Import GoTime Plugin.

(** A stand-in for [fmt.Sprintf("%v", _)] on the values of the samples. *)
Definition sprint (v : value) : string :=
  match v with
  | VNil => "<nil>"
  | VBool true => "true"
  | VBool false => "false"
  | VString s => s
  | _ => "?"
  end.

Definition nativeText : string := "2024-01-15 10:30:00.123456789".
Definition nativeTime : Time := mkTime 2024 1 15 10 30 0 123456789 0.

(** Two rows that disagree on keys and on the types of their cells. *)
Definition row1 : row :=
  <["ts" := VString nativeText]> (<["x" := VFloat64 42.5%float]>
    (<["ok" := VBool true]> (<["note" := VString "n/a"]> ∅))).

Definition row2 : row :=
  <["ts" := VString "yesterday"]> (<["x" := VString "oops"]>
    (<["note" := VBool true]> (<["extra" := VNil]> ∅))).

Definition failure : OcientStatus := mkStatus "syntax error" "42601" 17.

(** A remote system that rejects every statement. *)
Definition rejecting (statement : string) : exchange :=
  Answer (mkResponse "q1" failure [row1]).

End Samples.

Module BrowseSamples.
Import DataSource.

Definition reply (vals : list jsval) : settled :=
  Fulfilled (Some (mkDataQueryResponse
                     (Some [mkDataFrame (Some [mkField "c" vals])]))).

(** The 150 distinct values of column [c] of table [s.t], in ascending
    order. *)
Definition catalogue : list jsval :=
  map (fun n => JNumber (Z.of_nat n)) (seq 1 150).

(** A backend over that table; it answers the count query and the two
    page queries of the example. *)
Definition table150 (q : MyQuery) : settled :=
  if String.eqb (queryText q) (queryText (countQuery "s" "t" "c")) then
    reply [JNumber 150]
  else if String.eqb (queryText q) (valueQueryText "s" "t" "c" 100 0 "") then
    reply (take 100 catalogue)
  else if String.eqb (queryText q) (valueQueryText "s" "t" "c" 100 100 "") then
    reply (take 100 (drop 100 catalogue))
  else Rejected "unsupported statement".

(** A backend over the same table for a search that matches nothing:
    the count is 150, and the value query comes back as the Go side
    converts an empty RowSet, a frame without fields. *)
Definition noMatch (q : MyQuery) : settled :=
  if String.eqb (refId q) "distinct_count" then reply [JNumber 150]
  else Fulfilled (Some (mkDataQueryResponse (Some [mkDataFrame (Some [])]))).

Definition searchMiss : option Options :=
  Some (mkOptions (Some 100%Z) (Some 0%Z) (Some "zzz")).

(** A backend whose count query fails while value queries succeed. *)
Definition countless (q : MyQuery) : settled :=
  if String.eqb (refId q) "distinct_count" then Rejected "timeout"
  else reply [JString "a"; JString "b"].

Definition firstPage : option Options :=
  Some (mkOptions (Some 100%Z) (Some 0%Z) None).
Definition secondPage : option Options :=
  Some (mkOptions (Some 100%Z) (Some 100%Z) None).

End BrowseSamples.

Module PluginSamples.
Import Plugin.

Definition success : OcientStatus := mkStatus "" "00000" 0.

(** A remote system that answers every statement with the two rows. *)
Definition accepting (statement : string) : exchange :=
  Answer (mkResponse "q2" success [Samples.row1; Samples.row2]).

(** A remote system that cannot be reached. *)
Definition unreachable (statement : string) : exchange :=
  TransportError "connection refused".

Definition ready : Datasource :=
  mkDatasource
    (mkSettings "db.example.com" 443 "metrics" false
       (Some (mkSecrets "grafana" "secret"))).

Definition hostless : Datasource :=
  mkDatasource
    (mkSettings "" 443 "metrics" false (Some (mkSecrets "grafana" "secret"))).

(** [row2] with another cell under a key that [row1] lacks. *)
Definition row2' : row := <["extra" := VBool false]> Samples.row2.

(** Two queries of one request. *)
Definition panelA : DataQuery := mkDataQuery "A" "{a}".
Definition panelB : DataQuery := mkDataQuery "B" "{b}".

(** A decoder for the two: the first holds a statement, the second
    does not decode. *)
Definition decode (json : string) : string + queryModel :=
  if String.eqb json "{a}" then inr (mkQueryModel "SELECT 1")
  else inl "unexpected end of JSON input".

End PluginSamples.

Module EditorSamples.
Import QueryEditor.

(** 15 January 2024, 10:30:00 UTC, whatever the text. *)
Definition newDate (text : string) : DataSource.Date :=
  DataSource.UTCDate 2024 0 15 10 30 0.

(** A template service without variables. *)
Definition plain (text : string) : string := text.

(** A backend over a column with the one value "abc". *)
Definition single (q : DataSource.MyQuery) : DataSource.settled :=
  if String.eqb (DataSource.refId q) "distinct_count"
  then BrowseSamples.reply [DataSource.JNumber 1]
  else BrowseSamples.reply [DataSource.JString "abc"].

(** A backend whose every query comes back with a frame without
    fields. *)
Definition bare (q : DataSource.MyQuery) : DataSource.settled :=
  DataSource.Fulfilled
    (Some (DataSource.mkDataQueryResponse
             (Some [DataSource.mkDataFrame (Some [])]))).

(** The description of the two columns of a table; the type of the
    second is missing. *)
Definition description : list DataSource.Field :=
  [DataSource.mkField "column_name"
     [DataSource.JString "a"; DataSource.JString "b"];
   DataSource.mkField "data_type" [DataSource.JString "INT"];
   DataSource.mkField "is_nullable"
     [DataSource.JString "NO"; DataSource.JString "YES"];
   DataSource.mkField "column_default" [DataSource.JNull; DataSource.JNull]].

(** A backend that describes them. *)
Definition described (q : DataSource.MyQuery) : DataSource.settled :=
  DataSource.Fulfilled
    (Some (DataSource.mkDataQueryResponse
             (Some [DataSource.mkDataFrame (Some description)]))).

Definition columnA : SelectedColumn := mkSelectedColumn "a" (Some true).
Definition columnB : SelectedColumn := mkSelectedColumn "b" (Some false).
Definition clauseC : WhereClause := mkWhereClause "c" "=" "".

(** The query of a panel on table [s.t]. *)
Definition chosen : MyQuery :=
  mkMyQuery None (Some "s") (Some "t") None (Some [columnA; columnB])
    (Some [clauseC]) (Some "a").

(** The editor on that query, with column [d] chosen for adding and the
    modal on the first clause, at its first page. *)
Definition editing : State :=
  mkEditor [mkColumnInfo "c" "INT"] [columnA; columnB] [clauseC] (Some "a")
    "d" true false [] 0 "" 0 "" 0 false None.

Definition pickers : Pickers.Lists :=
  Pickers.mkLists [] [Pickers.mkSelectable (DataSource.JString "old")
                        (DataSource.JString "old")] false None.

End EditorSamples.

(* ===================================================================== *)
(** ** Browsing and query assembly as the specification describes them *)
(* ===================================================================== *)

Module BrowseSpec.
Import DataSource.

(** The count sub-query gave no number: it failed, or the first cell
    of its first field is not a number. *)
Definition countUnavailable (r : settled) : Prop :=
  (exists error, r = Rejected error) \/
  (exists frame frames field fields',
     r = Fulfilled (Some (mkDataQueryResponse (Some (frame :: frames)))) /\
     fields frame = Some (field :: fields') /\
     forall n, nth 0 (values field) JUndefined <> JNumber n).

(** The value sub-query gave a frame whose first field is [field]. *)
Definition valuesFrom (r : settled) (field : Field) : Prop :=
  exists frame frames fields',
    r = Fulfilled (Some (mkDataQueryResponse (Some (frame :: frames)))) /\
    fields frame = Some (field :: fields').

End BrowseSpec.

Module BuilderSpec.
Import QueryEditor.

(** [column operator 'value'] *)
Definition renderClause (clause : WhereClause) : string :=
  column clause +:+ " " +:+ operator clause +:+ " '" +:+ value clause +:+ "'".

(** The clause of the time-series column: the two bounds of the time
    range and the ordering. *)
Definition timeClause (ts : string) : string :=
  ts +:+ " >= $__timeFrom() AND " +:+ ts +:+ " <= $__timeTo() ORDER BY "
  +:+ ts +:+ " ASC".

(** The selected columns, or the wildcard when there are none. *)
Definition selectList (selectedColumns : list SelectedColumn) : string :=
  match selectedColumns with
  | [] => "*"
  | _ => join ", " (map name selectedColumns)
  end.

(** The time-series column that counts: present and not empty. *)
Definition designated (timeseriesColumn : option string) : list string :=
  match timeseriesColumn with
  | Some ts => if String.eqb ts "" then [] else [ts]
  | None => []
  end.

(** [SELECT <columns> FROM schema.table [WHERE <clause> AND ...]] *)
Definition template (schema table : string)
    (selectedColumns : list SelectedColumn) (whereClauses : list WhereClause)
    (timeseriesColumn : option string) : string :=
  let clauses :=
    map renderClause whereClauses
    ++ map timeClause (designated timeseriesColumn) in
  "SELECT " +:+ selectList selectedColumns +:+ " FROM " +:+ schema +:+ "."
  +:+ table
  +:+ match clauses with
      | [] => ""
      | _ => " WHERE " +:+ join " AND " clauses
      end.

End BuilderSpec.

Module TemplateSpec.

(** [s.includes(pattern)] *)
Fixpoint includes (pattern s : string) : bool :=
  DataSource.startsWith pattern s
  || match s with
     | EmptyString => false
     | String _ s' => includes pattern s'
     end.

(** No character of the text is [$]. *)
Fixpoint dollarFree (s : string) : bool :=
  match s with
  | EmptyString => true
  | String c s' => negb (Ascii.eqb c "$") && dollarFree s'
  end.

(** The text without its first [n] characters. *)
Fixpoint dropChars (n : nat) (s : string) : string :=
  match n, s with
  | S n', String _ s' => dropChars n' s'
  | _, _ => s
  end.

(** A date as the getters of a valid [Date] describe it, in the years
    that are written with four digits. *)
Definition civil (y mo d h mi s : Z) : Prop :=
  (1000 <= y <= 9999 /\ 0 <= mo <= 11 /\ 1 <= d <= GoTime.daysIn (mo + 1) y /\
   0 <= h <= 23 /\ 0 <= mi <= 59 /\ 0 <= s <= 59)%Z.

End TemplateSpec.

Module EditorSpec.
Import QueryEditor.

(** The selection of columns is consistent: the names are distinct, the
    time-series column is one of them, and exactly that column carries
    the flag. *)
Definition consistent (st : State) : Prop :=
  NoDup (map name (selectedColumns st)) /\
  (forall ts, timeseriesColumn st = Some ts ->
     ts ∈ map name (selectedColumns st)) /\
  (forall c, c ∈ selectedColumns st ->
     isTimeseriesColumn c = Some true <-> timeseriesColumn st = Some (name c)).

(** The query reported to the host holds what the state holds. *)
Definition inStep (st : State) (query : MyQuery) : Prop :=
  default [] (q_selectedColumns query) = selectedColumns st /\
  default [] (q_whereClauses query) = whereClauses st /\
  q_timeseriesColumn query = timeseriesColumn st.

(** The modal points at a clause with a column, of a query with schema
    and table: the requests of the modal can be made. *)
Definition browsing (st : State) (query : MyQuery) (schema table : string)
    (clause : WhereClause) : Prop :=
  q_schema query = Some schema /\ schema <> "" /\
  q_table query = Some table /\ table <> "" /\
  currentWhereClauseIndex st <> (-1)%Z /\
  clauseAt (whereClauses st) (currentWhereClauseIndex st) = Some clause /\
  column clause <> "".

(** The two requests behind one page of values: the count, then the
    [PAGE_SIZE] values from [offset] on that match [pattern]. *)
Definition pageRequests (schema table column : string) (offset : Z)
    (pattern : string) : list DataSource.MyQuery :=
  [DataSource.countQuery schema table column;
   DataSource.mkQuery "distinct_values"
     (DataSource.valueQueryText schema table column PAGE_SIZE offset pattern)].

(** The request of one page, as the modal makes it. *)
Definition pageOf (backend : DataSource.MyQuery -> DataSource.settled)
    (schema table column : string) (offset : Z) (pattern : option string)
  : DataSource.Async DataSource.Page :=
  DataSource.getDistinctColumnValues backend schema table column
    (Some (DataSource.mkOptions (Some PAGE_SIZE) (Some offset) pattern)).

(** What the builder holds, apart from the modal. *)
Definition builderPart (st : State)
  : list ColumnInfo * list SelectedColumn * list WhereClause * option string
    * string :=
  (columns st, selectedColumns st, whereClauses st, timeseriesColumn st,
   newColumnSelection st).

(** The page shown is sound: its number is not negative, and more values
    are announced only when the values up to the end of this page are
    fewer than the total. *)
Definition pageSound (st : State) : Prop :=
  (0 <= currentPage st)%Z /\
  (hasMoreValues st = true ->
   (currentPage st * PAGE_SIZE + Z.of_nat (length (distinctValues st))
    < totalValueCount st)%Z).

(** The page a click on Next or Prev asks for. *)
Definition targetPage (dir : direction) (st : State) : Z :=
  match dir with
  | Next => (currentPage st + 1)%Z
  | Prev => if (currentPage st <=? 0)%Z then 0%Z else (currentPage st - 1)%Z
  end.

(** The fields of a query apart from its text. *)
Definition besidesText (query : MyQuery)
  : option string * option string * option bool
    * option (list SelectedColumn) * option (list WhereClause)
    * option string :=
  (q_schema query, q_table query, q_rawQuery query, q_selectedColumns query,
   q_whereClauses query, q_timeseriesColumn query).

End EditorSpec.

Import GoTime Plugin FrameSpec.

(* ===================================================================== *)
(** ** The frame builder computes the specified frame *)
(* ===================================================================== *)

Section ConvertFacts.
Variable time_Parse : string -> string -> option Time.
Variable Sprintf_v : value -> string.

Local Abbreviation classify := (classify time_Parse).
Local Abbreviation coerceColumn := (coerceColumn time_Parse Sprintf_v).
Local Abbreviation normalize := (normalize time_Parse).

Lemma normalize_unfold s :
  normalize s =
    match time_Parse ocientTimestampFormat s with
    | Some t => Some t
    | None =>
        match time_Parse RFC3339 s with
        | Some t => Some t
        | None => time_Parse "2006-01-02 15:04:05" s
        end
    end.
Proof.
  unfold FrameSpec.normalize, timestampFormats. simpl.
  repeat (destruct (time_Parse _ s); try reflexivity).
Qed.

Lemma kind_coerceColumn ty cells : kind (coerceColumn ty cells) = ty.
Proof. destruct ty; reflexivity. Qed.

Lemma vectorLen_coerceColumn ty cells :
  vectorLen (coerceColumn ty cells) = length cells.
Proof. destruct ty; simpl; apply length_map. Qed.

Lemma cellAt_coerceColumn ty cells i :
  cellAt (coerceColumn ty cells) i = coerce time_Parse Sprintf_v ty <$> cells !! i.
Proof.
  destruct ty; simpl; rewrite list_lookup_fmap;
    destruct (cells !! i) as [v|]; simpl; try reflexivity;
    destruct v; reflexivity.
Qed.

(** *** First loop *)

Lemma declareColumn_spec first st col :
  declareColumn time_Parse first st col =
    declare st col (coerceColumn (classify (index first col)) [])
      (classify (index first col)).
Proof.
  unfold declareColumn, FrameSpec.classify.
  destruct (index first col) as [| f | s | b | l | l]; try reflexivity.
  rewrite normalize_unfold.
  repeat (destruct (time_Parse _ s); try reflexivity).
Qed.

Lemma declare_all first columns : forall st col,
  let st' := fold_left (declareColumn time_Parse first) columns st in
  (col ∈ columns ->
     columnTypes st' !! col = Some (classify (index first col)) /\
     columnValues st' !! col
       = Some (coerceColumn (classify (index first col)) [])) /\
  (col ∉ columns ->
     columnTypes st' !! col = columnTypes st !! col /\
     columnValues st' !! col = columnValues st !! col).
Proof.
  induction columns as [| c columns IH]; intros st col; simpl.
  - split; [intros H; inversion H | auto].
  - specialize (IH (declareColumn time_Parse first st c) col).
    simpl in IH. destruct IH as [IHin IHout].
    split.
    + intros Hin. destruct (decide (col ∈ columns)) as [Hc | Hc]; [auto |].
      apply elem_of_cons in Hin as [-> | Hin]; [| contradiction].
      destruct (IHout Hc) as [-> ->]. rewrite declareColumn_spec. simpl.
      rewrite !lookup_insert_eq. auto.
    + intros Hnot. apply not_elem_of_cons in Hnot as [Hne Hnot].
      destruct (IHout Hnot) as [-> ->]. rewrite declareColumn_spec. simpl.
      rewrite !lookup_insert_ne by congruence. auto.
Qed.

(** *** Fill loop *)

Lemma appendCell_spec result st col ty cells :
  columnTypes st !! col = Some ty ->
  columnValues st !! col = Some (coerceColumn ty cells) ->
  appendCell time_Parse Sprintf_v result st col =
    Returned (store st col (coerceColumn ty (cells ++ [index result col]))).
Proof.
  intros Hty Hvals. unfold appendCell. rewrite Hty, Hvals.
  destruct ty; simpl; rewrite map_app; simpl.
  - destruct (index result col); reflexivity.
  - destruct (index result col); reflexivity.
  - destruct (index result col); reflexivity.
  - destruct (index result col) as [| f | s | b | l | l]; try reflexivity.
    rewrite normalize_unfold.
    repeat (destruct (time_Parse _ s); try reflexivity).
Qed.

Lemma fill_row first done result : forall todo st,
  NoDup todo ->
  (forall col, col ∈ todo ->
     columnTypes st !! col = Some (classify (index first col)) /\
     columnValues st !! col =
       Some (coerceColumn (classify (index first col))
               (map (fun r => index r col) done))) ->
  exists st',
    forEach (appendCell time_Parse Sprintf_v result) todo st = Returned st' /\
    columnTypes st' = columnTypes st /\
    (forall col, col ∈ todo ->
       columnValues st' !! col =
         Some (coerceColumn (classify (index first col))
                 (map (fun r => index r col) (done ++ [result])))) /\
    (forall col, col ∉ todo ->
       columnValues st' !! col = columnValues st !! col).
Proof.
  induction todo as [| c todo IH]; intros st Hnodup Hst; simpl.
  - exists st. repeat split; auto. intros col H; inversion H.
  - apply NoDup_cons in Hnodup as [Hc Hnodup].
    destruct (Hst c) as [Hty Hvals]; [left |].
    rewrite (appendCell_spec _ _ _ _ _ Hty Hvals). simpl.
    destruct (IH (store st c
                    (coerceColumn (classify (index first c))
                       (map (fun r => index r c) done ++ [index result c])))
                Hnodup) as (st' & Hrun & Htypes & Hin & Hout).
    { intros col Hcol. simpl.
      assert (c <> col) by (intros ->; contradiction).
      rewrite lookup_insert_ne by assumption.
      apply Hst. by right. }
    exists st'. split; [exact Hrun |]. split; [exact Htypes |]. split.
    + intros col Hcol. apply elem_of_cons in Hcol as [-> | Hcol]; [| auto].
      rewrite (Hout c Hc). simpl. rewrite lookup_insert_eq.
      by rewrite map_app.
    + intros col Hcol. apply not_elem_of_cons in Hcol as [Hne Hcol].
      rewrite (Hout col Hcol). simpl.
      by rewrite lookup_insert_ne by congruence.
Qed.

Lemma fill_rows first columns : forall results done st,
  NoDup columns ->
  filled time_Parse Sprintf_v first columns done st ->
  exists st',
    forEach (fun st result =>
               forEach (appendCell time_Parse Sprintf_v result) columns st)
      results st = Returned st' /\
    filled time_Parse Sprintf_v first columns (done ++ results) st'.
Proof.
  induction results as [| result results IH]; intros done st Hnodup Hst; simpl.
  - exists st. by rewrite app_nil_r.
  - destruct (fill_row first done result columns st Hnodup Hst)
      as (st1 & Hrun & Htypes & Hin & _).
    rewrite Hrun. simpl.
    destruct (IH (done ++ [result]) st1 Hnodup) as (st' & Hrun' & Hst').
    { intros col Hcol. split; [| auto].
      rewrite Htypes. by apply Hst. }
    exists st'. split; [exact Hrun' |].
    by rewrite <- app_assoc in Hst'.
Qed.

(** *** Last loop *)

Lemma addField_spec st fields col ty cells :
  columnTypes st !! col = Some ty ->
  columnValues st !! col = Some (coerceColumn ty cells) ->
  addField st fields col =
    Returned (fields ++ [NewField col (coerceColumn ty cells)]).
Proof.
  intros Hty Hvals. unfold addField. rewrite Hty, Hvals.
  destruct ty; reflexivity.
Qed.

Lemma add_fields first results st : forall columns fields,
  (forall col, col ∈ columns ->
     columnTypes st !! col = Some (classify (index first col)) /\
     columnValues st !! col =
       Some (coerceColumn (classify (index first col))
               (map (fun r => index r col) results))) ->
  forEach (addField st) columns fields =
    Returned (fields ++ map (fieldOf time_Parse Sprintf_v first results) columns).
Proof.
  induction columns as [| c columns IH]; intros fields Hst; simpl.
  - by rewrite app_nil_r.
  - destruct (Hst c) as [Hty Hvals]; [left |].
    rewrite (addField_spec _ _ _ _ _ Hty Hvals). simpl.
    rewrite IH by (intros col Hcol; apply Hst; by right).
    by rewrite <- app_assoc.
Qed.

(** *** The whole conversion *)

Lemma convertColumns_frameOf columns first results :
  NoDup columns ->
  convertColumns time_Parse Sprintf_v columns first results =
    Returned (frameOf time_Parse Sprintf_v columns first results, None).
Proof.
  intros Hnodup. unfold convertColumns.
  destruct (fill_rows first columns results []
              (fold_left (declareColumn time_Parse first) columns (mkState ∅ ∅))
              Hnodup) as (st & Hrun & Hst).
  { intros col Hcol.
    by apply (declare_all first columns (mkState ∅ ∅) col). }
  rewrite Hrun. simpl.
  rewrite (add_fields first results st columns []) by exact Hst.
  reflexivity.
Qed.

Lemma NoDup_keys (result : row) : NoDup (keys result).
Proof. apply NoDup_fst_map_to_list. Qed.

Lemma elem_of_keys (result : row) col :
  col ∈ keys result <-> is_Some (result !! col).
Proof.
  unfold keys. rewrite list_elem_of_fmap. split.
  - intros [[k v] [-> Hkv]]. apply elem_of_map_to_list in Hkv. eauto.
  - intros [v Hv]. exists (col, v). split; [reflexivity |].
    by apply elem_of_map_to_list.
Qed.

Lemma rangeOrder_NoDup (result : row) columns :
  rangeOrder result columns -> NoDup columns.
Proof. intros H. unfold rangeOrder in H. rewrite H. apply NoDup_keys. Qed.

End ConvertFacts.

(* ===================================================================== *)
(** ** Properties of the frame builder *)
(* ===================================================================== *)

(** C5. An empty RowSet gives the frame without fields, and no error:
    the conversion returns, its error is nil, and the frame has zero
    fields. *)
Theorem empty_rowset_empty_frame time_Parse Sprintf_v :
  convertToDataFrames time_Parse Sprintf_v [] = Returned (NewFrame "response", None)
  /\ Fields (NewFrame "response") = [].
Proof. split; reflexivity. Qed.

(** On a non-empty RowSet [convertToDataFrames] is [convertColumns] on the
    keys of the first row. *)
Lemma convertToDataFrames_cons time_Parse Sprintf_v first rest :
  convertToDataFrames time_Parse Sprintf_v (first :: rest) =
    convertColumns time_Parse Sprintf_v (keys first) first (first :: rest).
Proof. reflexivity. Qed.

(** C1. For a non-empty RowSet, whatever the order in which the keys of
    the first row are visited, the conversion returns a frame without
    error; the frame has exactly one field per key of the first row
    (the names of the fields are the visited keys, without repetition,
    and a name is a field exactly when it is a key of the first row);
    and every field holds as many values as the RowSet has rows.
    Nothing is assumed about the other rows. *)
Theorem frame_shape time_Parse Sprintf_v (first : row) (rest : list row)
    (columns : list string) :
  rangeOrder first columns ->
  exists frame,
    convertColumns time_Parse Sprintf_v columns first (first :: rest)
      = Returned (frame, None) /\
    map fieldName (Fields frame) = columns /\
    NoDup (map fieldName (Fields frame)) /\
    (forall col, col ∈ map fieldName (Fields frame) <-> is_Some (first !! col)) /\
    length (Fields frame) = size first /\
    Forall (fun f => vectorLen (fieldValues f) = length (first :: rest))
      (Fields frame).
Proof.
  intros Horder. pose proof (rangeOrder_NoDup _ _ Horder) as Hnodup.
  exists (frameOf time_Parse Sprintf_v columns first (first :: rest)).
  assert (Hnames :
    map fieldName (Fields (frameOf time_Parse Sprintf_v columns first (first :: rest)))
      = columns).
  { unfold frameOf. simpl. rewrite map_map. simpl. apply map_id. }
  split; [by apply convertColumns_frameOf |].
  split; [exact Hnames |]. rewrite Hnames.
  split; [exact Hnodup |]. split; [| split].
  - intros col. unfold rangeOrder in Horder. rewrite Horder.
    apply elem_of_keys.
  - rewrite <- (length_map fieldName), Hnames.
    unfold rangeOrder in Horder. rewrite Horder. unfold keys.
    by rewrite length_fmap, length_map_to_list.
  - unfold frameOf. simpl Fields. apply Forall_forall. intros f Hf.
    apply list_elem_of_fmap in Hf as (col & -> & _).
    unfold fieldOf. simpl fieldValues.
    rewrite vectorLen_coerceColumn. simpl. by rewrite length_map.
Qed.

Lemma frame_shape_witness :
  exists frame,
    convertToDataFrames Parse Samples.sprint [Samples.row1; Samples.row2]
      = Returned (frame, None) /\
    map fieldName (Fields frame) = keys Samples.row1 /\
    NoDup (map fieldName (Fields frame)) /\
    (forall col, col ∈ map fieldName (Fields frame)
                 <-> is_Some (Samples.row1 !! col)) /\
    length (Fields frame) = size Samples.row1 /\
    Forall (fun f => vectorLen (fieldValues f) = 2%nat) (Fields frame).
Proof.
  apply (frame_shape Parse Samples.sprint Samples.row1 [Samples.row2]
           (keys Samples.row1)).
  unfold rangeOrder. reflexivity.
Defined.





(** The frame of the two sample rows: the float column reads 0 for the
    text "oops", the text column formats the boolean, the boolean column
    reads false for the missing key, and the timestamp column reads the
    zero instant for a text that is no timestamp. *)
Example sample_frame :
  convertToDataFrames Parse Samples.sprint [Samples.row1; Samples.row2] =
    Returned
      (mkFrame "response"
         [NewField "ok" (Bools [true; false]);
          NewField "note" (Strings ["n/a"; "true"]);
          NewField "ts" (Times [Samples.nativeTime; zeroTime]);
          NewField "x" (Float64s [42.5%float; 0%float])], None).
Proof. vm_compute. reflexivity. Qed.

(** C2. The timestamp normalizer is one chain of three attempts in a
    fixed order: the native layout, RFC 3339, the bare layout; the first
    attempt that succeeds decides.  The first loop gives a column whose
    first value is the text [s] the type Timestamp exactly when the chain
    succeeds on [s], and the fill loop appends to a Timestamp column the
    time the same chain yields for the cell (the zero instant when it
    yields none).  With Go's [time.Parse], the text
    "2024-01-15 10:30:00.123456789" is parsed by the native layout, the
    first of the chain, and a column that starts with it is a Timestamp
    column holding that instant. *)
Theorem timestamp_chain :
  (forall time_Parse Sprintf_v (s : string),
     let attempts :=
       [time_Parse ocientTimestampFormat s; time_Parse RFC3339 s;
        time_Parse "2006-01-02 15:04:05" s] in
     (forall first st col,
        index first col = VString s ->
        columnTypes (declareColumn time_Parse first st col) !! col =
          Some (if firstSuccess attempts is Some _ then TTimestamp else TString)) /\
     (forall result st col values,
        index result col = VString s ->
        columnTypes st !! col = Some TTimestamp ->
        columnValues st !! col = Some (Times values) ->
        appendCell time_Parse Sprintf_v result st col =
          Returned (store st col
                      (Times (values ++ [default zeroTime (firstSuccess attempts)])))))
  /\ Parse ocientTimestampFormat Samples.nativeText = Some Samples.nativeTime
  /\ firstSuccess (map (fun layout => Parse layout Samples.nativeText)
                     timestampFormats)
     = Parse ocientTimestampFormat Samples.nativeText
  /\ forall Sprintf_v,
       convertToDataFrames Parse Sprintf_v
         [ <["ts" := VString Samples.nativeText]> ∅ ]
       = Returned (mkFrame "response"
                     [NewField "ts" (Times [Samples.nativeTime])], None).
Proof.
  split; [| split; [| split]].
  - intros time_Parse Sprintf_v s attempts. split.
    + intros first st col Hfirst.
      rewrite (declareColumn_spec time_Parse Sprintf_v), Hfirst.
      unfold declare. simpl columnTypes. rewrite lookup_insert_eq.
      reflexivity.
    + intros result st col values Hcell Hty Hvals.
      unfold appendCell. rewrite Hty, Hvals, Hcell. subst attempts. simpl.
      repeat (destruct (time_Parse _ s); try reflexivity).
  - vm_compute. reflexivity.
  - vm_compute. reflexivity.
  - intros Sprintf_v. vm_compute. reflexivity.
Qed.

Lemma timestamp_chain_witness :
  columnTypes (declareColumn Parse Samples.row1 (mkState ∅ ∅) "ts") !! "ts"
    = Some TTimestamp
  /\ appendCell Parse Samples.sprint Samples.row1
       (declareColumn Parse Samples.row1 (mkState ∅ ∅) "ts") "ts"
     = Returned (store (declareColumn Parse Samples.row1 (mkState ∅ ∅) "ts")
                   "ts" (Times [Samples.nativeTime])).
Proof.
  destruct timestamp_chain as [Hchain _].
  destruct (Hchain Parse Samples.sprint Samples.nativeText) as [Hclass Hfill].
  split.
  - exact (Hclass Samples.row1 (mkState ∅ ∅) "ts" eq_refl).
  - exact (Hfill Samples.row1
             (declareColumn Parse Samples.row1 (mkState ∅ ∅) "ts") "ts" []
             eq_refl eq_refl eq_refl).
Defined.

(** The fractional second of the native layout is optional, and a text in
    internet date-time form is refused by the native layout and parsed by
    the second attempt. *)
Example native_without_fraction :
  Parse ocientTimestampFormat "2024-01-15 10:30:00"
    = Some (mkTime 2024 1 15 10 30 0 0 0).
Proof. vm_compute. reflexivity. Qed.

Example internet_format_second :
  Parse ocientTimestampFormat "2024-01-15T10:30:00Z" = None /\
  Parse RFC3339 "2024-01-15T10:30:00Z" = Some (mkTime 2024 1 15 10 30 0 0 0) /\
  classify Parse (VString "2024-01-15T10:30:00Z") = TTimestamp.
Proof. vm_compute. repeat split. Qed.

Example plain_text_is_text :
  classify Parse (VString "n/a") = TString /\
  coerce Parse Samples.sprint TTimestamp (VString "n/a") = CellTime zeroTime.
Proof. vm_compute. split; reflexivity. Qed.

(* ===================================================================== *)
(** ** Properties of the query executor *)
(* ===================================================================== *)

(** C8. For a decoded reply, [executeQuery] succeeds (its error is nil)
    exactly when the SQL state is "00000", and then hands on the rows of
    the reply.  For any other state it returns no rows, the status of the
    reply as it came, and an error; [query] then answers with an error
    response that carries reason, SQL state and vendor code of the reply
    and holds no frame. *)
Theorem sql_state_decides time_Parse Sprintf_v (remote : string -> exchange)
    (statement : string) (response : CollectionResponse) :
  remote statement = Answer response ->
  statement <> "" ->
  let status := Status response in
  ((executeQuery remote statement).2 = None <-> SQLState status = "00000") /\
  (SQLState status = "00000" ->
     executeQuery remote statement = (Data response, Some status, None)) /\
  (SQLState status <> "00000" ->
     (exists err, executeQuery remote statement = ([], Some status, Some err)) /\
     query time_Parse Sprintf_v remote (inr (mkQueryModel statement)) =
       Returned
         (mkDataResponse []
            (Some ("Query failed: " +:+ Reason status
                   +:+ " (SQL state: " +:+ SQLState status
                   +:+ ", vendor code: " +:+ pretty (VendorCode status) +:+ ")"))
            (Some StatusInternal))).
Proof.
  intros Hremote Hstatement status.
  assert (Heqb : String.eqb statement "" = false)
    by (by apply String.eqb_neq).
  unfold query, executeQuery. simpl QueryText. rewrite Heqb, Hremote.
  fold status.
  destruct (String.eqb (SQLState status) "00000") eqn:Hstate; simpl.
  - apply String.eqb_eq in Hstate. split; [tauto |]. split; [reflexivity |].
    intros Hne. contradiction.
  - apply String.eqb_neq in Hstate. split; [split; [discriminate | tauto] |].
    split; [intros Heq; contradiction |].
    intros _. split; [eauto | reflexivity].
Qed.

Lemma sql_state_decides_witness :
  executeQuery Samples.rejecting "SELECT 1"
    = ([], Some Samples.failure,
       Some "query error: syntax error (SQL state: 42601, vendor code: 17)")
  /\ query Parse Samples.sprint Samples.rejecting (inr (mkQueryModel "SELECT 1"))
     = Returned
         (mkDataResponse []
            (Some "Query failed: syntax error (SQL state: 42601, vendor code: 17)")
            (Some StatusInternal)).
Proof.
  destruct (sql_state_decides Parse Samples.sprint Samples.rejecting "SELECT 1"
              (mkResponse "q1" Samples.failure [Samples.row1]))
    as (_ & _ & Hfail).
  - reflexivity.
  - discriminate.
  - destruct Hfail as [_ Hquery]; [simpl; discriminate |].
    split; [reflexivity | exact Hquery].
Defined.

(* ===================================================================== *)
(** ** Properties of the distinct-value browser *)
(* ===================================================================== *)

Section BrowseFacts.
Import DataSource BrowseSpec.

Variable backend : MyQuery -> settled.

Lemma numberOr_zero (n : option Z) : numberOr n 0 = default 0%Z n.
Proof.
  destruct n as [n |]; simpl; [| reflexivity].
  destruct (Z.eqb_spec n 0); congruence.
Qed.

Lemma nonempty_args schema table column :
  falsy schema = false -> falsy table = false -> falsy column = false ->
  falsy schema || falsy table || falsy column = false.
Proof. by intros -> -> ->. Qed.

(** The count helper issues exactly its one query, whatever comes
    back. *)
Lemma getDistinctValueCount_issued schema table column issued :
  falsy schema || falsy table || falsy column = false ->
  (getDistinctValueCount backend schema table column issued).2
    = issued ++ [countQuery schema table column].
Proof.
  intros Hargs. unfold getDistinctValueCount. rewrite Hargs.
  unfold await, this_query, ret.
  destruct (backend (countQuery schema table column))
    as [[[[[| frame frames] |]] |] | error]; try reflexivity.
  destruct (fields frame) as [[| field fields'] |]; try reflexivity.
  destruct (nth 0 (values field) JUndefined); reflexivity.
Qed.

(** The browsing request after its guard: the count helper, then the
    value query, then the page. *)
Lemma getDistinctColumnValues_run schema table column options issued :
  falsy schema || falsy table || falsy column = false ->
  let limit := numberOr (options ≫= limit) 100 in
  let offset := numberOr (options ≫= offset) 0 in
  let pattern := stringOr (options ≫= searchPattern) in
  let query :=
    mkQuery "distinct_values"
      (valueQueryText schema table column limit offset pattern) in
  let count := (getDistinctValueCount backend schema table column issued).1 in
  getDistinctColumnValues backend schema table column options issued =
    (match backend query with
     | Fulfilled (Some (mkDataQueryResponse (Some (frame :: _)))) =>
         match fields frame with
         | Some (field :: _) =>
             mkPage (map toString (values field)) count
               (offset + Z.of_nat (length (map toString (values field)))
                <? count)%Z
         | _ => mkPage [] count false
         end
     | _ => mkPage [] count false
     end,
     issued ++ [countQuery schema table column; query]).
Proof.
  intros Hargs limit offset pattern query count.
  pose proof (getDistinctValueCount_issued schema table column issued Hargs)
    as Hissued.
  unfold getDistinctColumnValues. rewrite Hargs.
  subst count. unfold await at 1.
  destruct (getDistinctValueCount backend schema table column issued)
    as [n issued'] eqn:Hcount.
  simpl in Hissued. subst issued'. simpl fst.
  unfold await, this_query, ret. fold limit offset pattern query.
  rewrite <- app_assoc. simpl app.
  destruct (backend query) as [[[[[| frame frames] |]] |] | error];
    try reflexivity.
  destruct (fields frame) as [[| field fields'] |]; reflexivity.
Qed.

(** C6, for the requests whose value query yields a field, with the
    other requests added.  A browsing request whose value query comes
    back with a frame and a first field returns the values of that field
    as text, and [hasMore] is [offset + length values < totalCount],
    where [offset] is the offset of the request (0 when the request
    gives none).  So with a total count of 150, a page of 100 values at offset
    0 has more, and a page of 50 values at offset 100 has no more.  When
    the value query comes back without such a field, the page has no
    values and [hasMore] is false. *)
Theorem hasMore_formula schema table column options issued :
  falsy schema = false -> falsy table = false -> falsy column = false ->
  let limit := numberOr (options ≫= limit) 100 in
  let offset := default 0%Z (options ≫= offset) in
  let pattern := stringOr (options ≫= searchPattern) in
  let answer :=
    backend (mkQuery "distinct_values"
               (valueQueryText schema table column limit offset pattern)) in
  let page :=
    (getDistinctColumnValues backend schema table column options issued).1 in
  totalCount page
    = (getDistinctValueCount backend schema table column issued).1 /\
  (forall field, valuesFrom answer field ->
     pageValues page = map toString (values field) /\
     hasMore page
       = (offset + Z.of_nat (length (pageValues page)) <? totalCount page)%Z /\
     (offset = 0%Z -> length (values field) = 100%nat ->
      totalCount page = 150%Z ->
      length (pageValues page) = 100%nat /\ hasMore page = true) /\
     (offset = 100%Z -> length (values field) = 50%nat ->
      totalCount page = 150%Z ->
      length (pageValues page) = 50%nat /\ hasMore page = false)) /\
  ((forall field, ~ valuesFrom answer field) ->
     pageValues page = [] /\ hasMore page = false).
Proof.
  intros Hs Ht Hc limit offset pattern answer page.
  pose proof (getDistinctColumnValues_run schema table column options issued
                (nonempty_args _ _ _ Hs Ht Hc)) as Hrun.
  simpl in Hrun. rewrite numberOr_zero in Hrun.
  fold limit offset pattern answer in Hrun.
  subst page. rewrite Hrun. clear Hrun. simpl fst.
  split; [| split].
  - destruct answer as [[[[[| frame frames] |]] |] | error]; try reflexivity.
    destruct (fields frame) as [[| field fields'] |]; reflexivity.
  - intros field (frame & frames & fields' & -> & Hfields).
    rewrite Hfields. simpl.
    repeat split; try reflexivity.
    + by rewrite length_map.
    + rewrite length_map. lia.
    + by rewrite length_map.
    + rewrite length_map. lia.
  - intros Hnone.
    destruct answer as [[[[[| frame frames] |]] |] | error] eqn:Hanswer;
      try (split; reflexivity).
    destruct (fields frame) as [[| field fields'] |] eqn:Hfields;
      try (split; reflexivity).
    destruct (Hnone field). by exists frame, frames, fields'.
Qed.

(** C7. A browsing request issues two queries, in this order: the count
    query, whose text is built from schema, table and column alone, and
    the value query, which carries the filter
    [LOWER(CAST(column AS VARCHAR)) LIKE LOWER('%pattern%')] exactly when
    the search pattern is not empty.  The total count of the page is what
    the count helper yields, so it is the same for every search pattern
    (and every limit and offset) of the request. *)
Theorem search_filter_only_on_values schema table column options issued :
  falsy schema = false -> falsy table = false -> falsy column = false ->
  let limit := numberOr (options ≫= limit) 100 in
  let offset := numberOr (options ≫= offset) 0 in
  let pattern := stringOr (options ≫= searchPattern) in
  let select :=
    "SELECT DISTINCT " +:+ column +:+ " " +:+ newline
    +:+ "                     FROM " +:+ schema +:+ "." +:+ table
    +:+ " " +:+ newline
    +:+ "                     WHERE " +:+ column +:+ " IS NOT NULL" in
  let filter :=
    " AND LOWER(CAST(" +:+ column +:+ " AS VARCHAR)) LIKE LOWER('%"
    +:+ pattern +:+ "%')" in
  let paging :=
    " ORDER BY " +:+ column +:+ " ASC " +:+ newline
    +:+ "                  LIMIT " +:+ pretty limit +:+ " OFFSET "
    +:+ pretty offset in
  let valueText :=
    if String.eqb pattern "" then select +:+ paging
    else (select +:+ filter) +:+ paging in
  (getDistinctColumnValues backend schema table column options issued).2
    = issued ++ [mkQuery "distinct_count"
                   ("SELECT COUNT(DISTINCT " +:+ column
                    +:+ ") AS value_count FROM " +:+ schema +:+ "." +:+ table
                    +:+ " WHERE " +:+ column +:+ " IS NOT NULL");
                 mkQuery "distinct_values" valueText] /\
  totalCount (getDistinctColumnValues backend schema table column options issued).1
    = (getDistinctValueCount backend schema table column issued).1 /\
  forall options',
    totalCount
      (getDistinctColumnValues backend schema table column options' issued).1
    = totalCount
        (getDistinctColumnValues backend schema table column options issued).1.
Proof.
  intros Hs Ht Hc limit offset pattern select filter paging valueText.
  pose proof (nonempty_args _ _ _ Hs Ht Hc) as Hargs.
  assert (Hcount : forall o,
    totalCount (getDistinctColumnValues backend schema table column o issued).1
      = (getDistinctValueCount backend schema table column issued).1).
  { intros o.
    rewrite (getDistinctColumnValues_run schema table column o issued Hargs).
    simpl. destruct (backend _) as [[[[[| frame frames] |]] |] | error];
      try reflexivity.
    destruct (fields frame) as [[| field fields'] |]; reflexivity. }
  split; [| split].
  - rewrite (getDistinctColumnValues_run schema table column options issued Hargs).
    simpl. do 3 f_equal. unfold valueQueryText, falsy.
    fold limit offset pattern. subst valueText.
    destruct (String.eqb pattern ""); reflexivity.
  - apply Hcount.
  - intros options'. by rewrite !Hcount.
Qed.


End BrowseFacts.

Lemma hasMore_formula_witness :
  let first :=
    (DataSource.getDistinctColumnValues BrowseSamples.table150 "s" "t" "c"
       BrowseSamples.firstPage []).1 in
  let second :=
    (DataSource.getDistinctColumnValues BrowseSamples.table150 "s" "t" "c"
       BrowseSamples.secondPage []).1 in
  (length (DataSource.pageValues first) = 100%nat /\
   DataSource.hasMore first = true) /\
  (length (DataSource.pageValues second) = 50%nat /\
   DataSource.hasMore second = false).
Proof.
  split.
  - destruct (hasMore_formula BrowseSamples.table150 "s" "t" "c"
                BrowseSamples.firstPage [] eq_refl eq_refl eq_refl)
      as (_ & Hvalues & _).
    destruct (Hvalues
                (DataSource.mkField "c" (take 100 BrowseSamples.catalogue)))
      as (_ & _ & Hfirst & _).
    + eexists _, _, _. split; reflexivity.
    + apply Hfirst; reflexivity.
  - destruct (hasMore_formula BrowseSamples.table150 "s" "t" "c"
                BrowseSamples.secondPage [] eq_refl eq_refl eq_refl)
      as (_ & Hvalues & _).
    destruct (Hvalues
                (DataSource.mkField "c"
                   (take 100 (drop 100 BrowseSamples.catalogue))))
      as (_ & _ & _ & Hsecond).
    + eexists _, _, _. split; reflexivity.
    + apply Hsecond; reflexivity.
Defined.

(** C6 as stated fails on a request that succeeds with an empty result:
    a search that matches none of the 150 values returns no values,
    total count 150 and [hasMore = false], although
    [0 + 0 < 150]. *)
Lemma hasMore_false_on_empty_result :
  let page :=
    (DataSource.getDistinctColumnValues BrowseSamples.noMatch "s" "t" "c"
       BrowseSamples.searchMiss []).1 in
  DataSource.pageValues page = [] /\
  DataSource.totalCount page = 150%Z /\
  DataSource.hasMore page = false /\
  DataSource.hasMore page
    <> (0 + Z.of_nat (length (DataSource.pageValues page))
        <? DataSource.totalCount page)%Z.
Proof. vm_compute. repeat split; discriminate. Qed.

Lemma search_filter_only_on_values_witness :
  (DataSource.getDistinctColumnValues BrowseSamples.table150 "s" "t" "c"
     (Some (DataSource.mkOptions None None (Some "ab"))) []).2
  = [DataSource.mkQuery "distinct_count"
       "SELECT COUNT(DISTINCT c) AS value_count FROM s.t WHERE c IS NOT NULL";
     DataSource.mkQuery "distinct_values"
       (DataSource.valueQueryText "s" "t" "c" 100 0 "ab")]
  /\ DataSource.totalCount
       (DataSource.getDistinctColumnValues BrowseSamples.table150 "s" "t" "c"
          (Some (DataSource.mkOptions None None (Some "ab"))) []).1
     = 150%Z.
Proof.
  destruct (search_filter_only_on_values BrowseSamples.table150 "s" "t" "c"
              (Some (DataSource.mkOptions None None (Some "ab"))) []
              eq_refl eq_refl eq_refl) as (Hissued & Hcount & _).
  split.
  - exact Hissued.
  - rewrite Hcount. reflexivity.
Defined.


(* ===================================================================== *)
(** ** Properties of the query builder *)
(* ===================================================================== *)

Section BuilderFacts.
Import QueryEditor BuilderSpec.

Lemma append_assoc (a b c : string) : (a +:+ b) +:+ c = a +:+ (b +:+ c).
Proof.
  induction a as [| x a IH]; [reflexivity | exact (f_equal (String x) IH)].
Qed.

Lemma append_nil_r (a : string) : a +:+ "" = a.
Proof.
  induction a as [| x a IH]; [reflexivity | exact (f_equal (String x) IH)].
Qed.

Lemma truthy_Some (s : string) : s <> "" -> truthy (Some s) = true.
Proof. intros H. simpl. by apply String.eqb_neq in H as ->. Qed.

(** C9. With a schema and a table, [buildQuery] yields the text of the
    template: [SELECT], the selected columns joined by ", " or [*] when
    there are none, [FROM schema.table], and, when there is a clause,
    [WHERE] and the clauses joined by " AND ", each clause being
    [column operator 'value'], with the clause of the time-series
    column (its two time-range bounds, then [ORDER BY column ASC]) last.
    Schema [s], table [t], no column, the one clause [x = '5'] and no
    time-series column give [SELECT * FROM s.t WHERE x = '5']. *)
Theorem buildQuery_template schema table selectedColumns whereClauses
    timeseriesColumn :
  schema <> "" -> table <> "" ->
  buildQuery (Some schema) (Some table) selectedColumns whereClauses
    timeseriesColumn
  = Some (template schema table selectedColumns whereClauses timeseriesColumn)
  /\ template schema table [] whereClauses None
     = "SELECT * FROM " +:+ schema +:+ "." +:+ table
       +:+ match whereClauses with
           | [] => ""
           | _ => " WHERE " +:+ join " AND " (map renderClause whereClauses)
           end
  /\ (forall ts, ts <> "" ->
        template schema table selectedColumns whereClauses (Some ts)
        = "SELECT " +:+ selectList selectedColumns +:+ " FROM " +:+ schema
          +:+ "." +:+ table +:+ " WHERE "
          +:+ join " AND "
                (map renderClause whereClauses
                 ++ [ts +:+ " >= $__timeFrom() AND " +:+ ts
                     +:+ " <= $__timeTo() ORDER BY " +:+ ts +:+ " ASC"]))
  /\ buildQuery (Some "s") (Some "t") [] [mkWhereClause "x" "=" "5"] None
     = Some "SELECT * FROM s.t WHERE x = '5'".
Proof.
  intros Hschema Htable. split; [| split; [| split]].
  - unfold buildQuery. rewrite (truthy_Some _ Hschema), (truthy_Some _ Htable).
    simpl andb. cbv iota. f_equal. unfold template.
    assert (Hcols :
      (if (0 <? length selectedColumns)%nat
       then join ", " (map name selectedColumns) else "*")
      = selectList selectedColumns) by (by destruct selectedColumns).
    rewrite Hcols. simpl default.
    assert (Hts :
      (if truthy timeseriesColumn
       then map (fun clause =>
                   column clause +:+ " " +:+ operator clause +:+ " '"
                   +:+ value clause +:+ "'") whereClauses
            ++ [default "" timeseriesColumn +:+ " >= $__timeFrom() AND "
                +:+ default "" timeseriesColumn +:+ " <= $__timeTo() ORDER BY "
                +:+ default "" timeseriesColumn +:+ " ASC"]
       else map (fun clause =>
                   column clause +:+ " " +:+ operator clause +:+ " '"
                   +:+ value clause +:+ "'") whereClauses)
      = map renderClause whereClauses
        ++ map timeClause (designated timeseriesColumn)).
    { destruct timeseriesColumn as [ts |]; simpl.
      - destruct (String.eqb ts ""); simpl; [by rewrite app_nil_r | reflexivity].
      - by rewrite app_nil_r. }
    rewrite Hts.
    assert (Hcond :
      (0 <? length whereClauses)%nat || truthy timeseriesColumn
      = match map renderClause whereClauses
              ++ map timeClause (designated timeseriesColumn) with
        | [] => false
        | _ => true
        end).
    { destruct whereClauses; simpl; [| reflexivity].
      destruct timeseriesColumn as [ts |]; simpl; [| reflexivity].
      by destruct (String.eqb ts ""). }
    rewrite Hcond.
    destruct (map renderClause whereClauses
              ++ map timeClause (designated timeseriesColumn)) as [| c cs].
    + by rewrite append_nil_r.
    + by rewrite !append_assoc.
  - unfold template. simpl. rewrite app_nil_r.
    by destruct whereClauses.
  - intros ts Hts. unfold template. simpl designated.
    apply String.eqb_neq in Hts as ->. simpl map at 2.
    unfold timeClause.
    destruct (map renderClause whereClauses ++ _) as [| c cs] eqn:Hclauses;
      [| reflexivity].
    by apply app_nil in Hclauses as [_ ?].
  - reflexivity.
Qed.

End BuilderFacts.

Lemma buildQuery_template_witness :
  QueryEditor.buildQuery (Some "s") (Some "t")
    [QueryEditor.mkSelectedColumn "a" None; QueryEditor.mkSelectedColumn "b" None]
    [QueryEditor.mkWhereClause "x" "=" "5"] (Some "ts")
  = Some "SELECT a, b FROM s.t WHERE x = '5' AND ts >= $__timeFrom() AND ts <= $__timeTo() ORDER BY ts ASC".
Proof.
  destruct (buildQuery_template "s" "t"
              [QueryEditor.mkSelectedColumn "a" None;
               QueryEditor.mkSelectedColumn "b" None]
              [QueryEditor.mkWhereClause "x" "=" "5"] (Some "ts"))
    as (Hbuild & _).
  - discriminate.
  - discriminate.
  - exact Hbuild.
Defined.

(* ===================================================================== *)
(** ** Further properties of the Go backend *)
(* ===================================================================== *)

Section PluginFacts.
Variable time_Parse : string -> string -> option Time.
Variable Sprintf_v : value -> string.
Variable remote : string -> exchange.

(** The frame builder returns on every RowSet. *)
Lemma convertToDataFrames_returns results :
  exists frame,
    convertToDataFrames time_Parse Sprintf_v results = Returned (frame, None).
Proof.
  destruct results as [| first rest].
  - by exists (NewFrame "response").
  - exists (frameOf time_Parse Sprintf_v (keys first) first (first :: rest)).
    simpl. apply convertColumns_frameOf, NoDup_keys.
Qed.

(** [query] returns on every request. *)
Lemma query_returns decoded :
  exists resp, query time_Parse Sprintf_v remote decoded = Returned resp.
Proof.
  destruct decoded as [err | [text]]; simpl; [eauto |].
  destruct (String.eqb text ""); [eauto |].
  destruct (executeQuery remote text) as [[rows status] [err |]].
  - destruct status; eauto.
  - destruct (convertToDataFrames_returns rows) as [frame ->]. simpl. eauto.
Qed.



(** X3. When the exchange with the remote system fails before a reply is
    decoded, [executeQuery] returns no rows and no status, and its error
    names the step that failed followed by the cause; [query] wraps that
    error into an Internal error response without frames. *)
Theorem transport_failure_reported (text : string) :
  text <> "" ->
  (forall response, remote text <> Answer response) ->
  exists err,
    executeQuery remote text = ([], None, Some err) /\
    query time_Parse Sprintf_v remote (inr (mkQueryModel text))
      = Returned (mkDataResponse []
                    (Some ("query execution error: " +:+ err))
                    (Some StatusInternal)) /\
    match remote text with
    | MarshalError cause => err = "error marshaling query: " +:+ cause
    | RequestError cause => err = "error creating request: " +:+ cause
    | TransportError cause => err = "error executing query: " +:+ cause
    | ReadError cause => err = "error reading response: " +:+ cause
    | ParseError cause => err = "error parsing response: " +:+ cause
    | Answer _ => False
    end.
Proof.
  intros Htext Hnone. apply String.eqb_neq in Htext.
  unfold query, executeQuery. simpl QueryText. rewrite Htext.
  destruct (remote text) as [e | e | e | e | e | response] eqn:Hremote;
    try (eexists; repeat split; reflexivity).
  by destruct (Hnone response).
Qed.

End PluginFacts.

Section HandlerFacts.
Variable time_Parse : string -> string -> option Time.
Variable Sprintf_v : value -> string.
Variable remote : string -> exchange.
Variable json_Unmarshal : string -> string + queryModel.

Local Abbreviation answer :=
  (fun q => query time_Parse Sprintf_v remote (json_Unmarshal (JSON q))).

(** The loop of [QueryData] from any map of responses: it returns, keeps
    the entries of the RefIDs it does not meet, and holds for a RefID it
    meets the response to the last query with that RefID. *)
Lemma QueryData_loop queries : forall responses,
  exists responses',
    forEach
      (fun (responses : gmap string DataResponse) q =>
         bind (answer q) (fun res => Returned (<[RefID q := res]> responses)))
      queries responses = Returned responses' /\
    (forall id, id ∉ map RefID queries -> responses' !! id = responses !! id) /\
    (forall i q,
       queries !! i = Some q ->
       (forall j q', (i < j)%nat -> queries !! j = Some q' -> RefID q' <> RefID q) ->
       exists res, answer q = Returned res /\ responses' !! RefID q = Some res).
Proof.
  induction queries as [| q0 queries IH]; intros responses; simpl.
  - exists responses. split; [reflexivity |]. split; [auto |].
    intros i q Hq. by rewrite lookup_nil in Hq.
  - destruct (query_returns time_Parse Sprintf_v remote (json_Unmarshal (JSON q0)))
      as [res0 Hres0].
    rewrite Hres0. simpl.
    destruct (IH (<[RefID q0 := res0]> responses))
      as (responses' & Hrun & Hout & Hin).
    exists responses'. split; [exact Hrun |]. split.
    + intros id Hid. apply not_elem_of_cons in Hid as [Hne Hid].
      rewrite (Hout id Hid). by apply lookup_insert_ne.
    + intros [| i] q Hq Hlast; simpl in Hq.
      * injection Hq as <-. exists res0. split; [exact Hres0 |].
        rewrite Hout; [apply lookup_insert_eq |].
        intros Hmem. apply list_elem_of_fmap in Hmem as (q' & Heq & Hq').
        apply list_elem_of_lookup in Hq' as [j Hj].
        apply (Hlast (S j) q'); [lia | exact Hj | by symmetry].
      * apply (Hin i q Hq). intros j q' Hij Hq'.
        apply (Hlast (S j) q'); [lia | exact Hq'].
Qed.


(** X5. For a datasource whose secrets are set, [CheckHealth] returns,
    and its status is Ok exactly when host, port, database, user name and
    password are all present and the remote system answers "SELECT 1"
    with SQL state "00000"; otherwise the status is Error. *)
Theorem CheckHealth_ok_iff (d : Datasource) (secrets : SecretPluginSettings) :
  Secrets (settings d) = Some secrets ->
  exists res,
    CheckHealth remote d = Returned res /\
    (HealthState res = HealthStatusOk \/ HealthState res = HealthStatusError) /\
    (HealthState res = HealthStatusOk <->
       Host (settings d) <> "" /\ Port (settings d) <> 0%Z /\
       Database (settings d) <> "" /\ Username secrets <> "" /\
       Password secrets <> "" /\
       exists response,
         remote "SELECT 1" = Answer response /\
         SQLState (Status response) = "00000").
Proof.
  intros Hsecrets. unfold CheckHealth. rewrite Hsecrets.
  destruct (String.eqb_spec (Host (settings d)) "") as [Hhost | Hhost];
    [eexists; split; [reflexivity |]; simpl; split; [auto |];
     split; [discriminate | tauto] |].
  destruct (Z.eqb_spec (Port (settings d)) 0) as [Hport | Hport];
    [eexists; split; [reflexivity |]; simpl; split; [auto |];
     split; [discriminate | tauto] |].
  destruct (String.eqb_spec (Database (settings d)) "") as [Hdb | Hdb];
    [eexists; split; [reflexivity |]; simpl; split; [auto |];
     split; [discriminate | tauto] |].
  destruct (String.eqb_spec (Username secrets) "") as [Huser | Huser];
    [eexists; split; [reflexivity |]; simpl; split; [auto |];
     split; [discriminate | tauto] |].
  destruct (String.eqb_spec (Password secrets) "") as [Hpass | Hpass];
    [eexists; split; [reflexivity |]; simpl; split; [auto |];
     split; [discriminate | tauto] |].
  unfold executeQuery.
  destruct (remote "SELECT 1") as [e | e | e | e | e | response] eqn:Hremote.
  1-5: eexists; (split; [reflexivity |]); simpl; (split; [auto |]);
    (split; [discriminate |]);
    intros (_ & _ & _ & _ & _ & response & Hr & _); discriminate.
  destruct (String.eqb_spec (SQLState (Status response)) "00000")
    as [Hstate | Hstate]; simpl.
  - eexists. split; [reflexivity |]. simpl. split; [auto |].
    split; [intros _ | reflexivity]. repeat (split; [assumption |]). eauto.
  - eexists. split; [reflexivity |]. simpl. split; [auto |].
    split; [discriminate |].
    intros (_ & _ & _ & _ & _ & response' & [= <-] & Hs). contradiction.
Qed.

(** X6. When one of the five settings is missing, [CheckHealth] reports
    it without help of the remote system: the result is an Error whose
    message names a missing setting, the same for every remote system. *)
Theorem CheckHealth_missing_setting (d : Datasource)
    (secrets : SecretPluginSettings) :
  Secrets (settings d) = Some secrets ->
  Host (settings d) = "" \/ Port (settings d) = 0%Z \/
  Database (settings d) = "" \/ Username secrets = "" \/
  Password secrets = "" ->
  exists what,
    (what = "Host" /\ Host (settings d) = "" \/
     what = "Port" /\ Port (settings d) = 0%Z \/
     what = "Database" /\ Database (settings d) = "" \/
     what = "Username" /\ Username secrets = "" \/
     what = "Password" /\ Password secrets = "") /\
    forall remote' : string -> exchange,
      CheckHealth remote' d
        = Returned (mkHealth HealthStatusError (what +:+ " is missing")).
Proof.
  intros Hsecrets Hmissing. unfold CheckHealth. rewrite Hsecrets.
  destruct (String.eqb_spec (Host (settings d)) "") as [Hhost | Hhost];
    [exists "Host"; split; [auto | reflexivity] |].
  destruct (Z.eqb_spec (Port (settings d)) 0) as [Hport | Hport];
    [exists "Port"; split; [auto | reflexivity] |].
  destruct (String.eqb_spec (Database (settings d)) "") as [Hdb | Hdb];
    [exists "Database"; split; [auto | reflexivity] |].
  destruct (String.eqb_spec (Username secrets) "") as [Huser | Huser];
    [exists "Username"; split; [auto 10 | reflexivity] |].
  destruct (String.eqb_spec (Password secrets) "") as [Hpass | Hpass];
    [exists "Password"; split; [auto 10 | reflexivity] |].
  tauto.
Qed.

(** X7. Settings that do not decode make [NewDatasource] fail with the
    wrapped error.  Settings that decode give a datasource with the
    decoded host and database, port 443 in place of 0, and the secrets of
    the secure map (the empty string for a missing key); on it
    [CheckHealth] never panics and never misses the port. *)
Theorem NewDatasource_ready (decoded : string + PluginSettings)
    (secure : gmap string string) :
  match decoded with
  | inl err =>
      NewDatasource decoded secure
        = inr ("could not unmarshal PluginSettings json: " +:+ err)
  | inr given =>
      exists d,
        NewDatasource decoded secure = inl d /\
        Host (settings d) = Host given /\
        Database (settings d) = Database given /\
        Port (settings d) = (if (Port given =? 0)%Z then 443%Z else Port given) /\
        Port (settings d) <> 0%Z /\
        Secrets (settings d)
          = Some (mkSecrets (default "" (secure !! "username"))
                    (default "" (secure !! "password"))) /\
        exists res,
          CheckHealth remote d = Returned res /\
          Message res <> "Port is missing"
  end.
Proof.
  destruct decoded as [err | given]; [reflexivity |].
  unfold NewDatasource, LoadPluginSettings.
  eexists. split; [reflexivity |]. simpl.
  assert (Hport : Port (if (Port given =? 0)%Z
                        then mkSettings (Host given) 443 (Database given)
                               (InsecureSkipVerify given) (Secrets given)
                        else given)
                  = if (Port given =? 0)%Z then 443%Z else Port given)
    by (by destruct (Port given =? 0)%Z).
  assert (Hhost : Host (if (Port given =? 0)%Z
                        then mkSettings (Host given) 443 (Database given)
                               (InsecureSkipVerify given) (Secrets given)
                        else given) = Host given)
    by (by destruct (Port given =? 0)%Z).
  assert (Hdb : Database (if (Port given =? 0)%Z
                      then mkSettings (Host given) 443 (Database given)
                             (InsecureSkipVerify given) (Secrets given)
                      else given) = Database given)
    by (by destruct (Port given =? 0)%Z).
  assert (Hnz : (if (Port given =? 0)%Z then 443%Z else Port given) <> 0%Z)
    by (destruct (Z.eqb_spec (Port given) 0); [discriminate | assumption]).
  split; [exact Hhost |]. split; [exact Hdb |]. split; [exact Hport |].
  split; [by rewrite Hport |]. split; [reflexivity |].
  unfold CheckHealth. simpl. rewrite Hhost, Hdb, Hport.
  apply Z.eqb_neq in Hnz. rewrite Hnz.
  destruct (String.eqb (Host given) ""); [eexists; split; [reflexivity | discriminate] |].
  destruct (String.eqb (Database given) ""); [eexists; split; [reflexivity | discriminate] |].
  destruct (String.eqb _ ""); [eexists; split; [reflexivity | discriminate] |].
  destruct (String.eqb _ ""); [eexists; split; [reflexivity | discriminate] |].
  destruct (executeQuery remote "SELECT 1") as [[rows status] [err |]].
  - eexists. split; [reflexivity |]. simpl.
    destruct status as [status |]; simpl; intros Heq.
    + assert (Hc : String.get 0 ("Connection test failed: " +:+ Reason status
                                 +:+ " (SQL state: " +:+ SQLState status +:+ ")")
                   = String.get 0 "Port is missing") by (by rewrite Heq).
      discriminate.
    + assert (Hc : String.get 0 ("Connection test failed: " +:+ err)
                   = String.get 0 "Port is missing") by (by rewrite Heq).
      discriminate.
  - eexists. split; [reflexivity | discriminate].
Qed.

End HandlerFacts.

Section ConvertMore.
Variable time_Parse : string -> string -> option Time.
Variable Sprintf_v : value -> string.

(** X8. Only the cells under the keys of the first row reach the frame:
    two RowSets whose rows agree on those keys give the same frame,
    whatever else their rows hold. *)
Theorem other_keys_ignored (first : row) (columns : list string)
    (results results' : list row) :
  rangeOrder first columns ->
  Forall2 (fun r r' => forall col, col ∈ columns -> index r col = index r' col)
    results results' ->
  convertColumns time_Parse Sprintf_v columns first results
  = convertColumns time_Parse Sprintf_v columns first results'.
Proof.
  intros Horder Hagree. pose proof (rangeOrder_NoDup _ _ Horder) as Hnodup.
  rewrite !convertColumns_frameOf by assumption.
  do 2 f_equal. unfold frameOf. f_equal.
  apply map_ext_in. intros col Hcol. apply list_elem_of_In in Hcol.
  unfold fieldOf. do 2 f_equal.
  induction Hagree as [| r r' rs rs' Hr _ IH]; [reflexivity |].
  simpl. by rewrite (Hr col Hcol), IH.
Qed.

(** X9. The order in which the keys of the first row are visited only
    orders the fields: two visiting orders give frames whose fields are a
    permutation of each other. *)
Theorem visiting_order_permutes_fields (first : row) (results : list row)
    (columns columns' : list string) :
  rangeOrder first columns ->
  rangeOrder first columns' ->
  exists frame frame',
    convertColumns time_Parse Sprintf_v columns first results
      = Returned (frame, None) /\
    convertColumns time_Parse Sprintf_v columns' first results
      = Returned (frame', None) /\
    frameName frame = frameName frame' /\
    Fields frame ≡ₚ Fields frame'.
Proof.
  intros Horder Horder'.
  exists (frameOf time_Parse Sprintf_v columns first results),
         (frameOf time_Parse Sprintf_v columns' first results).
  split; [apply convertColumns_frameOf; by eapply rangeOrder_NoDup |].
  split; [apply convertColumns_frameOf; by eapply rangeOrder_NoDup |].
  split; [reflexivity |].
  unfold frameOf. simpl. apply Permutation_map.
  unfold rangeOrder in *. by rewrite Horder, Horder'.
Qed.

End ConvertMore.

(* ===================================================================== *)
(** ** Further properties of the front end *)
(* ===================================================================== *)

Section DiscoveryFacts.
Import DataSource BrowseSpec.

Variable backend : MyQuery -> settled.

(** X10. [getTables] issues no query for an empty schema and returns the
    empty list.  Otherwise it issues exactly the tables query; it returns
    the values of the first field of the first frame, throws the error of
    a rejected query again, returns the empty list when there is no
    frame, and throws a TypeError when the first frame has no field. *)
Theorem getTables_outcomes (schema : string) (issued : list MyQuery) :
  (falsy schema = true ->
   getTables backend schema issued = (Resolved [], issued)) /\
  (falsy schema = false ->
   (getTables backend schema issued).2 = issued ++ [tablesQuery schema] /\
   (forall error, backend (tablesQuery schema) = Rejected error ->
      (getTables backend schema issued).1 = Thrown error) /\
   (forall field, valuesFrom (backend (tablesQuery schema)) field ->
      (getTables backend schema issued).1 = Resolved (values field)) /\
   (forall frame frames,
      backend (tablesQuery schema)
        = Fulfilled (Some (mkDataQueryResponse (Some (frame :: frames)))) ->
      fields frame = None \/ fields frame = Some [] ->
      (getTables backend schema issued).1 = Thrown TypeError) /\
   (backend (tablesQuery schema) = Fulfilled None \/
    backend (tablesQuery schema) = Fulfilled (Some (mkDataQueryResponse None)) \/
    backend (tablesQuery schema)
      = Fulfilled (Some (mkDataQueryResponse (Some []))) ->
    (getTables backend schema issued).1 = Resolved [])).
Proof.
  split; intros Hschema; unfold getTables; rewrite Hschema; [reflexivity |].
  unfold await, this_query, ret.
  split; [| split; [| split; [| split]]].
  - destruct (backend _) as [[[[[| frame frames] |]] |] | error]; try reflexivity.
    destruct (fields frame) as [[| field fields'] |]; reflexivity.
  - by intros error ->.
  - intros field (frame & frames & fields' & -> & Hfields). by rewrite Hfields.
  - intros frame frames -> [Hfields | Hfields]; by rewrite Hfields.
  - by intros [-> | [-> | ->]].
Qed.

(** X11. [getSchemas] issues the test query and then the schema query,
    whatever the test query comes to, and the test query has no part in
    the result: that is the values of the first field of the first frame
    of the schema query, the empty list when there is no frame or the
    first frame has no field, and the error of the schema query thrown
    again when that query is rejected. *)
Theorem getSchemas_outcomes (issued : list MyQuery) :
  (getSchemas backend issued).2
    = issued ++ [mkQuery "test" "SELECT 1 as test"; schemasQuery] /\
  (forall error, backend schemasQuery = Rejected error ->
     (getSchemas backend issued).1 = Thrown error) /\
  (forall field, valuesFrom (backend schemasQuery) field ->
     (getSchemas backend issued).1 = Resolved (values field)) /\
  (forall response, backend schemasQuery = Fulfilled response ->
     (forall field, ~ valuesFrom (backend schemasQuery) field) ->
     (getSchemas backend issued).1 = Resolved []) /\
  (forall backend' : MyQuery -> settled,
     backend' schemasQuery = backend schemasQuery ->
     (getSchemas backend' issued).1 = (getSchemas backend issued).1).
Proof.
  unfold getSchemas, await, this_query, ret.
  split; [| split; [| split; [| split]]].
  - rewrite <- app_assoc. simpl.
    destruct (backend schemasQuery) as [[[[[| frame frames] |]] |] | error];
      try reflexivity.
    destruct (fields frame) as [[| field fields'] |]; reflexivity.
  - by intros error ->.
  - intros field (frame & frames & fields' & -> & Hfields). by rewrite Hfields.
  - intros response Hresponse Hnone.
    destruct (backend schemasQuery) as [[[[[| frame frames] |]] |] | error];
      try reflexivity; [| discriminate].
    destruct (fields frame) as [[| field fields'] |] eqn:Hfields;
      try reflexivity.
    destruct (Hnone field). by exists frame, frames, fields'.
  - by intros backend' ->.
Qed.

(** X12. [getColumns] issues no query when schema or table is empty.
    When the first frame of its query holds the four fields
    [column_name], [data_type], [is_nullable] and [column_default], it
    returns one entry per value of [column_name], in order; entry [i]
    holds the [i]-th value of each field, [undefined] where a field is
    shorter.  When one of the four fields is missing, also in a frame
    without fields, it returns the empty list and throws nothing. *)
Theorem getColumns_entries (schema table : string) (issued : list MyQuery)
    (frame : DataFrame) (frames : list DataFrame) (fs : list Field) :
  (falsy schema || falsy table = true ->
   getColumns backend schema table issued = (Resolved [], issued)) /\
  (falsy schema || falsy table = false ->
   backend (columnsQuery schema table)
     = Fulfilled (Some (mkDataQueryResponse (Some (frame :: frames)))) ->
   fields frame = Some fs ->
   (getColumns backend schema table issued).2
     = issued ++ [columnsQuery schema table] /\
   (forall nameField typeField nullableField defaultField,
      findField "column_name" fs = Some nameField ->
      findField "data_type" fs = Some typeField ->
      findField "is_nullable" fs = Some nullableField ->
      findField "column_default" fs = Some defaultField ->
      exists infos,
        (getColumns backend schema table issued).1 = Resolved infos /\
        length infos = length (values nameField) /\
        forall i, (i < length (values nameField))%nat ->
          infos !! i
            = Some (mkColumnInfo (get nameField i) (get typeField i)
                      (get nullableField i) (get defaultField i)) /\
          values nameField !! i = Some (get nameField i)) /\
   (findField "column_name" fs = None \/ findField "data_type" fs = None \/
    findField "is_nullable" fs = None \/ findField "column_default" fs = None ->
    (getColumns backend schema table issued).1 = Resolved [])).
Proof.
  split; intros Hargs; unfold getColumns; rewrite Hargs; [reflexivity |].
  intros Hreply Hfields. unfold await, this_query, ret.
  rewrite Hreply, Hfields. split; [| split].
  - destruct (findField "column_name" fs), (findField "data_type" fs),
      (findField "is_nullable" fs), (findField "column_default" fs);
      reflexivity.
  - intros nameField typeField nullableField defaultField -> -> -> ->.
    eexists. split; [reflexivity |]. split.
    + by rewrite length_map, length_seq.
    + intros i Hi. split.
      * rewrite list_lookup_fmap, lookup_seq_lt by assumption. reflexivity.
      * unfold get.
        destruct (lookup_lt_is_Some_2 (values nameField) i Hi) as [v Hv].
        rewrite Hv. f_equal. symmetry. by apply nth_lookup_Some.
  - intros Hmissing.
    destruct (findField "column_name" fs), (findField "data_type" fs),
      (findField "is_nullable" fs), (findField "column_default" fs);
      try reflexivity.
    destruct Hmissing as [? | [? | [? | ?]]]; discriminate.
Qed.

End DiscoveryFacts.

(* ===================================================================== *)
(** ** Time macros *)
(* ===================================================================== *)

Section TemplateFacts.
Import DataSource TemplateSpec.

(** *** Decimal texts *)

Lemma dollarFree_app a b :
  dollarFree (a +:+ b) = dollarFree a && dollarFree b.
Proof.
  induction a as [| c a IH]; [reflexivity |].
  change (String c a +:+ b) with (String c (a +:+ b)). simpl.
  rewrite IH. by rewrite andb_assoc.
Qed.

Lemma dollarFree_pretty_N_go (x : N) : forall s,
  dollarFree s = true -> dollarFree (pretty_N_go x s) = true.
Proof.
  induction (N.lt_wf_0 x) as [x _ IH]; intros s Hs.
  destruct (decide (x = 0)%N) as [-> | Hx]; [exact Hs |].
  rewrite pretty_N_go_step by lia.
  apply IH; [apply N.div_lt; lia |].
  simpl. rewrite Hs.
  unfold pretty_N_char. by repeat case_match.
Qed.

Lemma dollarFree_pretty_Z (z : Z) : dollarFree (pretty z) = true.
Proof.
  destruct z as [| p | p]; [reflexivity | |].
  - change (pretty (Z.pos p)) with (pretty (N.pos p)).
    unfold pretty, pretty_N. destruct (decide _); [reflexivity |].
    by apply dollarFree_pretty_N_go.
  - change (pretty (Z.neg p)) with ("-" +:+ pretty (N.pos p)).
    rewrite dollarFree_app. simpl.
    unfold pretty, pretty_N. destruct (decide _); [reflexivity |].
    by apply dollarFree_pretty_N_go.
Qed.

Lemma dollarFree_numberToString n : dollarFree (numberToString n) = true.
Proof. destruct n; [apply dollarFree_pretty_Z | reflexivity]. Qed.

Lemma dollarFree_padStart2 s : dollarFree s = true -> dollarFree (padStart2 s) = true.
Proof.
  intros Hs. unfold padStart2. rewrite dollarFree_app, Hs, andb_true_r.
  induction (2 - String.length s)%nat as [| n IH]; [reflexivity | exact IH].
Qed.

(** A number below 100, padded: two digits. *)
Lemma padStart2_digits (n : Z) :
  (0 <= n <= 99)%Z ->
  exists a b a' b',
    padStart2 (pretty n) = String a (String b "") /\
    digit a = Some a' /\ digit b = Some b' /\ (a' * 10 + b')%Z = n.
Proof.
  intros Hn.
  assert (Hall :
    forallb (fun k : Z =>
               match padStart2 (pretty k) with
               | String a (String b EmptyString) =>
                   match digit a, digit b with
                   | Some a', Some b' =>
                       (a' * 10 + b' =? k)%Z
                   | _, _ => false
                   end
               | _ => false
               end) (seqZ 0 100) = true) by (vm_compute; reflexivity).
  rewrite forallb_forall in Hall.
  specialize (Hall n ltac:(apply list_elem_of_In, elem_of_seqZ; lia)).
  destruct (padStart2 (pretty n)) as [| a [| b [| c s]]]; try discriminate.
  destruct (digit a) as [a' |] eqn:Hda, (digit b) as [b' |] eqn:Hdb;
    try discriminate.
  apply Z.eqb_eq in Hall. exists a, b, a', b'. auto.
Qed.

(** A year of four digits. *)
Lemma year_digits (y : Z) :
  (1000 <= y <= 9999)%Z ->
  exists a b c d a' b' c' d',
    pretty y = String a (String b (String c (String d ""))) /\
    digit a = Some a' /\ digit b = Some b' /\ digit c = Some c' /\
    digit d = Some d' /\ atoi [a'; b'; c'; d'] = y.
Proof.
  intros Hy.
  assert (Hall :
    forallb (fun k : Z =>
               match pretty k with
               | String a (String b (String c (String d EmptyString))) =>
                   match digit a, digit b, digit c, digit d with
                   | Some a', Some b', Some c', Some d' =>
                       (atoi [a'; b'; c'; d'] =? k)%Z
                   | _, _, _, _ => false
                   end
               | _ => false
               end) (seqZ 1000 9000) = true) by (vm_compute; reflexivity).
  rewrite forallb_forall in Hall.
  specialize (Hall y ltac:(apply list_elem_of_In, elem_of_seqZ; lia)).
  destruct (pretty y) as [| a [| b [| c [| d [| e s]]]]]; try discriminate.
  destruct (digit a) as [a' |] eqn:Hda, (digit b) as [b' |] eqn:Hdb,
    (digit c) as [c' |] eqn:Hdc, (digit d) as [d' |] eqn:Hdd;
    try discriminate.
  apply Z.eqb_eq in Hall.
  exists a, b, c, d, a', b', c', d'. auto 10.
Qed.

Lemma digit_not_space c d v : digit c = Some d -> cutspace (String c v) = String c v.
Proof.
  intros Hc. destruct c as [[] [] [] [] [] [] [] []]; try reflexivity.
  discriminate.
Qed.

End TemplateFacts.

Section FormatFacts.
Import DataSource TemplateSpec.

(** *** Reading a text of the form YYYY-MM-DD HH:MM:SS *)

Lemma getnum_two c0 c1 v fixed a b :
  digit c0 = Some a -> digit c1 = Some b ->
  getnum (String c0 (String c1 v)) fixed = Some ((a * 10 + b)%Z, v).
Proof. intros Ha Hb. unfold getnum. by rewrite Ha, Hb. Qed.

Lemma skip_space c d v :
  digit c = Some d -> skip (String " " (String c v)) " " = Some (String c v).
Proof.
  intros Hc.
  change (skip (String " " (String c v)) " ")
    with (Some (cutspace (String c v))).
  by rewrite (digit_not_space c d v Hc).
Qed.

Lemma inRange_true lo x hi : (lo <= x < hi)%Z -> inRange lo x hi = true.
Proof. intros H. unfold inRange. apply andb_true_iff. split; lia. Qed.

(** The loop of [Parse], one layout element at a time. *)
Lemma loop_dash l v t :
  parseLoop (Lit "-" :: l) (String "-" v) t = parseLoop l v t.
Proof. reflexivity. Qed.

Lemma loop_colon l v t :
  parseLoop (Lit ":" :: l) (String ":" v) t = parseLoop l v t.
Proof. reflexivity. Qed.

Lemma loop_space l c d v t :
  digit c = Some d ->
  parseLoop (Lit " " :: l) (String " " (String c v)) t
  = parseLoop l (String c v) t.
Proof.
  intros Hc.
  change (parseLoop (Lit " " :: l) (String " " (String c v)) t)
    with (match skip (String " " (String c v)) " " with
          | Some v' => parseLoop l v' t
          | None => None
          end).
  by rewrite (skip_space c d v Hc).
Qed.

Lemma loop_year l c0 c1 c2 c3 v t a b c d :
  digit c0 = Some a -> digit c1 = Some b -> digit c2 = Some c ->
  digit c3 = Some d ->
  parseLoop (stdLongYear :: l) (String c0 (String c1 (String c2 (String c3 v)))) t
  = parseLoop l v
      (mkTime (atoi [a; b; c; d]) (month t) (day t) (hour t) (minute t)
         (second t) (nanosecond t) (zoneOffset t)).
Proof.
  intros Ha Hb Hc Hd.
  change (parseLoop (stdLongYear :: l)
            (String c0 (String c1 (String c2 (String c3 v)))) t)
    with (match digit c0, digit c1, digit c2, digit c3 with
          | Some a, Some b, Some c, Some d =>
              parseLoop l v
                (mkTime (atoi [a; b; c; d]) (month t) (day t) (hour t)
                   (minute t) (second t) (nanosecond t) (zoneOffset t))
          | _, _, _, _ => None
          end).
  by rewrite Ha, Hb, Hc, Hd.
Qed.

Lemma loop_month l c0 c1 v t a b :
  digit c0 = Some a -> digit c1 = Some b -> (1 <= a * 10 + b <= 12)%Z ->
  parseLoop (stdZeroMonth :: l) (String c0 (String c1 v)) t
  = parseLoop l v
      (mkTime (year t) (a * 10 + b) (day t) (hour t) (minute t) (second t)
         (nanosecond t) (zoneOffset t)).
Proof.
  intros Ha Hb Hr.
  change (parseLoop (stdZeroMonth :: l) (String c0 (String c1 v)) t)
    with (match getnum (String c0 (String c1 v)) true with
          | Some (m, v') =>
              if inRange 1 m 13 then
                parseLoop l v'
                  (mkTime (year t) m (day t) (hour t) (minute t) (second t)
                     (nanosecond t) (zoneOffset t))
              else None
          | None => None
          end).
  rewrite (getnum_two c0 c1 v true a b Ha Hb).
  by rewrite inRange_true by lia.
Qed.

Lemma loop_day l c0 c1 v t a b :
  digit c0 = Some a -> digit c1 = Some b ->
  parseLoop (stdZeroDay :: l) (String c0 (String c1 v)) t
  = parseLoop l v
      (mkTime (year t) (month t) (a * 10 + b) (hour t) (minute t) (second t)
         (nanosecond t) (zoneOffset t)).
Proof.
  intros Ha Hb.
  change (parseLoop (stdZeroDay :: l) (String c0 (String c1 v)) t)
    with (match getnum (String c0 (String c1 v)) true with
          | Some (d, v') =>
              parseLoop l v'
                (mkTime (year t) (month t) d (hour t) (minute t) (second t)
                   (nanosecond t) (zoneOffset t))
          | None => None
          end).
  by rewrite (getnum_two c0 c1 v true a b Ha Hb).
Qed.

Lemma loop_hour l c0 c1 v t a b :
  digit c0 = Some a -> digit c1 = Some b -> (0 <= a * 10 + b <= 23)%Z ->
  parseLoop (stdHour :: l) (String c0 (String c1 v)) t
  = parseLoop l v
      (mkTime (year t) (month t) (day t) (a * 10 + b) (minute t) (second t)
         (nanosecond t) (zoneOffset t)).
Proof.
  intros Ha Hb Hr.
  change (parseLoop (stdHour :: l) (String c0 (String c1 v)) t)
    with (match getnum (String c0 (String c1 v)) false with
          | Some (h, v') =>
              if inRange 0 h 24 then
                parseLoop l v'
                  (mkTime (year t) (month t) (day t) h (minute t) (second t)
                     (nanosecond t) (zoneOffset t))
              else None
          | None => None
          end).
  rewrite (getnum_two c0 c1 v false a b Ha Hb).
  by rewrite inRange_true by lia.
Qed.

Lemma loop_minute l c0 c1 v t a b :
  digit c0 = Some a -> digit c1 = Some b -> (0 <= a * 10 + b <= 59)%Z ->
  parseLoop (stdZeroMinute :: l) (String c0 (String c1 v)) t
  = parseLoop l v
      (mkTime (year t) (month t) (day t) (hour t) (a * 10 + b) (second t)
         (nanosecond t) (zoneOffset t)).
Proof.
  intros Ha Hb Hr.
  change (parseLoop (stdZeroMinute :: l) (String c0 (String c1 v)) t)
    with (match getnum (String c0 (String c1 v)) true with
          | Some (m, v') =>
              if inRange 0 m 60 then
                parseLoop l v'
                  (mkTime (year t) (month t) (day t) (hour t) m (second t)
                     (nanosecond t) (zoneOffset t))
              else None
          | None => None
          end).
  rewrite (getnum_two c0 c1 v true a b Ha Hb).
  by rewrite inRange_true by lia.
Qed.

(** The seconds at the end of the text, for a layout that ends with the
    seconds or with the optional fraction after them. *)
Lemma loop_second_last l c0 c1 t a b :
  l = [] \/ l = [stdFracSecond9] ->
  digit c0 = Some a -> digit c1 = Some b -> (0 <= a * 10 + b <= 59)%Z ->
  (1 <= day t <= daysIn (month t) (year t))%Z ->
  parseLoop (stdZeroSecond :: l) (String c0 (String c1 "")) t
  = Some (mkTime (year t) (month t) (day t) (hour t) (minute t) (a * 10 + b)
            (nanosecond t) (zoneOffset t)).
Proof.
  intros Hl Ha Hb Hr Hd.
  assert (Hday : ((day t <? 1) || (daysIn (month t) (year t) <? day t))%Z = false).
  { apply orb_false_iff. split; apply Z.ltb_ge; lia. }
  change (parseLoop (stdZeroSecond :: l) (String c0 (String c1 "")) t)
    with (match getnum (String c0 (String c1 "")) true with
          | Some (s, v') =>
              if inRange 0 s 60 then
                let t' := mkTime (year t) (month t) (day t) (hour t) (minute t)
                            s (nanosecond t) (zoneOffset t) in
                match nextStd l, fraction v' with
                | Some stdFracSecond9, _ => parseLoop l v' t'
                | _, Some (ns, v'') =>
                    parseLoop l v''
                      (mkTime (year t) (month t) (day t) (hour t) (minute t)
                         s ns (zoneOffset t))
                | _, None => parseLoop l v' t'
                end
              else None
          | None => None
          end).
  rewrite (getnum_two c0 c1 "" true a b Ha Hb).
  rewrite inRange_true by lia.
  destruct Hl as [-> | ->]; simpl; by rewrite Hday.
Qed.

(** A text of six decimal fields in the native punctuation is read by
    the bare layout and by the native layout as the time of its fields. *)
Lemma parse_fields (y0 y1 y2 y3 m0 m1 d0 d1 h0 h1 i0 i1 s0 s1 : ascii)
    (y mo d h mi s : Z) (ya yb yc yd ma mb da db ha hb ia ib sa sb : Z) :
  digit y0 = Some ya -> digit y1 = Some yb -> digit y2 = Some yc ->
  digit y3 = Some yd -> atoi [ya; yb; yc; yd] = y ->
  digit m0 = Some ma -> digit m1 = Some mb -> (ma * 10 + mb)%Z = mo ->
  digit d0 = Some da -> digit d1 = Some db -> (da * 10 + db)%Z = d ->
  digit h0 = Some ha -> digit h1 = Some hb -> (ha * 10 + hb)%Z = h ->
  digit i0 = Some ia -> digit i1 = Some ib -> (ia * 10 + ib)%Z = mi ->
  digit s0 = Some sa -> digit s1 = Some sb -> (sa * 10 + sb)%Z = s ->
  (1 <= mo <= 12)%Z -> (1 <= d <= daysIn mo y)%Z -> (0 <= h <= 23)%Z ->
  (0 <= mi <= 59)%Z -> (0 <= s <= 59)%Z ->
  let text :=
    String y0 (String y1 (String y2 (String y3 (String "-"
      (String m0 (String m1 (String "-"
        (String d0 (String d1 (String " "
          (String h0 (String h1 (String ":"
            (String i0 (String i1 (String ":"
              (String s0 (String s1 "")))))))))))))))))) in
  Parse "2006-01-02 15:04:05" text = Some (mkTime y mo d h mi s 0 0) /\
  Parse ocientTimestampFormat text = Some (mkTime y mo d h mi s 0 0).
Proof.
  intros Hy0 Hy1 Hy2 Hy3 Hy Hm0 Hm1 Hm Hd0 Hd1 Hd Hh0 Hh1 Hh Hi0 Hi1 Hi
    Hs0 Hs1 Hs Rm Rd Rh Ri Rs text.
  subst text. unfold Parse, ocientTimestampFormat.
  set (bare := layoutChunks "2006-01-02 15:04:05"). vm_compute in bare.
  set (native := layoutChunks "2006-01-02 15:04:05.999999999").
  vm_compute in native. subst bare native.
  split.
  - rewrite (loop_year _ _ _ _ _ _ _ _ _ _ _ Hy0 Hy1 Hy2 Hy3), Hy.
    rewrite loop_dash.
    rewrite (loop_month _ _ _ _ _ _ _ Hm0 Hm1), Hm by lia.
    rewrite loop_dash.
    rewrite (loop_day _ _ _ _ _ _ _ Hd0 Hd1), Hd.
    rewrite (loop_space _ h0 ha _ _ Hh0).
    rewrite (loop_hour _ _ _ _ _ _ _ Hh0 Hh1), Hh by lia.
    rewrite loop_colon.
    rewrite (loop_minute _ _ _ _ _ _ _ Hi0 Hi1), Hi by lia.
    rewrite loop_colon.
    rewrite (loop_second_last _ _ _ _ _ _ (or_introl eq_refl) Hs0 Hs1), Hs
      by (simpl; lia).
    reflexivity.
  - rewrite (loop_year _ _ _ _ _ _ _ _ _ _ _ Hy0 Hy1 Hy2 Hy3), Hy.
    rewrite loop_dash.
    rewrite (loop_month _ _ _ _ _ _ _ Hm0 Hm1), Hm by lia.
    rewrite loop_dash.
    rewrite (loop_day _ _ _ _ _ _ _ Hd0 Hd1), Hd.
    rewrite (loop_space _ h0 ha _ _ Hh0).
    rewrite (loop_hour _ _ _ _ _ _ _ Hh0 Hh1), Hh by lia.
    rewrite loop_colon.
    rewrite (loop_minute _ _ _ _ _ _ _ Hi0 Hi1), Hi by lia.
    rewrite loop_colon.
    rewrite (loop_second_last _ _ _ _ _ _ (or_intror eq_refl) Hs0 Hs1), Hs
      by (simpl; lia).
    reflexivity.
Qed.

Variable newDate : string -> Date.

(** X13. For a date in a four-digit year, [formatOcientTimestamp] writes
    19 characters, and Go's [time.Parse] reads them back, with the bare
    layout as with the native layout of the backend, as the same year,
    month (counted from 1), day, hour, minute and second, in UTC.  For an
    invalid date it writes "NaN-NaN-NaN NaN:NaN:NaN". *)
Theorem formatOcientTimestamp_round_trip (iso : string) :
  (forall y mo d h mi s,
     newDate iso = UTCDate y mo d h mi s -> civil y mo d h mi s ->
     String.length (formatOcientTimestamp newDate iso) = 19%nat /\
     Parse "2006-01-02 15:04:05" (formatOcientTimestamp newDate iso)
       = Some (mkTime y (mo + 1) d h mi s 0 0) /\
     Parse ocientTimestampFormat (formatOcientTimestamp newDate iso)
       = Some (mkTime y (mo + 1) d h mi s 0 0)) /\
  (newDate iso = InvalidDate ->
     formatOcientTimestamp newDate iso = "NaN-NaN-NaN NaN:NaN:NaN").
Proof.
  split; [| intros Hdate; unfold formatOcientTimestamp; by rewrite Hdate].
  intros y mo d h mi s Hdate (Ry & Rmo & Rd & Rh & Rmi & Rs).
  unfold formatOcientTimestamp. rewrite Hdate.
  cbn [getUTCFullYear getUTCMonth getUTCDate getUTCHours getUTCMinutes
       getUTCSeconds numberToString fmap option_fmap option_map].
  destruct (year_digits y Ry)
    as (y0 & y1 & y2 & y3 & ya & yb & yc & yd & -> & Hy0 & Hy1 & Hy2 & Hy3 & Hy).
  destruct (padStart2_digits (mo + 1) ltac:(lia))
    as (m0 & m1 & ma & mb & -> & Hm0 & Hm1 & Hm).
  destruct (padStart2_digits d ltac:(unfold daysIn in Rd; repeat case_match; lia))
    as (d0 & d1 & da & db & -> & Hd0 & Hd1 & Hd).
  destruct (padStart2_digits h ltac:(lia))
    as (h0 & h1 & ha & hb & -> & Hh0 & Hh1 & Hh).
  destruct (padStart2_digits mi ltac:(lia))
    as (i0 & i1 & ia & ib & -> & Hi0 & Hi1 & Hi).
  destruct (padStart2_digits s ltac:(lia))
    as (s0 & s1 & sa & sb & -> & Hs0 & Hs1 & Hs).
  cbv beta iota zeta delta [String.append].
  split; [reflexivity |].
  eapply parse_fields; eauto; lia.
Qed.

End FormatFacts.

Section ReplaceFacts.
Import DataSource TemplateSpec.

(** *** Replacing a macro *)

Lemma replaceFrom_skip pattern replacement s : forall skip,
  replaceFrom pattern replacement skip s
  = replaceFrom pattern replacement 0 (dropChars skip s).
Proof.
  induction s as [| c s IH]; intros [| skip]; try reflexivity.
  simpl dropChars. rewrite <- IH. reflexivity.
Qed.

(** The equation of [replaceAll] on a text that is not empty. *)
Lemma replaceAll_cons pattern replacement c s :
  replaceAll pattern replacement (String c s)
  = if startsWith pattern (String c s)
    then replacement
         +:+ replaceAll pattern replacement
               (dropChars (String.length pattern - 1) s)
    else String c (replaceAll pattern replacement s).
Proof.
  unfold replaceAll at 1. cbn [replaceFrom].
  destruct (startsWith pattern (String c s)); [| reflexivity].
  by rewrite replaceFrom_skip.
Qed.

Lemma length_dropChars n s : (String.length (dropChars n s) <= String.length s)%nat.
Proof.
  revert s. induction n as [| n IH]; intros [| c s]; simpl; try lia.
  specialize (IH s). lia.
Qed.

Lemma includes_cons pattern c s :
  includes pattern (String c s)
  = startsWith pattern (String c s) || includes pattern s.
Proof. reflexivity. Qed.

Lemma includes_dropChars pattern n : forall s,
  includes pattern (dropChars n s) = true -> includes pattern s = true.
Proof.
  induction n as [| n IH]; intros [| c s] H; try exact H.
  rewrite includes_cons. apply orb_true_iff. right. by apply IH.
Qed.

(** A text that starts with something free of [$] does not start with a
    macro, and a macro does not occur across it. *)
Lemma includes_dollarFree_app q a s :
  dollarFree a = true ->
  includes (String "$" q) (a +:+ s) = includes (String "$" q) s.
Proof.
  intros Ha. induction a as [| c a IH]; [reflexivity |].
  simpl in Ha. apply andb_true_iff in Ha as [Hc Ha].
  change (String c a +:+ s) with (String c (a +:+ s)).
  rewrite includes_cons, (IH Ha).
  cbn [startsWith]. apply negb_true_iff in Hc.
  rewrite Ascii.eqb_sym in Hc. by rewrite Hc.
Qed.

Section OneMacro.
(** The macro that is replaced, its replacement (which starts with a
    quote), and a text [q] without quote. *)
Variable macro : string.
Variable replacement : string.
Variable q : string.
Hypothesis macro_not_empty : macro <> "".
Hypothesis replacement_free : dollarFree ("'" +:+ replacement) = true.
Hypothesis q_without_quote : includes "'" q = false.

Local Abbreviation replaced := (replaceAll macro ("'" +:+ replacement)).

Lemma startsWith_empty_text : startsWith macro "" = false.
Proof. by destruct macro. Qed.

(** What follows a [$] in the result followed it in the text. *)
Lemma startsWith_replaced : forall q' s,
  includes "'" q' = false ->
  startsWith q' (replaced s) = true -> startsWith q' s = true.
Proof.
  induction q' as [| x q' IH]; intros s Hq Hs; [reflexivity |].
  rewrite includes_cons in Hq. apply orb_false_iff in Hq as [Hx Hq].
  cbn [startsWith] in Hx. rewrite andb_true_r in Hx.
  destruct s as [| c s]; [discriminate |].
  rewrite replaceAll_cons in Hs.
  destruct (startsWith macro (String c s)).
  - change (("'" +:+ replacement) +:+ ?u)
      with (String "'" (replacement +:+ u)) in Hs.
    cbn [startsWith] in Hs. rewrite Ascii.eqb_sym, Hx in Hs. discriminate.
  - cbn [startsWith] in Hs |- *.
    apply andb_true_iff in Hs as [-> Hs]. by rewrite (IH s Hq Hs).
Qed.

(** No occurrence of a macro [$q] is made by the replacement: one that
    is in the result was in the text, at a place where [macro] is not. *)
Lemma includes_replaced_inv n : forall s,
  (String.length s <= n)%nat ->
  includes (String "$" q) (replaced s) = true ->
  includes (String "$" q) s = true /\
  (macro = String "$" q -> False).
Proof.
  induction n as [| n IH]; intros [| c s] Hlen Hin; simpl in Hlen;
    try lia; try discriminate.
  rewrite replaceAll_cons in Hin.
  destruct (startsWith macro (String c s)) eqn:Hmatch.
  - rewrite includes_dollarFree_app in Hin by exact replacement_free.
    destruct (IH (dropChars (String.length macro - 1) s)) as [Hs Hne];
      [pose proof (length_dropChars (String.length macro - 1) s); lia
      | exact Hin |].
    split; [| exact Hne].
    rewrite includes_cons. apply orb_true_iff. right.
    by apply includes_dropChars in Hs.
  - rewrite includes_cons in Hin. apply orb_true_iff in Hin as [Hhead | Htail].
    + cbn [startsWith] in Hhead. apply andb_true_iff in Hhead as [Hc Hq].
      apply startsWith_replaced in Hq; [| exact q_without_quote].
      split.
      * rewrite includes_cons. cbn [startsWith]. by rewrite Hc, Hq.
      * intros ->. cbn [startsWith] in Hmatch. by rewrite Hc, Hq in Hmatch.
    + destruct (IH s) as [Hs Hne]; [lia | exact Htail |].
      split; [| exact Hne].
      rewrite includes_cons. apply orb_true_iff. by right.
Qed.

(** A text without the macro is left as it is. *)
Lemma replaced_without_macro s :
  includes macro s = false -> replaced s = s.
Proof.
  induction s as [| c s IH]; intros Hs; [reflexivity |].
  rewrite includes_cons in Hs. apply orb_false_iff in Hs as [Hhead Htail].
  rewrite replaceAll_cons, Hhead. by rewrite (IH Htail).
Qed.

End OneMacro.

Variable newDate : string -> Date.
Variable templateSrv_replace : string -> string.

Lemma dollarFree_formatOcientTimestamp iso :
  dollarFree (formatOcientTimestamp newDate iso) = true.
Proof.
  unfold formatOcientTimestamp.
  rewrite !dollarFree_app.
  rewrite !dollarFree_padStart2 by apply dollarFree_numberToString.
  by rewrite dollarFree_numberToString.
Qed.

Lemma dollarFree_quoted iso :
  dollarFree ("'" +:+ formatOcientTimestamp newDate iso +:+ "'") = true.
Proof.
  rewrite !dollarFree_app, dollarFree_formatOcientTimestamp. reflexivity.
Qed.

(** X14. Whatever the query text and whatever the template service and
    the dates are, the text that [applyTemplateVariables] returns holds
    no [$__timeFrom()] and no [$__timeTo()]. *)
Theorem applyTemplateVariables_leaves_no_macro (queryText : option string) :
  includes "$__timeFrom()"
    (applyTemplateVariables newDate templateSrv_replace queryText) = false /\
  includes "$__timeTo()"
    (applyTemplateVariables newDate templateSrv_replace queryText) = false.
Proof.
  unfold applyTemplateVariables, getTimeFromValue, getTimeToValue.
  set (text := templateSrv_replace (stringOr queryText)).
  set (from := formatOcientTimestamp newDate (templateSrv_replace "${__from:date:iso}")).
  set (to := formatOcientTimestamp newDate (templateSrv_replace "${__to:date:iso}")).
  assert (Hfrom : dollarFree ("'" +:+ from +:+ "'") = true)
    by apply dollarFree_quoted.
  assert (Hto : dollarFree ("'" +:+ to +:+ "'") = true)
    by apply dollarFree_quoted.
  assert (Hfirst : includes "$__timeFrom()"
                     (replaceAll "$__timeFrom()" ("'" +:+ from +:+ "'") text)
                   = false).
  { apply not_true_is_false. intros Hin.
    apply (includes_replaced_inv "$__timeFrom()" (from +:+ "'") "__timeFrom()"
             ltac:(discriminate) Hfrom eq_refl _ _ (le_n _)) in Hin as [_ Hne].
    by destruct Hne. }
  split.
  - apply not_true_is_false. intros Hin.
    apply (includes_replaced_inv "$__timeTo()" (to +:+ "'") "__timeFrom()"
             ltac:(discriminate) Hto eq_refl _ _ (le_n _)) in Hin as [Hin _].
    congruence.
  - apply not_true_is_false. intros Hin.
    apply (includes_replaced_inv "$__timeTo()" (to +:+ "'") "__timeTo()"
             ltac:(discriminate) Hto eq_refl _ _ (le_n _)) in Hin as [_ Hne].
    by destruct Hne.
Qed.

(** X15. A query text in which, after the template service, neither
    macro occurs is returned as the template service left it. *)
Theorem applyTemplateVariables_without_macro (queryText : option string) :
  includes "$__timeFrom()" (templateSrv_replace (stringOr queryText)) = false ->
  includes "$__timeTo()" (templateSrv_replace (stringOr queryText)) = false ->
  applyTemplateVariables newDate templateSrv_replace queryText
  = templateSrv_replace (stringOr queryText).
Proof.
  intros Hfrom Hto. unfold applyTemplateVariables.
  rewrite (replaced_without_macro "$__timeFrom()" _ _ Hfrom).
  by rewrite (replaced_without_macro "$__timeTo()" _ _ Hto).
Qed.

End ReplaceFacts.

Section BuiltQueryFacts.
Import DataSource TemplateSpec.

Variable newDate : string -> Date.
Variable templateSrv_replace : string -> string.

Lemma append_assoc' (a b c : string) : (a +:+ b) +:+ c = a +:+ (b +:+ c).
Proof.
  induction a as [| x a IH]; [reflexivity | exact (f_equal (String x) IH)].
Qed.

(** A text free of [$] in front of the rest is passed over. *)
Lemma replaceAll_dollarFree_app q replacement a s :
  dollarFree a = true ->
  replaceAll (String "$" q) replacement (a +:+ s)
  = a +:+ replaceAll (String "$" q) replacement s.
Proof.
  intros Ha. induction a as [| c a IH]; [reflexivity |].
  simpl in Ha. apply andb_true_iff in Ha as [Hc Ha].
  change (String c a +:+ s) with (String c (a +:+ s)).
  change (String c a +:+ replaceAll (String "$" q) replacement s)
    with (String c (a +:+ replaceAll (String "$" q) replacement s)).
  rewrite replaceAll_cons. cbn [startsWith].
  apply negb_true_iff in Hc. rewrite Ascii.eqb_sym in Hc. rewrite Hc.
  simpl. by rewrite (IH Ha).
Qed.

Lemma replaceAll_dollarFree q replacement a :
  dollarFree a = true -> replaceAll (String "$" q) replacement a = a.
Proof.
  intros Ha. induction a as [| c a IH]; [reflexivity |].
  simpl in Ha. apply andb_true_iff in Ha as [Hc Ha].
  rewrite replaceAll_cons. cbn [startsWith].
  apply negb_true_iff in Hc. rewrite Ascii.eqb_sym in Hc. rewrite Hc.
  simpl. by rewrite (IH Ha).
Qed.

Lemma startsWith_app_self a s : startsWith a (a +:+ s) = true.
Proof.
  induction a as [| c a IH]; [by destruct s |].
  change (String c a +:+ s) with (String c (a +:+ s)).
  cbn [startsWith]. by rewrite Ascii.eqb_refl, IH.
Qed.

Lemma dropChars_app a s : dropChars (String.length a) (a +:+ s) = s.
Proof.
  induction a as [| c a IH]; [by destruct s |].
  change (String c a +:+ s) with (String c (a +:+ s)). simpl. exact IH.
Qed.

(** The macro at the head of a text is replaced. *)
Lemma replaceAll_at_macro q replacement s :
  replaceAll (String "$" q) replacement (String "$" q +:+ s)
  = replacement +:+ replaceAll (String "$" q) replacement s.
Proof.
  change (String "$" q +:+ s) with (String "$" (q +:+ s)).
  rewrite replaceAll_cons.
  change (String "$" (q +:+ s)) with (String "$" q +:+ s).
  rewrite startsWith_app_self.
  change (String.length (String "$" q) - 1)%nat with (String.length q - 0)%nat.
  by rewrite Nat.sub_0_r, dropChars_app.
Qed.

(** [join] with a last element. *)
Lemma join_last sep l x :
  QueryEditor.join sep (l ++ [x])
  = fold_right (fun c acc => c +:+ sep +:+ acc) x l.
Proof.
  induction l as [| c l IH]; [reflexivity |].
  simpl app. simpl fold_right. rewrite <- IH.
  by destruct l.
Qed.

Lemma fold_right_last sep l x :
  fold_right (fun c acc => c +:+ sep +:+ acc) x l
  = fold_right (fun c acc => c +:+ sep +:+ acc) "" l +:+ x.
Proof.
  induction l as [| c l IH]; [reflexivity |].
  simpl. by rewrite IH, !append_assoc'.
Qed.

Lemma dollarFree_join sep l :
  dollarFree sep = true -> Forall (fun c => dollarFree c = true) l ->
  dollarFree (QueryEditor.join sep l) = true.
Proof.
  intros Hsep Hl. induction Hl as [| c l Hc Hl IH]; [reflexivity |].
  destruct l as [| c' l]; [exact Hc |].
  change (QueryEditor.join sep (c :: c' :: l))
    with (c +:+ sep +:+ QueryEditor.join sep (c' :: l)).
  by rewrite !dollarFree_app, Hc, Hsep, IH.
Qed.

Lemma dollarFree_fold sep l :
  dollarFree sep = true -> Forall (fun c => dollarFree c = true) l ->
  dollarFree (fold_right (fun c acc => c +:+ sep +:+ acc) "" l) = true.
Proof.
  intros Hsep Hl. induction Hl as [| c l Hc Hl IH]; [reflexivity |].
  simpl. by rewrite !dollarFree_app, Hc, Hsep, IH.
Qed.

(** X16. The query the builder writes for a time-series column gets its
    time range from [applyTemplateVariables]: with a schema, a table and
    a time-series column, and no [$] in the names and values chosen, the
    text of [buildQuery], when the template service leaves it as it is,
    comes back with [$__timeFrom()] and [$__timeTo()] replaced by the
    quoted from and to times, and nothing else changed. *)
Theorem built_query_gets_time_range (schema table ts : string)
    (selectedColumns : list QueryEditor.SelectedColumn)
    (whereClauses : list QueryEditor.WhereClause) :
  schema <> "" -> table <> "" -> ts <> "" ->
  dollarFree schema = true -> dollarFree table = true ->
  dollarFree ts = true ->
  Forall (fun c => dollarFree (QueryEditor.name c) = true) selectedColumns ->
  Forall (fun c => dollarFree (BuilderSpec.renderClause c) = true)
    whereClauses ->
  exists sql,
    QueryEditor.buildQuery (Some schema) (Some table) selectedColumns
      whereClauses (Some ts) = Some sql /\
    (templateSrv_replace sql = sql ->
     applyTemplateVariables newDate templateSrv_replace (Some sql)
     = "SELECT " +:+ BuilderSpec.selectList selectedColumns +:+ " FROM "
       +:+ schema +:+ "." +:+ table +:+ " WHERE "
       +:+ QueryEditor.join " AND "
             (map BuilderSpec.renderClause whereClauses
              ++ [ts +:+ " >= '" +:+ getTimeFromValue newDate templateSrv_replace
                  +:+ "' AND " +:+ ts +:+ " <= '"
                  +:+ getTimeToValue newDate templateSrv_replace
                  +:+ "' ORDER BY " +:+ ts +:+ " ASC"])).
Proof.
  intros Hschema Htable Hts Fschema Ftable Fts Fcols Fclauses.
  unfold QueryEditor.buildQuery.
  rewrite (truthy_Some _ Hschema), (truthy_Some _ Htable), (truthy_Some _ Hts).
  rewrite orb_true_r. simpl andb. cbv iota. simpl default.
  eexists. split; [reflexivity |]. intros Hsrv.
  unfold applyTemplateVariables. simpl stringOr. rewrite Hsrv.
  set (from := getTimeFromValue newDate templateSrv_replace).
  set (to := getTimeToValue newDate templateSrv_replace).
  assert (Hfrom : dollarFree ("'" +:+ from +:+ "'") = true)
    by apply dollarFree_quoted.
  assert (Hcols :
    (if (0 <? length selectedColumns)%nat
     then QueryEditor.join ", " (map QueryEditor.name selectedColumns)
     else "*") = BuilderSpec.selectList selectedColumns)
    by (by destruct selectedColumns).
  rewrite Hcols.
  assert (Fsel : dollarFree (BuilderSpec.selectList selectedColumns) = true).
  { unfold BuilderSpec.selectList. destruct selectedColumns as [| c cs];
      [reflexivity |].
    apply dollarFree_join; [reflexivity |]. by apply Forall_map. }
  change (map (fun clause =>
                 QueryEditor.column clause +:+ " " +:+ QueryEditor.operator clause
                 +:+ " '" +:+ QueryEditor.value clause +:+ "'") whereClauses)
    with (map BuilderSpec.renderClause whereClauses).
  apply (proj2 (Forall_map BuilderSpec.renderClause
                   (fun s => dollarFree s = true) whereClauses)) in Fclauses.
  rewrite !join_last, !(fold_right_last " AND " _ (ts +:+ _)).
  set (before := fold_right (fun c acc => c +:+ " AND " +:+ acc) ""
                   (map BuilderSpec.renderClause whereClauses)).
  assert (Fbefore : dollarFree before = true)
    by (by apply dollarFree_fold).
  set (head := "SELECT " +:+ BuilderSpec.selectList selectedColumns +:+ " FROM "
               +:+ schema +:+ "." +:+ table).
  assert (Fhead : dollarFree head = true).
  { subst head. by rewrite !dollarFree_app, Fsel, Fschema, Ftable. }
  (* the text as: free, macro, free, macro, free *)
  assert (Hsplit :
    (head +:+ " WHERE ")
    +:+ before
        +:+ ts +:+ " >= $__timeFrom() AND " +:+ ts
        +:+ " <= $__timeTo() ORDER BY " +:+ ts +:+ " ASC"
    = (head +:+ " WHERE " +:+ before +:+ ts +:+ " >= ")
      +:+ "$__timeFrom()"
      +:+ (" AND " +:+ ts +:+ " <= ")
      +:+ "$__timeTo()" +:+ (" ORDER BY " +:+ ts +:+ " ASC")).
  { rewrite !append_assoc'. reflexivity. }
  rewrite Hsplit. clear Hsplit.
  rewrite (replaceAll_dollarFree_app "__timeFrom()")
    by (by rewrite !dollarFree_app, Fhead, Fbefore, Fts).
  rewrite replaceAll_at_macro.
  rewrite (replaceAll_dollarFree_app "__timeFrom()")
    by (by rewrite !dollarFree_app, Fts).
  replace (replaceAll "$__timeFrom()" ("'" +:+ from +:+ "'")
             ("$__timeTo()" +:+ " ORDER BY " +:+ ts +:+ " ASC"))
    with ("$__timeTo()" +:+ " ORDER BY " +:+ ts +:+ " ASC").
  2:{ change ("$__timeTo()" +:+ ?x) with (String "$" ("__timeTo()" +:+ x)).
      rewrite replaceAll_cons.
      change (startsWith "$__timeFrom()"
                (String "$" ("__timeTo()" +:+ " ORDER BY " +:+ ts +:+ " ASC")))
        with false. cbv iota.
      rewrite (replaceAll_dollarFree "__timeFrom()"); [reflexivity |].
      by rewrite !dollarFree_app, Fts. }
  rewrite (replaceAll_dollarFree_app "__timeTo()")
    by (by rewrite !dollarFree_app, Fhead, Fbefore, Fts).
  rewrite (replaceAll_dollarFree_app "__timeTo()") by exact Hfrom.
  rewrite (replaceAll_dollarFree_app "__timeTo()")
    by (by rewrite !dollarFree_app, Fts).
  rewrite replaceAll_at_macro.
  rewrite (replaceAll_dollarFree "__timeTo()")
    by (by rewrite !dollarFree_app, Fts).
  subst head. rewrite !append_assoc'. reflexivity.
Qed.

End BuiltQueryFacts.

(* ===================================================================== *)
(** ** Properties of the handlers of the query editor *)
(* ===================================================================== *)

Section EditorFacts.
Import QueryEditor EditorSpec.

Lemma existsb_name n (cols : list SelectedColumn) :
  existsb (fun c => String.eqb (name c) n) cols = true <-> n ∈ map name cols.
Proof.
  rewrite existsb_exists, list_elem_of_fmap. split.
  - intros (c & Hc & Heq). apply String.eqb_eq in Heq.
    exists c. split; [done | by apply list_elem_of_In].
  - intros (c & -> & Hc). exists c. split; [by apply list_elem_of_In |].
    apply String.eqb_refl.
Qed.

Lemma names_filter n (cols : list SelectedColumn) :
  map name (List.filter (fun c => negb (String.eqb (name c) n)) cols)
  = List.filter (fun x => negb (String.eqb x n)) (map name cols).
Proof.
  induction cols as [| c cols IH]; [reflexivity |]. simpl.
  destruct (negb (String.eqb (name c) n)); simpl; by rewrite IH.
Qed.

Lemma NoDup_list_filter {A} (p : A -> bool) (l : list A) :
  NoDup l -> NoDup (List.filter p l).
Proof.
  induction 1 as [| x l Hx Hl IH]; simpl; [constructor |].
  destruct (p x); [| exact IH].
  constructor; [| exact IH].
  rewrite list_elem_of_In, filter_In, <- list_elem_of_In. tauto.
Qed.

Lemma names_toggle n flag (cols : list SelectedColumn) :
  map name
    (map (fun c =>
            if String.eqb (name c) n then mkSelectedColumn (name c) (Some flag)
            else if flag then mkSelectedColumn (name c) (Some false) else c)
       cols)
  = map name cols.
Proof.
  rewrite map_map. apply map_ext. intros c.
  destruct (String.eqb (name c) n); [reflexivity |]. by destruct flag.
Qed.

(** X17. The handlers of the column list keep the selection consistent:
    when the names are distinct, the time-series column is one of the
    selected columns and exactly that column carries the flag, the same
    holds after a column is added, after any column is removed, after a
    selected column is made the time-series column, and after the
    time-series column is unmarked. *)
Theorem column_handlers_keep_consistency (st : State) (query : MyQuery) :
  consistent st ->
  consistent (onAddColumn st query).1 /\
  (forall n, consistent (onRemoveColumn n st query).1) /\
  (forall n, n ∈ map name (selectedColumns st) ->
     consistent (onToggleTimeseriesColumn n true st query).1) /\
  (forall n, timeseriesColumn st = Some n ->
     consistent (onToggleTimeseriesColumn n false st query).1).
Proof.
  intros (Hnodup & Hts & Hflags). split; [| split; [| split]].
  - unfold onAddColumn.
    destruct (String.eqb (newColumnSelection st) ""); [done |].
    destruct (existsb _ (selectedColumns st)) eqn:Hexists; [done |].
    assert (Hfresh : newColumnSelection st ∉ map name (selectedColumns st)).
    { intros Hin. apply existsb_name in Hin. congruence. }
    unfold consistent. simpl. rewrite map_app. simpl. split; [| split].
    + apply NoDup_app. split; [exact Hnodup |]. split; [| apply NoDup_singleton].
      intros x Hx Hx'. apply list_elem_of_singleton in Hx'. by subst.
    + intros ts Hts'. apply elem_of_app. left. by apply Hts.
    + intros c Hc. apply elem_of_app in Hc as [Hc | Hc]; [by apply Hflags |].
      apply list_elem_of_singleton in Hc as ->. simpl.
      split; [discriminate |]. intros Heq. destruct Hfresh. by apply Hts.
  - intros n. unfold onRemoveColumn, consistent. simpl. split; [| split].
    + rewrite names_filter. by apply NoDup_list_filter.
    + intros ts Hts'. destruct (timeseriesColumn st) as [ts0 |]; [| discriminate].
      destruct (String.eqb_spec ts0 n) as [| Hne]; [discriminate |].
      injection Hts' as <-. rewrite names_filter.
      apply list_elem_of_In, filter_In. split.
      * apply list_elem_of_In. by apply Hts.
      * apply negb_true_iff. by apply String.eqb_neq.
    + intros c Hc. apply list_elem_of_In, filter_In in Hc as [Hc Hne].
      apply list_elem_of_In in Hc. apply negb_true_iff, String.eqb_neq in Hne.
      rewrite (Hflags c Hc).
      destruct (timeseriesColumn st) as [ts0 |]; [| done].
      destruct (String.eqb_spec ts0 n) as [-> | Hne'].
      * split; [intros [= Heq]; by destruct Hne | discriminate].
      * done.
  - intros n Hn. unfold onToggleTimeseriesColumn, consistent. simpl.
    rewrite names_toggle. split; [exact Hnodup |]. split.
    + by intros ts [= <-].
    + intros c' Hc'. apply list_elem_of_fmap in Hc' as (c & -> & Hc).
      destruct (String.eqb_spec (name c) n) as [Heq | Hne]; simpl.
      * by rewrite Heq.
      * split; [discriminate | intros [= Heq]; by destruct Hne].
  - intros n Hn. unfold onToggleTimeseriesColumn, consistent. simpl.
    rewrite names_toggle. split; [exact Hnodup |]. split; [discriminate |].
    intros c' Hc'. apply list_elem_of_fmap in Hc' as (c & -> & Hc).
    split; [| discriminate].
    destruct (String.eqb_spec (name c) n) as [Heq | Hne]; simpl;
      [discriminate |].
    intros Hflag. apply (Hflags c Hc) in Hflag. congruence.
Qed.

(** X18. The handlers keep the reported query in step with the state:
    when the query holds the selected columns, the where clauses and the
    time-series column of the state, so does the query each handler
    hands to the host together with the state the handler leaves. *)
Theorem handlers_keep_query_in_step (st : State) (query : MyQuery) :
  inStep st query ->
  inStep (onAddColumn st query).1 (onAddColumn st query).2 /\
  (forall n, inStep (onRemoveColumn n st query).1 (onRemoveColumn n st query).2) /\
  (forall n flag,
     inStep (onToggleTimeseriesColumn n flag st query).1
       (onToggleTimeseriesColumn n flag st query).2) /\
  inStep (onAddWhereClause st query).1 (onAddWhereClause st query).2 /\
  (forall i, inStep (onRemoveWhereClause i st query).1
               (onRemoveWhereClause i st query).2) /\
  (forall i field v,
     inStep (onUpdateWhereClause i field v st query).1
       (onUpdateWhereClause i field v st query).2) /\
  inStep (applySelectedValue st query).1 (applySelectedValue st query).2.
Proof.
  intros (Hcols & Hclauses & Hts).
  repeat split; try (simpl; assumption); try reflexivity.
  - unfold onAddColumn.
    destruct (String.eqb _ ""); [done |]. by destruct (existsb _ _).
  - unfold onAddColumn.
    destruct (String.eqb _ ""); [done |]. by destruct (existsb _ _).
  - unfold onAddColumn.
    destruct (String.eqb _ ""); [done |]. by destruct (existsb _ _).
  - unfold applySelectedValue. by destruct (_ && _).
  - unfold applySelectedValue. by destruct (_ && _).
  - unfold applySelectedValue. by destruct (_ && _).
Qed.

(** *** Clauses by index *)

Lemma filterIndex_delete {A} (i : Z) (l : list A) : forall k,
  filterIndex (fun j => negb (j =? i)%Z) k l
  = if decide (k <= i)%Z then delete (Z.to_nat (i - k)) l else l.
Proof.
  induction l as [| x l IH]; intros k; simpl.
  - by destruct (decide _).
  - rewrite IH. destruct (Z.eqb_spec k i) as [-> | Hne]; simpl.
    + rewrite Z.sub_diag. simpl.
      destruct (decide (i <= i)%Z); [| lia].
      by destruct (decide (i + 1 <= i)%Z); [lia |].
    + destruct (decide (k <= i)%Z) as [Hle | Hgt].
      * destruct (decide (k + 1 <= i)%Z); [| lia].
        replace (Z.to_nat (i - k)) with (S (Z.to_nat (i - (k + 1)))) by lia.
        reflexivity.
      * by destruct (decide (k + 1 <= i)%Z); [lia |].
Qed.

Lemma mapIndex_alter {A} (g : A -> A) (i : Z) (l : list A) : forall k,
  mapIndex (fun x j => if (j =? i)%Z then g x else x) k l
  = if decide (k <= i)%Z then alter g (Z.to_nat (i - k)) l else l.
Proof.
  induction l as [| x l IH]; intros k; simpl.
  - by destruct (decide _).
  - rewrite IH. destruct (Z.eqb_spec k i) as [-> | Hne]; simpl.
    + rewrite Z.sub_diag. simpl.
      destruct (decide (i <= i)%Z); [| lia].
      by destruct (decide (i + 1 <= i)%Z); [lia |].
    + destruct (decide (k <= i)%Z) as [Hle | Hgt].
      * destruct (decide (k + 1 <= i)%Z); [| lia].
        replace (Z.to_nat (i - k)) with (S (Z.to_nat (i - (k + 1)))) by lia.
        reflexivity.
      * by destruct (decide (k + 1 <= i)%Z); [lia |].
Qed.

Lemma delete_past_end {A} (l : list A) i : (length l <= i)%nat -> delete i l = l.
Proof.
  intros Hi. rewrite delete_take_drop, take_ge, drop_ge by lia.
  apply app_nil_r.
Qed.

Lemma alter_past_end {A} (g : A -> A) (l : list A) : forall i,
  (length l <= i)%nat -> alter g i l = l.
Proof.
  induction l as [| x l IH]; intros [| i] Hi; simpl in *; try lia;
    try reflexivity.
  f_equal. apply IH. lia.
Qed.

(** X19. Removing and updating a where clause go by position: for an
    index inside the list, removing deletes exactly the clause at that
    position, and updating sets the given field of exactly that clause;
    for any other index, negative (as the -1 of "no clause") or past the
    end, both leave the clauses as they are.  Updating never changes the
    number of clauses. *)
Theorem where_clause_by_index (st : State) (query : MyQuery) (i : Z)
    (field : clauseField) (v : string) :
  let removed := whereClauses (onRemoveWhereClause i st query).1 in
  let updated := whereClauses (onUpdateWhereClause i field v st query).1 in
  ((0 <= i < Z.of_nat (length (whereClauses st)))%Z ->
   removed = delete (Z.to_nat i) (whereClauses st) /\
   length removed = (length (whereClauses st) - 1)%nat /\
   updated = alter (fun c => setField c field v) (Z.to_nat i) (whereClauses st) /\
   (forall c, clauseAt (whereClauses st) i = Some c ->
      clauseAt updated i = Some (setField c field v)) /\
   (forall j, j <> i -> clauseAt updated j = clauseAt (whereClauses st) j)) /\
  (~ (0 <= i < Z.of_nat (length (whereClauses st)))%Z ->
   removed = whereClauses st /\ updated = whereClauses st) /\
  length updated = length (whereClauses st).
Proof.
  intros removed updated. subst removed updated.
  unfold onRemoveWhereClause, onUpdateWhereClause. simpl.
  rewrite filterIndex_delete,
    (mapIndex_alter (fun c => setField c field v) i (whereClauses st) 0).
  rewrite Z.sub_0_r.
  split; [| split].
  - intros Hi. destruct (decide (0 <= i)%Z); [| lia].
    split; [reflexivity |].
    split; [apply length_delete, lookup_lt_is_Some; lia |].
    split; [reflexivity |]. split.
    + intros c. unfold clauseAt. destruct (i <? 0)%Z; [discriminate |].
      intros Hc. by rewrite list_lookup_alter_eq, Hc.
    + intros j Hj. unfold clauseAt. destruct (j <? 0)%Z eqn:Hneg; [reflexivity |].
      apply Z.ltb_ge in Hneg. apply list_lookup_alter_ne. lia.
  - intros Hi. destruct (decide (0 <= i)%Z) as [Hle |]; [| done].
    split; [apply delete_past_end | apply alter_past_end]; lia.
  - destruct (decide (0 <= i)%Z); [apply length_alter | reflexivity].
Qed.

End EditorFacts.

(* ===================================================================== *)
(** ** Properties of the modal of distinct values *)
(* ===================================================================== *)

Section ModalFacts.
Import QueryEditor EditorSpec.

Variable backend : DataSource.MyQuery -> DataSource.settled.

Lemma falsy_nonempty (s : string) : s <> "" -> DataSource.falsy s = false.
Proof. intros H. by apply String.eqb_neq. Qed.

Lemma truthy_nonempty (s : option string) :
  truthy s = true -> exists text, s = Some text /\ text <> "".
Proof.
  destruct s as [text |]; [| discriminate]. simpl.
  intros H. apply negb_true_iff, String.eqb_neq in H. by exists text.
Qed.

(** One page of values: the two requests it takes, and what its
    [hasMore] tells. *)
Lemma pageOf_run schema table column off pattern issued :
  schema <> "" -> table <> "" -> column <> "" ->
  (pageOf backend schema table column off pattern issued).2
    = issued ++ pageRequests schema table column off (DataSource.stringOr pattern) /\
  (DataSource.hasMore (pageOf backend schema table column off pattern issued).1
     = true ->
   (off + Z.of_nat (length (DataSource.pageValues
                              (pageOf backend schema table column off pattern issued).1))
    < DataSource.totalCount
        (pageOf backend schema table column off pattern issued).1)%Z).
Proof.
  intros Hs Ht Hc. unfold pageOf.
  pose proof (getDistinctColumnValues_run backend schema table column
                (Some (DataSource.mkOptions (Some PAGE_SIZE) (Some off) pattern))
                issued
                (nonempty_args _ _ _ (falsy_nonempty _ Hs) (falsy_nonempty _ Ht)
                   (falsy_nonempty _ Hc))) as Hrun.
  simpl in Hrun.
  replace (if (off =? 0)%Z then 0%Z else off) with off in Hrun
    by (destruct (Z.eqb_spec off 0); congruence).
  rewrite Hrun. clear Hrun. simpl. split; [reflexivity |].
  destruct (backend _) as [[[[[| frame frames] |]] |] | error];
    try discriminate.
  destruct (DataSource.fields frame) as [[| field fields'] |];
    try discriminate.
  simpl. intros H. by apply Z.ltb_lt in H.
Qed.

(** The guard of [navigatePage] and [handleSearchChange] when the modal
    points at a clause. *)
Lemma browsing_guard st query schema table clause :
  browsing st query schema table clause ->
  negb (currentWhereClauseIndex st =? -1)%Z && truthy (q_schema query)
    && truthy (q_table query) = true /\
  DataSource.falsy (column clause) = false.
Proof.
  intros (Hs & Hsne & Ht & Htne & Hidx & Hclause & Hcol).
  rewrite Hs, Ht, (truthy_Some _ Hsne), (truthy_Some _ Htne).
  apply Z.eqb_neq in Hidx. rewrite Hidx. split; [reflexivity |].
  by apply falsy_nonempty.
Qed.

Lemma targetPage_max dir st :
  targetPage dir st
  = match dir with
    | Next => (currentPage st + 1)%Z
    | Prev => Z.max 0 (currentPage st - 1)
    end.
Proof.
  destruct dir; [reflexivity |]. unfold targetPage.
  destruct (Z.leb_spec (currentPage st) 0); lia.
Qed.

(** *** The handlers on their paths *)

(** The state with the page of a request shown. *)
Lemma navigatePage_browsing dir st query schema table clause issued :
  browsing st query schema table clause ->
  navigatePage backend dir st query issued
  = (Done (setLoading
             (setPage
                (showPage (setLoading st true)
                   (pageOf backend schema table (column clause)
                      (targetPage dir st * PAGE_SIZE)
                      (Some (searchFilter st)) issued).1)
                (targetPage dir st))
             false),
     issued ++ pageRequests schema table (column clause)
                 (targetPage dir st * PAGE_SIZE) (searchFilter st)).
Proof.
  intros Hbrowsing.
  destruct (browsing_guard _ _ _ _ _ Hbrowsing) as [Hguard Hcolumn].
  destruct Hbrowsing as (Hs & Hsne & Ht & Htne & Hidx & Hclause & Hcol).
  destruct (pageOf_run schema table (column clause)
              (targetPage dir st * PAGE_SIZE)
              (Some (searchFilter st)) issued Hsne Htne Hcol) as [Hissued _].
  unfold navigatePage. rewrite Hguard, Hclause.
  unfold DataSource.falsy in Hcolumn. rewrite Hcolumn.
  change (negb false) with true. cbv iota.
  rewrite Hs, Ht. simpl default. rewrite <- targetPage_max.
  unfold DataSource.await. simpl searchFilter.
  fold (pageOf backend schema table (column clause)
          (targetPage dir st * PAGE_SIZE) (Some (searchFilter st))).
  destruct (pageOf backend schema table (column clause)
              (targetPage dir st * PAGE_SIZE)
              (Some (searchFilter st)) issued) as [found issued'].
  simpl in Hissued. by subst issued'.
Qed.

(** The state as [handleSearchChange] leaves it before its request. *)
Local Abbreviation searching st text :=
  (setBrowse st (isValuesModalOpen st) (loadingDistinctValues st)
     (distinctValues st) (totalValueCount st) (selectedValue st)
     (currentWhereClauseIndex st) text 0 (hasMoreValues st) (error st)).

Lemma handleSearchChange_browsing text st query schema table clause issued :
  browsing st query schema table clause ->
  let result :=
    (pageOf backend schema table (column clause) 0 (Some text) issued).1 in
  handleSearchChange backend text st query issued
  = (Done (setBrowse st (isValuesModalOpen st) false
             (DataSource.pageValues result) (DataSource.totalCount result)
             (match DataSource.pageValues result with
              | [only] =>
                  if negb (String.eqb text "") then only else selectedValue st
              | _ => selectedValue st
              end)
             (currentWhereClauseIndex st) text 0 (DataSource.hasMore result)
             (error st)),
     issued ++ pageRequests schema table (column clause) 0 text).
Proof.
  intros Hbrowsing result.
  destruct (browsing_guard _ _ _ _ _ Hbrowsing) as [Hguard Hcolumn].
  destruct Hbrowsing as (Hs & Hsne & Ht & Htne & Hidx & Hclause & Hcol).
  destruct (pageOf_run schema table (column clause) 0
              (Some text) issued Hsne Htne Hcol) as [Hissued _].
  unfold handleSearchChange.
  cbn [currentWhereClauseIndex whereClauses setBrowse]. rewrite Hguard, Hclause.
  unfold DataSource.falsy in Hcolumn. rewrite Hcolumn.
  change (negb false) with true. cbv iota.
  rewrite Hs, Ht. simpl default.
  unfold DataSource.await.
  fold (pageOf backend schema table (column clause) 0 (Some text)).
  subst result.
  destruct (pageOf backend schema table (column clause) 0 (Some text) issued)
    as [found issued'].
  simpl in Hissued. subst issued'. simpl fst.
  unfold DataSource.ret, showPage, setLoading, setBrowse. simpl.
  destruct (DataSource.pageValues found) as [| only [| other rest]];
    try reflexivity.
  by destruct (negb (String.eqb text "")).
Qed.

Lemma loadDistinctValues_browsing index st query schema table clause issued :
  q_schema query = Some schema -> schema <> "" ->
  q_table query = Some table -> table <> "" ->
  clauseAt (whereClauses st) index = Some clause -> column clause <> "" ->
  let result :=
    (pageOf backend schema table (column clause) 0 None issued).1 in
  loadDistinctValues backend index st query issued
  = (Done (setBrowse st true false
             (DataSource.pageValues result) (DataSource.totalCount result)
             "" index "" 0 (DataSource.hasMore result) (error st)),
     issued ++ pageRequests schema table (column clause) 0 "").
Proof.
  intros Hs Hsne Ht Htne Hclause Hcol result.
  destruct (pageOf_run schema table (column clause) 0 None issued
              Hsne Htne Hcol) as [Hissued _].
  unfold loadDistinctValues.
  rewrite Hs, Ht, (truthy_Some _ Hsne), (truthy_Some _ Htne), Hclause.
  apply String.eqb_neq in Hcol. rewrite Hcol.
  change (negb true || negb true) with false. cbv iota.
  change (default "" (Some schema)) with schema.
  change (default "" (Some table)) with table.
  unfold DataSource.await.
  fold (pageOf backend schema table (column clause) 0 None).
  subst result.
  destruct (pageOf backend schema table (column clause) 0 None issued)
    as [found issued'].
  simpl in Hissued. by subst issued'.
Qed.

(** When the modal does not point at a clause with a column, of a query
    with schema and table, the two handlers request nothing. *)
Lemma navigatePage_cases dir st query issued :
  (exists schema table clause, browsing st query schema table clause) \/
  (navigatePage backend dir st query issued).2 = issued /\
  stateOf (navigatePage backend dir st query issued).1 = st.
Proof.
  unfold navigatePage.
  destruct (Z.eqb_spec (currentWhereClauseIndex st) (-1)) as [| Hidx];
    [by right |].
  destruct (truthy (q_schema query)) eqn:Hs; [| by right].
  destruct (truthy (q_table query)) eqn:Ht; [| by right].
  apply truthy_nonempty in Hs as (schema & Hs & Hsne).
  apply truthy_nonempty in Ht as (table & Ht & Htne).
  destruct (clauseAt (whereClauses st) (currentWhereClauseIndex st))
    as [clause |] eqn:Hclause; [| by right].
  destruct (String.eqb_spec (column clause) "") as [| Hcol]; [by right |].
  left. by exists schema, table, clause.
Qed.

Lemma handleSearchChange_cases text st query issued :
  (exists schema table clause, browsing st query schema table clause) \/
  (handleSearchChange backend text st query issued).2 = issued /\
  stateOf (handleSearchChange backend text st query issued).1
    = searching st text.
Proof.
  unfold handleSearchChange.
  cbn [currentWhereClauseIndex whereClauses setBrowse].
  destruct (Z.eqb_spec (currentWhereClauseIndex st) (-1)) as [| Hidx];
    [by right |].
  destruct (truthy (q_schema query)) eqn:Hs; [| by right].
  destruct (truthy (q_table query)) eqn:Ht; [| by right].
  apply truthy_nonempty in Hs as (schema & Hs & Hsne).
  apply truthy_nonempty in Ht as (table & Ht & Htne).
  destruct (clauseAt (whereClauses st) (currentWhereClauseIndex st))
    as [clause |] eqn:Hclause; [| by right].
  destruct (String.eqb_spec (column clause) "") as [| Hcol]; [by right |].
  left. by exists schema, table, clause.
Qed.

Lemma loadDistinctValues_cases index st query issued :
  (exists schema table clause,
     q_schema query = Some schema /\ schema <> "" /\
     q_table query = Some table /\ table <> "" /\
     clauseAt (whereClauses st) index = Some clause /\ column clause <> "") \/
  (loadDistinctValues backend index st query issued).2 = issued /\
  stateOf (loadDistinctValues backend index st query issued).1 = st.
Proof.
  unfold loadDistinctValues.
  destruct (truthy (q_schema query)) eqn:Hs; [| by right].
  destruct (truthy (q_table query)) eqn:Ht; [| by right].
  apply truthy_nonempty in Hs as (schema & Hs & Hsne).
  apply truthy_nonempty in Ht as (table & Ht & Htne).
  change (negb true) with false. cbv iota. simpl orb. cbv iota.
  destruct (clauseAt (whereClauses st) index) as [clause |] eqn:Hclause;
    [| by right].
  destruct (String.eqb_spec (column clause) "") as [| Hcol]; [by right |].
  left. by exists schema, table, clause.
Qed.

(** X20. With the modal on a clause with a column, of a query with schema
    and table, a click on Next or Prev makes exactly the two requests of
    one page: the page after the current one for Next, the page before it
    for Prev (page 0 again on page 0 or before), at offset page * 100 and
    with the search filter of the state.  It ends with that page number
    and the values, count and [hasMore] of the page in the state, nothing
    loading, and search filter, selected value and clause index as they
    were. *)
Theorem navigatePage_turns_page (dir : direction) (st : State) (query : MyQuery)
    (schema table : string) (clause : WhereClause)
    (issued : list DataSource.MyQuery) :
  browsing st query schema table clause ->
  let page := targetPage dir st in
  let result :=
    (pageOf backend schema table (column clause) (page * PAGE_SIZE)
       (Some (searchFilter st)) issued).1 in
  exists st',
    navigatePage backend dir st query issued
      = (Done st',
         issued ++ pageRequests schema table (column clause)
                     (page * PAGE_SIZE) (searchFilter st)) /\
    currentPage st' = page /\
    distinctValues st' = DataSource.pageValues result /\
    totalValueCount st' = DataSource.totalCount result /\
    hasMoreValues st' = DataSource.hasMore result /\
    loadingDistinctValues st' = false /\
    searchFilter st' = searchFilter st /\
    selectedValue st' = selectedValue st /\
    currentWhereClauseIndex st' = currentWhereClauseIndex st /\
    browsing st' query schema table clause.
Proof.
  intros Hbrowsing page result.
  rewrite (navigatePage_browsing dir _ _ _ _ _ issued Hbrowsing).
  destruct Hbrowsing as (Hs & Hsne & Ht & Htne & Hidx & Hclause & Hcol).
  eexists. split; [reflexivity |]. simpl. by repeat split.
Qed.

(** X21. With the modal on such a clause, a change of the search text
    makes exactly the two requests of the first page for the new text,
    whatever page was shown, and ends on page 0 with the new text as
    filter and the values, count and [hasMore] of that page.  The one
    value of a page of one value becomes the selected value when the text
    is not empty; in every other case the selected value stays. *)
Theorem handleSearchChange_first_page (text : string) (st : State)
    (query : MyQuery) (schema table : string) (clause : WhereClause)
    (issued : list DataSource.MyQuery) :
  browsing st query schema table clause ->
  let result :=
    (pageOf backend schema table (column clause) 0 (Some text) issued).1 in
  exists st',
    handleSearchChange backend text st query issued
      = (Done st',
         issued ++ pageRequests schema table (column clause) 0 text) /\
    searchFilter st' = text /\
    currentPage st' = 0%Z /\
    distinctValues st' = DataSource.pageValues result /\
    totalValueCount st' = DataSource.totalCount result /\
    hasMoreValues st' = DataSource.hasMore result /\
    loadingDistinctValues st' = false /\
    (forall only,
       DataSource.pageValues result = [only] -> text <> "" ->
       selectedValue st' = only) /\
    (length (DataSource.pageValues result) <> 1%nat \/ text = "" ->
     selectedValue st' = selectedValue st).
Proof.
  intros Hbrowsing result.
  rewrite (handleSearchChange_browsing text _ _ _ _ _ issued Hbrowsing).
  fold result.
  eexists. split; [reflexivity |]. simpl.
  repeat split; try reflexivity.
  - intros only -> Htext. apply String.eqb_neq in Htext. by rewrite Htext.
  - intros [Hlen | ->].
    + by destruct (DataSource.pageValues result) as [| only [| other rest]].
    + by destruct (DataSource.pageValues result) as [| only [| other rest]].
Qed.

(** X22. [loadDistinctValues] without schema or table requests nothing
    and changes nothing; with both and an index outside the clauses it
    throws a TypeError before any request; on a clause without column it
    requests nothing.  On a clause with a column it makes the two
    requests of the first page without search pattern and leaves the
    modal open on that clause, with empty search filter and selection,
    page 0, the values, count and [hasMore] of the page, nothing loading,
    and Next, Prev and search ready to work on that clause. *)
Theorem loadDistinctValues_outcomes (index : Z) (st : State) (query : MyQuery)
    (issued : list DataSource.MyQuery) :
  (truthy (q_schema query) = false \/ truthy (q_table query) = false ->
   loadDistinctValues backend index st query issued = (Done st, issued)) /\
  (forall schema table,
     q_schema query = Some schema -> schema <> "" ->
     q_table query = Some table -> table <> "" ->
     (clauseAt (whereClauses st) index = None ->
      loadDistinctValues backend index st query issued
        = (Threw st DataSource.TypeError, issued)) /\
     (forall clause,
        clauseAt (whereClauses st) index = Some clause ->
        (column clause = "" ->
         loadDistinctValues backend index st query issued = (Done st, issued)) /\
        (column clause <> "" ->
         let result :=
           (pageOf backend schema table (column clause) 0 None issued).1 in
         exists st',
           loadDistinctValues backend index st query issued
             = (Done st',
                issued ++ pageRequests schema table (column clause) 0 "") /\
           isValuesModalOpen st' = true /\
           currentWhereClauseIndex st' = index /\
           searchFilter st' = "" /\ selectedValue st' = "" /\
           currentPage st' = 0%Z /\
           distinctValues st' = DataSource.pageValues result /\
           totalValueCount st' = DataSource.totalCount result /\
           hasMoreValues st' = DataSource.hasMore result /\
           loadingDistinctValues st' = false /\
           browsing st' query schema table clause))).
Proof.
  split.
  - unfold loadDistinctValues. by intros [-> | ->]; [| rewrite orb_true_r].
  - intros schema table Hs Hsne Ht Htne. split.
    + intros Hclause. unfold loadDistinctValues.
      by rewrite Hs, Ht, (truthy_Some _ Hsne), (truthy_Some _ Htne), Hclause.
    + intros clause Hclause. split.
      * intros Hcol. unfold loadDistinctValues.
        rewrite Hs, Ht, (truthy_Some _ Hsne), (truthy_Some _ Htne), Hclause.
        by rewrite Hcol.
      * intros Hcol result.
        rewrite (loadDistinctValues_browsing index _ _ _ _ _ issued
                   Hs Hsne Ht Htne Hclause Hcol).
        eexists. split; [reflexivity |]. simpl.
        repeat split; try done.
        simpl. intros Heq. rewrite Heq in Hclause. discriminate.
Qed.


(** X24. Search, then apply: with the modal on such a clause, a search
    text that is not empty and a page of exactly one value, a value that
    is not empty, [handleSearchChange] followed by [applySelectedValue]
    puts that value into the clause of the modal, leaves column and
    operator of the clause and all other clauses as they are, closes the
    modal, and reports the clauses of the state to the host.  When the
    one value is the empty text, the clauses stay as they are. *)
Theorem search_then_apply_fills_clause (text only : string) (st : State)
    (query : MyQuery) (schema table : string) (clause : WhereClause)
    (issued : list DataSource.MyQuery) :
  browsing st query schema table clause ->
  text <> "" ->
  DataSource.pageValues
    (pageOf backend schema table (column clause) 0 (Some text) issued).1
    = [only] ->
  exists st1 issued',
    handleSearchChange backend text st query issued = (Done st1, issued') /\
    let applied := applySelectedValue st1 query in
    isValuesModalOpen applied.1 = false /\
    (only <> "" ->
     clauseAt (whereClauses applied.1) (currentWhereClauseIndex st)
       = Some (mkWhereClause (column clause) (operator clause) only) /\
     (forall j, j <> currentWhereClauseIndex st ->
        clauseAt (whereClauses applied.1) j = clauseAt (whereClauses st) j) /\
     q_whereClauses applied.2 = Some (whereClauses applied.1)) /\
    (only = "" ->
     whereClauses applied.1 = whereClauses st /\ applied.2 = query).
Proof.
  intros Hbrowsing Htext Hvalues.
  rewrite (handleSearchChange_browsing text _ _ _ _ _ issued Hbrowsing).
  cbv zeta. rewrite Hvalues.
  apply String.eqb_neq in Htext. rewrite Htext.
  change (negb false) with true. cbv iota.
  destruct Hbrowsing as (Hs & Hsne & Ht & Htne & Hidx & Hclause & Hcol).
  eexists _, _. split; [reflexivity |].
  unfold applySelectedValue. simpl currentWhereClauseIndex.
  simpl selectedValue.
  apply Z.eqb_neq in Hidx. rewrite Hidx. change (negb false) with true.
  split.
  - by destruct (true && negb (String.eqb only "")).
  - split.
    + intros Honly. apply String.eqb_neq in Honly. rewrite Honly.
      change (true && negb false) with true. cbv iota.
      unfold onUpdateWhereClause. simpl.
      rewrite (mapIndex_alter
                 (fun c => mkWhereClause (column c) (operator c) only)
                 (currentWhereClauseIndex st) (whereClauses st) 0).
      rewrite Z.sub_0_r.
      assert (Hpos : (0 <= currentWhereClauseIndex st)%Z).
      { unfold clauseAt in Hclause.
        destruct (Z.ltb_spec (currentWhereClauseIndex st) 0);
          [discriminate | done]. }
      destruct (decide (0 <= currentWhereClauseIndex st)%Z); [| done].
      unfold clauseAt in *.
      destruct (currentWhereClauseIndex st <? 0)%Z; [discriminate |].
      split; [by rewrite list_lookup_alter_eq, Hclause |].
      split; [| reflexivity].
      intros j Hj. destruct (j <? 0)%Z eqn:Hneg; [reflexivity |].
      apply Z.ltb_ge in Hneg. apply list_lookup_alter_ne. lia.
    + intros ->. simpl. done.
Qed.

End ModalFacts.

Section UndoFacts.
Import QueryEditor EditorSpec.

Lemma filter_fresh n (cols : list SelectedColumn) :
  n ∉ map name cols ->
  List.filter (fun c => negb (String.eqb (name c) n)) cols = cols.
Proof.
  induction cols as [| c cols IH]; [reflexivity |]. simpl. intros Hn.
  apply not_elem_of_cons in Hn as [Hne Hn].
  destruct (String.eqb_spec (name c) n) as [Heq | _]; [by destruct Hne |].
  simpl. by rewrite (IH Hn).
Qed.

(** X25. Adding and then removing undoes: the clause that
    [onAddWhereClause] appends is the one [onRemoveWhereClause] removes
    at the old length, and the clauses are as before.  A column that is
    chosen and not yet selected is appended by [onAddColumn] without the
    time-series flag, and the choice is cleared; [onRemoveColumn] of that
    name then gives back the selected columns and, when the time-series
    column was among them, the time-series column.  With nothing chosen,
    or a column that is selected already, [onAddColumn] does nothing. *)
Theorem add_then_remove_restores (st : State) (query : MyQuery) :
  (let added := onAddWhereClause st query in
   length (whereClauses added.1) = S (length (whereClauses st)) /\
   whereClauses
     (onRemoveWhereClause (Z.of_nat (length (whereClauses st)))
        added.1 added.2).1
   = whereClauses st) /\
  (newColumnSelection st <> "" ->
   newColumnSelection st ∉ map name (selectedColumns st) ->
   (forall ts, timeseriesColumn st = Some ts ->
      ts ∈ map name (selectedColumns st)) ->
   let added := onAddColumn st query in
   let removed := onRemoveColumn (newColumnSelection st) added.1 added.2 in
   selectedColumns added.1
     = selectedColumns st
       ++ [mkSelectedColumn (newColumnSelection st) (Some false)] /\
   newColumnSelection added.1 = "" /\
   selectedColumns removed.1 = selectedColumns st /\
   timeseriesColumn removed.1 = timeseriesColumn st /\
   q_selectedColumns removed.2 = Some (selectedColumns st)) /\
  (newColumnSelection st = "" \/
   newColumnSelection st ∈ map name (selectedColumns st) ->
   onAddColumn st query = (st, query)).
Proof.
  split; [| split].
  - simpl. split; [rewrite length_app; simpl; lia |].
    rewrite filterIndex_delete.
    destruct (decide (0 <= Z.of_nat (length (whereClauses st)))%Z); [| lia].
    rewrite Z.sub_0_r, Nat2Z.id, delete_take_drop.
    rewrite take_app_length, drop_ge; [apply app_nil_r |].
    rewrite length_app. simpl. lia.
  - intros Hchosen Hfresh Hts added removed. subst removed added.
    unfold onAddColumn.
    apply String.eqb_neq in Hchosen. rewrite Hchosen.
    destruct (existsb _ (selectedColumns st)) eqn:Hexists.
    { apply existsb_name in Hexists. by destruct Hfresh. }
    simpl. rewrite List.filter_app. simpl. rewrite String.eqb_refl. simpl.
    rewrite app_nil_r, (filter_fresh _ _ Hfresh).
    repeat split; try reflexivity.
    destruct (timeseriesColumn st) as [ts |] eqn:Hcolumn; [| done].
    destruct (String.eqb_spec ts (newColumnSelection st)) as [Heq | _];
      [| done].
    destruct Hfresh. rewrite <- Heq. by apply Hts.
  - intros [Hnone | Hselected]; unfold onAddColumn.
    + by rewrite Hnone.
    + destruct (String.eqb _ ""); [done |].
      apply existsb_name in Hselected. by rewrite Hselected.
Qed.

End UndoFacts.

(* ===================================================================== *)
(** ** From the editor's filter to the backend's answer *)
(* ===================================================================== *)

Section FilterFacts.
Import DataSource TemplateSpec.

Variable newDate : string -> Date.
Variable templateSrv_replace : string -> string.
Variable time_Parse : string -> string -> option Time.
Variable Sprintf_v : value -> string.
Variable remote : string -> exchange.

(** Replacing by a text that is not empty empties no text. *)
Lemma replaceAll_nonempty pattern replacement s :
  s <> "" -> replacement <> "" -> replaceAll pattern replacement s <> "".
Proof.
  intros Hs Hreplacement. destruct s as [| c s]; [done |].
  rewrite replaceAll_cons.
  destruct (startsWith pattern (String c s)); [| discriminate].
  destruct replacement as [| r replacement]; [done | discriminate].
Qed.

(** X26. For a query text that the template service leaves as it is,
    [filterQuery] lets through exactly the queries whose text is not
    empty after [applyTemplateVariables], and those are exactly the
    queries that the backend's [query] does not turn down with "query
    text is empty". *)
Theorem filterQuery_matches_backend (queryText : option string) :
  templateSrv_replace (stringOr queryText) = stringOr queryText ->
  let text := applyTemplateVariables newDate templateSrv_replace queryText in
  exists resp,
    query time_Parse Sprintf_v remote (inr (mkQueryModel text))
      = Returned resp /\
    (filterQuery queryText = true <-> text <> "") /\
    (filterQuery queryText = false <->
       resp = ErrDataResponse StatusBadRequest "query text is empty").
Proof.
  intros Hsrv text.
  assert (Hfilter : filterQuery queryText = true <-> text <> "").
  { subst text. unfold applyTemplateVariables. rewrite Hsrv.
    destruct queryText as [given |]; simpl; [| split; [discriminate | done]].
    unfold falsy. rewrite negb_true_iff, String.eqb_neq. split.
    - intros Hgiven.
      apply replaceAll_nonempty; [| discriminate].
      apply replaceAll_nonempty; [exact Hgiven | discriminate].
    - intros Hresult ->. by destruct Hresult. }
  destruct (query_returns time_Parse Sprintf_v remote (inr (mkQueryModel text)))
    as [resp Hresp].
  exists resp. split; [exact Hresp |]. split; [exact Hfilter |].
  rewrite <- not_true_iff_false, Hfilter.
  simpl in Hresp.
  destruct (String.eqb_spec text "") as [Hempty | Hfull].
  - injection Hresp as <-. split; [done |]. intros _ Hne. by destruct Hne.
  - split; [intros Hno; by destruct Hno |].
    intros ->. exfalso.
    destruct (executeQuery remote text) as [[rows status] [err |]].
    + by destruct status.
    + destruct (convertToDataFrames_returns time_Parse Sprintf_v rows)
        as [frame Hframe].
      rewrite Hframe in Hresp. simpl in Hresp. discriminate.
Qed.

End FilterFacts.

(* ===================================================================== *)
(** ** What the builder hands on, and the pickers *)
(* ===================================================================== *)

Section HandOverFacts.
Import QueryEditor EditorSpec.

(** X27. [buildQuery] hands a query to the host exactly when schema and
    table are chosen.  That query differs from the one it was given in
    its text only, and its text starts with "SELECT ", so [filterQuery]
    lets it through. *)
Theorem built_query_passes_filter (st : State) (query : MyQuery) :
  (truthy (q_schema query) && truthy (q_table query) = false ->
   buildQueryChange st query = None) /\
  (truthy (q_schema query) && truthy (q_table query) = true ->
   exists built rest,
     buildQueryChange st query = Some built /\
     besidesText built = besidesText query /\
     q_queryText built = Some ("SELECT " +:+ rest) /\
     DataSource.filterQuery (q_queryText built) = true).
Proof.
  unfold buildQueryChange, buildQuery. split; intros Hguard; rewrite Hguard.
  - reflexivity.
  - destruct ((0 <? length (whereClauses st))%nat
              || truthy (timeseriesColumn st));
      (eexists _, _; split; [reflexivity |]; split; [reflexivity |];
       simpl q_queryText; split; reflexivity).
Qed.

End HandOverFacts.

Section LoaderFacts.
Import QueryEditor QueryEditor.Pickers.

Variable backend : DataSource.MyQuery -> DataSource.settled.

(** X28. The loaders of the pickers never throw and never end loading.
    Each makes the requests of its datasource function and nothing more;
    when that function returns, its values become the options of the
    list, each as label and value, and no error is shown; when it throws,
    the error is shown and both lists stay as they were.  So a schema
    whose tables query comes back with a frame without fields shows the
    error of [loadTables] and keeps the tables of the schema before. *)
Theorem loaders_finish_and_report (schema : string) (st : Lists)
    (issued : list DataSource.MyQuery) :
  let schemasLoaded := loadSchemas backend st issued in
  let tablesLoaded := loadTables backend schema st issued in
  (isLoading schemasLoaded.1 = false /\
   schemasLoaded.2 = (DataSource.getSchemas backend issued).2 /\
   tables schemasLoaded.1 = tables st /\
   match (DataSource.getSchemas backend issued).1 with
   | DataSource.Resolved found =>
       schemas schemasLoaded.1 = map (fun s => mkSelectable s s) found /\
       error schemasLoaded.1 = None
   | DataSource.Thrown err =>
       schemas schemasLoaded.1 = schemas st /\
       error schemasLoaded.1
       = Some ("Failed to load schemas. Please check your connection: "
               +:+ err)
   end) /\
  (isLoading tablesLoaded.1 = false /\
   tablesLoaded.2 = (DataSource.getTables backend schema issued).2 /\
   schemas tablesLoaded.1 = schemas st /\
   match (DataSource.getTables backend schema issued).1 with
   | DataSource.Resolved found =>
       tables tablesLoaded.1 = map (fun t => mkSelectable t t) found /\
       error tablesLoaded.1 = None
   | DataSource.Thrown err =>
       tables tablesLoaded.1 = tables st /\
       error tablesLoaded.1
       = Some ("Failed to load tables for schema " +:+ quote +:+ schema
               +:+ quote +:+ ".")
   end) /\
  (schema <> "" ->
   (exists frame frames,
      backend (DataSource.tablesQuery schema)
        = DataSource.Fulfilled
            (Some (DataSource.mkDataQueryResponse (Some (frame :: frames)))) /\
      (DataSource.fields frame = None \/ DataSource.fields frame = Some [])) ->
   tables tablesLoaded.1 = tables st /\ is_Some (error tablesLoaded.1)).
Proof.
  intros schemasLoaded tablesLoaded. subst schemasLoaded tablesLoaded.
  split; [| split].
  - unfold loadSchemas, DataSource.await.
    destruct (DataSource.getSchemas backend issued) as [[found | err] issued'];
      by repeat split.
  - unfold loadTables, DataSource.await.
    destruct (DataSource.getTables backend schema issued)
      as [[found | err] issued']; by repeat split.
  - intros Hschema (frame & frames & Hanswer & Hfields).
    unfold loadTables, DataSource.await, DataSource.getTables.
    apply String.eqb_neq in Hschema. unfold DataSource.falsy. rewrite Hschema.
    unfold DataSource.await, DataSource.this_query. rewrite Hanswer.
    destruct Hfields as [-> | ->]; simpl; by eauto.
Qed.

End LoaderFacts.

(* ===================================================================== *)
(** ** The properties on the samples *)
(* ===================================================================== *)

(** *** The backend *)


Lemma transport_failure_reported_witness :
  executeQuery PluginSamples.unreachable "SELECT 1"
  = ([], None, Some "error executing query: connection refused").
Proof.
  destruct (transport_failure_reported Parse Samples.sprint
              PluginSamples.unreachable "SELECT 1" ltac:(discriminate)
              ltac:(discriminate))
    as (err & Hrun & _ & Herr).
  rewrite Hrun. simpl in Herr. rewrite Herr. reflexivity.
Defined.


Lemma CheckHealth_ok_iff_witness :
  exists res,
    CheckHealth PluginSamples.accepting PluginSamples.ready = Returned res /\
    HealthState res = HealthStatusOk.
Proof.
  destruct (CheckHealth_ok_iff PluginSamples.accepting PluginSamples.ready
              (mkSecrets "grafana" "secret") eq_refl)
    as (res & Hrun & _ & Hok).
  exists res. split; [exact Hrun |]. apply Hok.
  repeat split; try discriminate.
  eexists. split; reflexivity.
Defined.

Lemma CheckHealth_missing_setting_witness :
  CheckHealth Samples.rejecting PluginSamples.hostless
  = Returned (mkHealth HealthStatusError "Host is missing").
Proof.
  destruct (CheckHealth_missing_setting PluginSamples.hostless
              (mkSecrets "grafana" "secret") eq_refl (or_introl eq_refl))
    as (what & Hwhat & Hall).
  rewrite Hall.
  destruct Hwhat as [[-> _] | [[_ H] | [[_ H] | [[_ H] | [_ H]]]]];
    [reflexivity | discriminate H ..].
Defined.

Lemma other_keys_ignored_witness :
  convertColumns Parse Samples.sprint (keys Samples.row1) Samples.row1
    [Samples.row1; Samples.row2]
  = convertColumns Parse Samples.sprint (keys Samples.row1) Samples.row1
      [Samples.row1; PluginSamples.row2'].
Proof.
  apply other_keys_ignored; [unfold rangeOrder; reflexivity |].
  repeat constructor.
  intros col Hcol. vm_compute in Hcol.
  repeat (apply elem_of_cons in Hcol as [-> | Hcol]; [reflexivity |]).
  inversion Hcol.
Defined.

Lemma visiting_order_permutes_fields_witness :
  exists frame frame',
    convertColumns Parse Samples.sprint (keys Samples.row1) Samples.row1
      [Samples.row1; Samples.row2] = Returned (frame, None) /\
    convertColumns Parse Samples.sprint (reverse (keys Samples.row1))
      Samples.row1 [Samples.row1; Samples.row2] = Returned (frame', None) /\
    Fields frame ≡ₚ Fields frame'.
Proof.
  destruct (visiting_order_permutes_fields Parse Samples.sprint Samples.row1
              [Samples.row1; Samples.row2] (keys Samples.row1)
              (reverse (keys Samples.row1)))
    as (frame & frame' & Hrun & Hrun' & _ & Hfields).
  - unfold rangeOrder. reflexivity.
  - apply reverse_Permutation.
  - exists frame, frame'. split; [exact Hrun |]. split; [exact Hrun' | exact Hfields].
Defined.


Lemma NewDatasource_ready_witness :
  exists d,
    NewDatasource (inr (mkSettings "db.example.com" 0 "metrics" false None)) ∅
      = inl d /\
    Port (settings d) = 443%Z /\
    Secrets (settings d) = Some (mkSecrets "" "").
Proof.
  destruct (NewDatasource_ready PluginSamples.accepting
              (inr (mkSettings "db.example.com" 0 "metrics" false None)) ∅)
    as (d & Hnew & _ & _ & Hport & _ & Hsecrets & _).
  exists d. split; [exact Hnew |]. split; [exact Hport | exact Hsecrets].
Defined.

(** *** The datasource of the front end *)

Lemma getTables_outcomes_witness :
  (DataSource.getTables EditorSamples.bare "s" []).1
  = DataSource.Thrown DataSource.TypeError.
Proof.
  destruct (getTables_outcomes EditorSamples.bare "s" []) as [_ Hfull].
  destruct (Hfull eq_refl) as (_ & _ & _ & Hbare & _).
  exact (Hbare _ _ eq_refl (or_intror eq_refl)).
Defined.

Lemma getSchemas_outcomes_witness :
  DataSource.getSchemas EditorSamples.bare []
  = (DataSource.Resolved [],
     [DataSource.mkQuery "test" "SELECT 1 as test"; DataSource.schemasQuery]).
Proof.
  destruct (getSchemas_outcomes EditorSamples.bare [])
    as (Hissued & _ & _ & Hbare & _).
  rewrite (surjective_pairing (DataSource.getSchemas EditorSamples.bare [])).
  rewrite Hissued, (Hbare _ eq_refl); [reflexivity |].
  intros field (frame & frames & fields' & Hanswer & Hfields).
  injection Hanswer as <- _. discriminate Hfields.
Defined.

Lemma getColumns_entries_witness :
  exists infos,
    (DataSource.getColumns EditorSamples.described "s" "t" []).1
      = DataSource.Resolved infos /\
    length infos = 2%nat /\
    infos !! 1%nat
      = Some (DataSource.mkColumnInfo (DataSource.JString "b")
                DataSource.JUndefined (DataSource.JString "YES")
                DataSource.JNull).
Proof.
  destruct (getColumns_entries EditorSamples.described "s" "t" []
              (DataSource.mkDataFrame (Some EditorSamples.description))
              [] EditorSamples.description) as [_ Hfull].
  destruct (Hfull eq_refl eq_refl eq_refl) as (_ & Hfound & _).
  destruct (Hfound _ _ _ _ eq_refl eq_refl eq_refl eq_refl)
    as (infos & Hrun & Hlength & Hentries).
  exists infos. split; [exact Hrun |]. split; [exact Hlength |].
  destruct (Hentries 1%nat ltac:(simpl; lia)) as [Hentry _]. exact Hentry.
Defined.

Lemma formatOcientTimestamp_round_trip_witness :
  DataSource.formatOcientTimestamp EditorSamples.newDate "2024-01-15T10:30:00.000Z"
    = "2024-01-15 10:30:00" /\
  Parse ocientTimestampFormat "2024-01-15 10:30:00"
    = Some (mkTime 2024 1 15 10 30 0 0 0).
Proof.
  destruct (formatOcientTimestamp_round_trip EditorSamples.newDate
              "2024-01-15T10:30:00.000Z") as [Hvalid _].
  destruct (Hvalid 2024 0 15 10 30 0 eq_refl)%Z as (_ & _ & Hnative).
  - unfold TemplateSpec.civil. repeat split; vm_compute; discriminate.
  - split; [reflexivity | exact Hnative].
Defined.

Lemma applyTemplateVariables_without_macro_witness :
  DataSource.applyTemplateVariables EditorSamples.newDate EditorSamples.plain
    (Some "SELECT 1")
  = "SELECT 1".
Proof.
  exact (applyTemplateVariables_without_macro EditorSamples.newDate
           EditorSamples.plain (Some "SELECT 1") eq_refl eq_refl).
Defined.

Lemma built_query_gets_time_range_witness :
  exists sql,
    QueryEditor.buildQuery (Some "s") (Some "t") [] [EditorSamples.clauseC]
      (Some "ts") = Some sql /\
    DataSource.applyTemplateVariables EditorSamples.newDate EditorSamples.plain
      (Some sql)
    = "SELECT * FROM s.t WHERE c = '' AND ts >= '2024-01-15 10:30:00' AND ts <= '2024-01-15 10:30:00' ORDER BY ts ASC".
Proof.
  destruct (built_query_gets_time_range EditorSamples.newDate
              EditorSamples.plain "s" "t" "ts" [] [EditorSamples.clauseC]
              ltac:(discriminate) ltac:(discriminate) ltac:(discriminate)
              eq_refl eq_refl eq_refl ltac:(constructor)
              ltac:(repeat constructor))
    as (sql & Hsql & Htext).
  exists sql. split; [exact Hsql |].
  rewrite Htext; [reflexivity |]. reflexivity.
Defined.

Lemma filterQuery_matches_backend_witness :
  DataSource.filterQuery (Some "SELECT 1") = true /\
  exists resp,
    query Parse Samples.sprint PluginSamples.accepting
      (inr (mkQueryModel "SELECT 1")) = Returned resp /\
    resp <> ErrDataResponse StatusBadRequest "query text is empty".
Proof.
  destruct (filterQuery_matches_backend EditorSamples.newDate
              EditorSamples.plain Parse Samples.sprint PluginSamples.accepting
              (Some "SELECT 1") eq_refl)
    as (resp & Hrun & Hfilter & Hempty).
  split; [reflexivity |]. exists resp. split; [exact Hrun |].
  intros Hresp. apply Hempty in Hresp. discriminate Hresp.
Defined.

(** *** The editor *)

Lemma editing_consistent : EditorSpec.consistent EditorSamples.editing.
Proof.
  unfold EditorSpec.consistent. simpl. split; [| split].
  - apply NoDup_cons. split; [| apply NoDup_singleton].
    intros Hin. apply list_elem_of_singleton in Hin. discriminate Hin.
  - intros ts [= <-]. apply elem_of_cons. by left.
  - intros c Hc.
    apply elem_of_cons in Hc as [-> | Hc];
      [| apply list_elem_of_singleton in Hc as ->]; simpl.
    + split; reflexivity.
    + split; discriminate.
Defined.

Lemma editing_browsing :
  EditorSpec.browsing EditorSamples.editing EditorSamples.chosen "s" "t"
    EditorSamples.clauseC.
Proof. unfold EditorSpec.browsing. simpl. repeat split; discriminate. Defined.

Lemma column_handlers_keep_consistency_witness :
  EditorSpec.consistent
    (QueryEditor.onRemoveColumn "a" EditorSamples.editing EditorSamples.chosen).1 /\
  EditorSpec.consistent
    (QueryEditor.onToggleTimeseriesColumn "b" true EditorSamples.editing
       EditorSamples.chosen).1.
Proof.
  destruct (column_handlers_keep_consistency EditorSamples.editing
              EditorSamples.chosen editing_consistent)
    as (_ & Hremove & Hmark & _).
  split; [apply Hremove | apply Hmark].
  simpl. apply elem_of_cons. right. apply elem_of_cons. by left.
Defined.

Lemma handlers_keep_query_in_step_witness :
  EditorSpec.inStep
    (QueryEditor.onAddColumn EditorSamples.editing EditorSamples.chosen).1
    (QueryEditor.onAddColumn EditorSamples.editing EditorSamples.chosen).2 /\
  QueryEditor.q_selectedColumns
    (QueryEditor.onAddColumn EditorSamples.editing EditorSamples.chosen).2
  = Some [EditorSamples.columnA; EditorSamples.columnB;
          QueryEditor.mkSelectedColumn "d" (Some false)].
Proof.
  destruct (handlers_keep_query_in_step EditorSamples.editing
              EditorSamples.chosen) as (Hadd & _).
  - repeat split.
  - split; [exact Hadd | reflexivity].
Defined.

Lemma where_clause_by_index_witness :
  QueryEditor.whereClauses
    (QueryEditor.onRemoveWhereClause 0 EditorSamples.editing
       EditorSamples.chosen).1 = [] /\
  QueryEditor.whereClauses
    (QueryEditor.onRemoveWhereClause (-1) EditorSamples.editing
       EditorSamples.chosen).1 = [EditorSamples.clauseC] /\
  QueryEditor.whereClauses
    (QueryEditor.onUpdateWhereClause 0 QueryEditor.FieldValue "5"
       EditorSamples.editing EditorSamples.chosen).1
  = [QueryEditor.mkWhereClause "c" "=" "5"].
Proof.
  destruct (where_clause_by_index EditorSamples.editing EditorSamples.chosen 0
              QueryEditor.FieldValue "5") as (Hinside & _ & _).
  destruct (where_clause_by_index EditorSamples.editing EditorSamples.chosen
              (-1) QueryEditor.FieldValue "5") as (_ & Houtside & _).
  destruct (Hinside ltac:(simpl; lia)) as (Hremoved & _ & Hupdated & _).
  destruct (Houtside ltac:(simpl; lia)) as (Hkept & _).
  split; [rewrite Hremoved; reflexivity |].
  split; [rewrite Hkept; reflexivity | rewrite Hupdated; reflexivity].
Defined.

Lemma navigatePage_turns_page_witness :
  exists st',
    QueryEditor.navigatePage BrowseSamples.table150 QueryEditor.Next
      EditorSamples.editing EditorSamples.chosen []
    = (QueryEditor.Done st',
       EditorSpec.pageRequests "s" "t" "c" 100 "") /\
    QueryEditor.currentPage st' = 1%Z /\
    length (QueryEditor.distinctValues st') = 50%nat /\
    QueryEditor.totalValueCount st' = 150%Z /\
    QueryEditor.hasMoreValues st' = false.
Proof.
  destruct (navigatePage_turns_page BrowseSamples.table150 QueryEditor.Next
              EditorSamples.editing EditorSamples.chosen "s" "t"
              EditorSamples.clauseC [] editing_browsing)
    as (st' & Hrun & Hpage & Hvalues & Htotal & Hmore & _).
  exists st'. split; [exact Hrun |].
  split; [exact Hpage |].
  split; [rewrite Hvalues; vm_compute; reflexivity |].
  split; [rewrite Htotal; vm_compute; reflexivity |].
  rewrite Hmore. vm_compute. reflexivity.
Defined.

Lemma handleSearchChange_first_page_witness :
  exists st',
    QueryEditor.handleSearchChange EditorSamples.single "ab"
      EditorSamples.editing EditorSamples.chosen []
    = (QueryEditor.Done st', EditorSpec.pageRequests "s" "t" "c" 0 "ab") /\
    QueryEditor.searchFilter st' = "ab" /\
    QueryEditor.selectedValue st' = "abc".
Proof.
  destruct (handleSearchChange_first_page EditorSamples.single "ab"
              EditorSamples.editing EditorSamples.chosen "s" "t"
              EditorSamples.clauseC [] editing_browsing)
    as (st' & Hrun & Hfilter & _ & _ & _ & _ & _ & Hone & _).
  exists st'. split; [exact Hrun |]. split; [exact Hfilter |].
  apply Hone; [vm_compute; reflexivity | discriminate].
Defined.

Lemma loadDistinctValues_outcomes_witness :
  (exists st',
     QueryEditor.loadDistinctValues BrowseSamples.table150 0
       EditorSamples.editing EditorSamples.chosen []
     = (QueryEditor.Done st', EditorSpec.pageRequests "s" "t" "c" 0 "") /\
     QueryEditor.isValuesModalOpen st' = true /\
     QueryEditor.hasMoreValues st' = true) /\
  QueryEditor.loadDistinctValues BrowseSamples.table150 1
    EditorSamples.editing EditorSamples.chosen []
  = (QueryEditor.Threw EditorSamples.editing DataSource.TypeError, []).
Proof.
  destruct (loadDistinctValues_outcomes BrowseSamples.table150 0
              EditorSamples.editing EditorSamples.chosen []) as [_ Hfirst].
  destruct (loadDistinctValues_outcomes BrowseSamples.table150 1
              EditorSamples.editing EditorSamples.chosen []) as [_ Hsecond].
  destruct (Hfirst "s" "t" eq_refl ltac:(discriminate) eq_refl
              ltac:(discriminate)) as [_ Hclause].
  destruct (Hsecond "s" "t" eq_refl ltac:(discriminate) eq_refl
              ltac:(discriminate)) as [Hthrown _].
  destruct (Hclause EditorSamples.clauseC eq_refl) as [_ Hload].
  destruct (Hload ltac:(discriminate))
    as (st' & Hrun & Hopen & _ & _ & _ & _ & _ & _ & Hmore & _).
  split.
  - exists st'. split; [exact Hrun |]. split; [exact Hopen |].
    rewrite Hmore. vm_compute. reflexivity.
  - exact (Hthrown eq_refl).
Defined.


Lemma search_then_apply_fills_clause_witness :
  exists st1 issued,
    QueryEditor.handleSearchChange EditorSamples.single "ab"
      EditorSamples.editing EditorSamples.chosen []
    = (QueryEditor.Done st1, issued) /\
    QueryEditor.whereClauses
      (QueryEditor.applySelectedValue st1 EditorSamples.chosen).1
    = [QueryEditor.mkWhereClause "c" "=" "abc"].
Proof.
  destruct (search_then_apply_fills_clause EditorSamples.single "ab" "abc"
              EditorSamples.editing EditorSamples.chosen "s" "t"
              EditorSamples.clauseC [] editing_browsing ltac:(discriminate)
              eq_refl)
    as (st1 & issued & Hrun & _ & Hfilled & _).
  exists st1, issued. split; [exact Hrun |].
  destruct (Hfilled ltac:(discriminate)) as (_ & _ & Hreported).
  simpl in Hrun. injection Hrun as <- _. reflexivity.
Defined.

Lemma add_then_remove_restores_witness :
  QueryEditor.selectedColumns
    (QueryEditor.onRemoveColumn "d"
       (QueryEditor.onAddColumn EditorSamples.editing EditorSamples.chosen).1
       (QueryEditor.onAddColumn EditorSamples.editing EditorSamples.chosen).2).1
  = [EditorSamples.columnA; EditorSamples.columnB].
Proof.
  destruct (add_then_remove_restores EditorSamples.editing EditorSamples.chosen)
    as (_ & Hcolumn & _).
  destruct Hcolumn as (_ & _ & Hrestored & _).
  - discriminate.
  - simpl. intros Hin.
    apply elem_of_cons in Hin as [Hin | Hin]; [discriminate Hin |].
    apply list_elem_of_singleton in Hin. discriminate Hin.
  - intros ts [= <-]. apply elem_of_cons. by left.
  - exact Hrestored.
Defined.

Lemma built_query_passes_filter_witness :
  exists built,
    QueryEditor.buildQueryChange EditorSamples.editing EditorSamples.chosen
      = Some built /\
    DataSource.filterQuery (QueryEditor.q_queryText built) = true.
Proof.
  destruct (built_query_passes_filter EditorSamples.editing EditorSamples.chosen)
    as [_ Hbuilt].
  destruct (Hbuilt eq_refl) as (built & rest & Hrun & _ & _ & Hfilter).
  exists built. split; [exact Hrun | exact Hfilter].
Defined.

Lemma loaders_finish_and_report_witness :
  (QueryEditor.Pickers.loadTables EditorSamples.bare "s" EditorSamples.pickers
     []).1
  = QueryEditor.Pickers.mkLists []
      (QueryEditor.Pickers.tables EditorSamples.pickers) false
      (Some ("Failed to load tables for schema " +:+ QueryEditor.Pickers.quote
             +:+ "s" +:+ QueryEditor.Pickers.quote +:+ ".")).
Proof.
  destruct (loaders_finish_and_report EditorSamples.bare "s"
              EditorSamples.pickers []) as (_ & _ & Hbare).
  destruct Hbare as [Htables Herror].
  - discriminate.
  - eexists _, _. split; [reflexivity |]. by right.
  - reflexivity.
Defined.
